(** * recording-trimmer: the spike-detection engine of [analysis.py]

    A shallow embedding of [log_buffer], [analyze_file_dynamic_scan] and
    [analyze_file_fixed_end], and the properties the specification states
    about them.  After them come the entry point [analyze_file] and the
    helpers around the scans, [validate_confirm_sec] of config.py,
    [resolve_output_path] of c_io.py, the trim point of main.py and the
    ellipses of utils.py, with properties read off their code.

    Conventions of the embedding.
    - A Python [float] is an IEEE binary64 value: Rocq's primitive [float],
      whose operations round exactly as CPython's do.  The rolling-average
      loop is written once over an arithmetic interface [Arith], so that it
      can also be read over exact rationals.
    - A Python [int] is a [Z]; list indices follow Python (a negative index
      counts from the end, anything else out of range raises [IndexError]).
    - A function that can raise returns an [outcome]; one that also writes
      to [logger.verbose] returns a [logged] value: the lines written so
      far, and the outcome.
    - [sum(xs)] is the left-to-right fold from 0 of the language reference
      (CPython 3.12 and later compensate rounding inside [sum] for floats;
      nothing below depends on the difference).
    - What runs a process or reads the file system or the clock, and the
      string builtins [split], [strip] and [int], are variables of the
      section that embeds their caller. *)

From Stdlib Require Import Sorted Ascii.
From stdpp Require sorting pretty.
From Stdlib Require Import ZArith Floats QArith Qcanon Lia.
From stdpp Require Import base list strings numbers.

Open Scope Z_scope.

(** ** Exceptions and the two result monads *)

Inductive exn : Type := ValueError | IndexError | OverflowError.

Inductive outcome (A : Type) : Type :=
  | Ret (a : A)
  | Raise (e : exn).
Arguments Ret {A} a.
Arguments Raise {A} e.

#[global] Instance outcome_ret : MRet outcome := @Ret.
#[global] Instance outcome_bind : MBind outcome := λ A B f m,
  match m with
  | Ret a => f a
  | Raise e => Raise e
  end.

(** ** Python lists *)

Definition len {A} (l : list A) : Z := Z.of_nat (length l).

(** [l[i]] *)
Definition py_getitem {A} (l : list A) (i : Z) : outcome A :=
  let j := if i <? 0 then i + len l else i in
  if j <? 0 then Raise IndexError
  else match l !! Z.to_nat j with
       | Some x => Ret x
       | None => Raise IndexError
       end.

(** [l[i] = x] *)
Definition py_setitem {A} (l : list A) (i : Z) (x : A) : outcome (list A) :=
  let j := if i <? 0 then i + len l else i in
  if (j <? 0) || (len l <=? j) then Raise IndexError
  else Ret (<[Z.to_nat j := x]> l).

(** [l[0:k]] *)
Definition py_slice_to {A} (l : list A) (k : Z) : list A :=
  take (Z.to_nat (if k <? 0 then k + len l else k)) l.

(** [l[:-1]] and [l[-1]] *)
Definition py_init {A} (l : list A) : list A := py_slice_to l (-1).

(** [range(a, b)] *)
Definition py_range (a b : Z) : list Z := seqZ a (b - a).

(** ** Arithmetic of the loudness values *)

Class Arith (F : Type) : Type := {
  fzero : F;                (* 0.0 *)
  fadd : F → F → F;         (* x + y *)
  fsub : F → F → F;         (* x - y *)
  fdiv : F → F → F;         (* x / y, y not zero *)
  of_int : Z → F;           (* the int operand of a float operation *)
}.

(** binary64: conversion of an int rounds to nearest, ties to even. *)
Definition float_of_int (z : Z) : float :=
  SF2Prim (binary_normalize prec emax z 0 false).

#[global] Instance float_arith : Arith float := {|
  fzero := 0%float;
  fadd := PrimFloat.add;
  fsub := PrimFloat.sub;
  fdiv := PrimFloat.div;
  of_int := float_of_int;
|}.

(** Exact arithmetic: the rationals. *)
#[global] Instance Qc_arith : Arith Qc := {|
  fzero := 0%Qc;
  fadd := Qcplus;
  fsub := Qcminus;
  fdiv := Qcdiv;
  of_int := λ z, Q2Qc (inject_Z z);
|}.

(** The laws of [+] and [-] that the sliding sum relies on. *)
Record ExactAdd (F : Type) `{Arith F} : Prop := {
  fadd_assoc : ∀ x y z : F, fadd x (fadd y z) = fadd (fadd x y) z;
  fadd_comm : ∀ x y : F, fadd x y = fadd y x;
  fadd_zero_l : ∀ x : F, fadd fzero x = x;
  fsub_add : ∀ x y : F, fadd (fsub x y) y = x;
}.

(** [sum(xs)] *)
Definition py_sum {F} `{Arith F} (xs : list F) : F := foldl fadd fzero xs.

(** ** Rolling averages (analysis.py 62-68 and 200-207)

    [[
    rolling_avgs = [0.0] * total_windows
    win_sum = sum(vals[0:window_size])
    rolling_avgs[0] = win_sum / window_size
    for i in range(1, total_windows):
        win_sum += vals[i + window_size - 1] - vals[i - 1]
        rolling_avgs[i] = win_sum / window_size
    ]]
    Both scans reach this code with [0 < window_size], so the division
    never sees a zero divisor. *)

Fixpoint rolling_loop {F} `{Arith F} (vals : list F) (window_size : Z)
    (idxs : list Z) (win_sum : F) (rolling_avgs : list F) : outcome (list F) :=
  match idxs with
  | [] => Ret rolling_avgs
  | i :: idxs =>
      entering ← py_getitem vals (i + window_size - 1);
      leaving ← py_getitem vals (i - 1);
      let win_sum := fadd win_sum (fsub entering leaving) in
      rolling_avgs ← py_setitem rolling_avgs i (fdiv win_sum (of_int window_size));
      rolling_loop vals window_size idxs win_sum rolling_avgs
  end.

Definition rolling {F} `{Arith F} (vals : list F) (window_size total_windows : Z)
    : outcome (list F) :=
  let rolling_avgs := replicate (Z.to_nat total_windows) fzero in
  let win_sum := py_sum (py_slice_to vals window_size) in
  rolling_avgs ← py_setitem rolling_avgs 0 (fdiv win_sum (of_int window_size));
  rolling_loop vals window_size (py_range 1 total_windows) win_sum rolling_avgs.

(** The reference the specification compares with: every window summed
    afresh, [sum(vals[i:i+w]) / w]. *)
Definition window_mean {F} `{Arith F} (vals : list F) (w : Z) (i : nat) : F :=
  fdiv (py_sum (take (Z.to_nat w) (drop i vals))) (of_int w).

Definition naive_rolling {F} `{Arith F} (vals : list F) (w : Z) : list F :=
  window_mean vals w <$> seq 0 (Z.to_nat (len vals - w + 1)).

(** The window sum as the loop maintains it: seeded with the first
    window, then one value entering and one leaving per step. *)
Fixpoint slide_sum {F} `{Arith F} (vals : list F) (w : nat) (i : nat) : F :=
  match i with
  | O => py_sum (take w vals)
  | S i =>
      fadd (slide_sum vals w i)
        (fsub (default fzero (vals !! (i + w)%nat)) (default fzero (vals !! i)))
  end.

(** Loudness values as ebur128 prints them, one decimal each. *)
Definition decimal (tenths : Z) : float := (float_of_int tenths / 10)%float.

Definition lufs_sample : list float := decimal <$> [-301; -234; -187; -122].

(** ** Floats as Python sees them *)

(** [int(x)]: truncation toward zero; NaN and the infinities raise. *)
Definition py_int (x : float) : outcome Z :=
  match Prim2SF x with
  | S754_nan => Raise ValueError
  | S754_infinity _ => Raise OverflowError
  | S754_zero _ => Ret 0
  | S754_finite s m e =>
      let magnitude := if 0 <=? e then Z.pos m * 2 ^ e else Z.pos m / 2 ^ (- e) in
      Ret (if s then - magnitude else magnitude)
  end.

(** utils.py, [seconds_to_hms]: [hours = int(seconds // 3600)] comes first
    and raises [ValueError] on NaN and on an infinity (whose floor quotient
    is NaN); every finite value is rendered.  The digits of the rendering
    are not modelled: [HMS seconds] stands for the text. *)
Inductive hms_text : Type := HMS (seconds : float).

Definition seconds_to_hms (seconds : float) : outcome hms_text :=
  if is_finite seconds then Ret (HMS seconds) else Raise ValueError.

(** [max(0.0, x)]: the second argument wins only when it is greater. *)
Definition py_max0 (x : float) : float := if (0 <? x)%float then x else 0%float.

(** ** Candidates and the diagnostic trail *)

Inductive cand_status : Type := Pass | Fail.

Definition is_fail (s : cand_status) : bool :=
  match s with Fail => true | Pass => false end.

(** ['pass_val'] is a float, or the string ['-inf'] (analysis.py 127). *)
Inductive pass_value : Type :=
  | PVFloat (x : float)
  | PVStr (s : string).

(** One element of ['confirm_results']; the constructor carries what the
    f-string interpolates. *)
Inductive confirm_result : Type :=
  | OutOfRange (offset : Z)
  | Below (offset : Z) (confirm_avg spike_avg : float)
  | Sustained (offset : Z) (confirm_avg : float).

Record candidate : Type := {
  status : cand_status;
  hms : hms_text;
  time : float;
  spike_avg : float;
  confirm_results : list confirm_result;
  pass_val : pass_value;
  pass_count : Z;
}.

(** A line handed to [logger.verbose] by [log_buffer]: the summary of a
    second's failures, or one buffered candidate in full. *)
Inductive log_line : Type :=
  | FailSummary (file : string) (best_fail : candidate)
  | ItemLine (file : string) (item : candidate).

Record logged (A : Type) : Type := Logged {
  trail : list log_line;
  result : outcome A;
}.
Arguments Logged {A} trail result.
Arguments trail {A} l.
Arguments result {A} l.

#[global] Instance logged_ret : MRet logged := λ A a, Logged [] (Ret a).
#[global] Instance logged_bind : MBind logged := λ A B f m,
  match result m with
  | Ret a => let r := f a in Logged (trail m ++ trail r) (result r)
  | Raise e => Logged (trail m) (Raise e)
  end.

(** [m] after the lines [t] have been written. *)
Definition prepend {A} (t : list log_line) (m : logged A) : logged A :=
  Logged (t ++ trail m) (result m).

Definition lift {A} (o : outcome A) : logged A := Logged [] o.
Definition verbose (l : log_line) : logged unit := Logged [l] (Ret tt).

(** [f"{v:.2f}"]: a float is formatted, a [str] raises
    [ValueError: Unknown format code 'f' for object of type 'str']. *)
Definition format_2f (v : pass_value) : outcome unit :=
  match v with
  | PVFloat _ => Ret tt
  | PVStr _ => Raise ValueError
  end.

(** [max(buffer, key=lambda x: x['pass_count'])]: the first maximal item. *)
Fixpoint max_from (best : candidate) (rest : list candidate) : candidate :=
  match rest with
  | [] => best
  | x :: rest =>
      if pass_count best <? pass_count x then max_from x rest
      else max_from best rest
  end.

Fixpoint log_items (file : string) (buffer : list candidate) : logged unit :=
  match buffer with
  | [] => mret tt
  | item :: buffer =>
      _ ← lift (format_2f (pass_val item));
      _ ← verbose (ItemLine file item);
      log_items file buffer
  end.

(** analysis.py 17-35.  The f-string is evaluated before [logger.verbose]
    is called, whatever the log level. *)
Definition log_buffer (file : string) (buffer : list candidate) (confirmed : bool)
    : logged unit :=
  match buffer with
  | [] => mret tt
  | first :: rest =>
      if forallb (λ item, is_fail (status item)) buffer && negb confirmed then
        let best_fail := max_from first rest in
        _ ← lift (seconds_to_hms (time best_fail));
        _ ← lift (py_int (time best_fail));
        _ ← lift (format_2f (pass_val best_fail));
        verbose (FailSummary file best_fail)
      else log_items file buffer
  end.

(** ** Confirmation of a candidate (analysis.py 98-118 and 220-240) *)

Definition samples_per_sec : Z := 10.

Record confirmation : Type := {
  cf_results : list confirm_result;
  cf_confirmed : bool;
  cf_status : cand_status;
  cf_pass_count : Z;
}.

Definition confirm_start : confirmation :=
  {| cf_results := []; cf_confirmed := true; cf_status := Pass; cf_pass_count := 0 |}.

(** [int(round(offset * samples_per_sec))] on an int offset is the product. *)
Definition confirm_index (i offset : Z) : Z := i + offset * samples_per_sec.

Fixpoint confirm_loop (rolling_avgs : list float) (i : Z) (spike_avg : float)
    (confirm_seconds : list Z) (c : confirmation) : outcome confirmation :=
  match confirm_seconds with
  | [] => Ret c
  | offset :: confirm_seconds =>
      let confirm_i := confirm_index i offset in
      if len rolling_avgs <=? confirm_i then
        Ret {| cf_results := cf_results c ++ [OutOfRange offset];
               cf_confirmed := false; cf_status := Fail;
               cf_pass_count := cf_pass_count c |}
      else
        confirm_avg ← py_getitem rolling_avgs confirm_i;
        if (confirm_avg <? spike_avg)%float then
          Ret {| cf_results := cf_results c ++ [Below offset confirm_avg spike_avg];
                 cf_confirmed := false; cf_status := Fail;
                 cf_pass_count := cf_pass_count c |}
        else
          confirm_loop rolling_avgs i spike_avg confirm_seconds
            {| cf_results := cf_results c ++ [Sustained offset confirm_avg];
               cf_confirmed := cf_confirmed c; cf_status := cf_status c;
               cf_pass_count := cf_pass_count c + 1 |}
  end.

(** What the specification says of one confirm offset: out of bounds is a
    failure, a strictly smaller average is a failure, anything else passes. *)
Definition offset_verdict (rolling_avgs : list float) (i : Z) (spike_avg : float)
    (offset : Z) : confirm_result :=
  let confirm_i := confirm_index i offset in
  if (confirm_i <? 0) || (len rolling_avgs <=? confirm_i) then OutOfRange offset
  else match rolling_avgs !! Z.to_nat confirm_i with
       | Some confirm_avg =>
           if (confirm_avg <? spike_avg)%float
           then Below offset confirm_avg spike_avg
           else Sustained offset confirm_avg
       | None => OutOfRange offset
       end.

Definition passes (r : confirm_result) : bool :=
  match r with Sustained _ _ => true | _ => false end.

Definition offset_passes (rolling_avgs : list float) (i : Z) (spike_avg : float)
    (offset : Z) : bool :=
  passes (offset_verdict rolling_avgs i spike_avg offset).

(** ** The per-second buffer (analysis.py 131-142 and 253-264) *)

Record buffer_state : Type := {
  buffer : list candidate;
  current_second : option Z;
  trim_time : option float;
}.

Definition buffer_start : buffer_state :=
  {| buffer := []; current_second := None; trim_time := None |}.

(** Appends the candidate, flushes the previous second when the second
    changes, and on confirmation logs the buffer, clears it and sets the
    trim point; the boolean tells the caller to [break]. *)
Definition record_candidate (file : string) (st : buffer_state) (cand : candidate)
    (spike_second : Z) (confirmed : bool) : logged (buffer_state * bool) :=
  let buffer := buffer st ++ [cand] in
  '(buffer, current_second) ←
    (if decide (Some spike_second = current_second st)
     then mret (buffer, current_second st)
     else _ ← log_buffer file (py_init buffer) false;
          mret ([cand], Some spike_second));
  if confirmed then
    _ ← log_buffer file buffer true;
    mret ({| buffer := []; current_second := current_second;
             trim_time := Some (time cand) |}, true)
  else
    mret ({| buffer := buffer; current_second := current_second;
             trim_time := trim_time st |}, false).

(** A step's use of the buffer: nothing to do when the index is not a
    candidate. *)
Definition record_found (file : string) (st : buffer_state)
    (found : option (candidate * Z * bool)) : logged (buffer_state * bool) :=
  match found with
  | Some (cand, spike_second, confirmed) =>
      record_candidate file st cand spike_second confirmed
  | None => mret (st, false)
  end.

(** ** Loops, results and messages *)

(** A [for] loop whose body may [break]. *)
Fixpoint for_each {S I : Type} (body : I → S → logged (S * bool)) (items : list I)
    (st : S) : logged S :=
  match items with
  | [] => mret st
  | i :: items =>
      '(st, stop) ← body i st;
      if stop : bool then mret st else for_each body items st
  end.

(** The messages returned with no trim time; each constructor carries the
    values its f-string interpolates. *)
Inductive skip_message : Type :=
  | InvalidWindowSize (file : string) (window_size data_length : Z)
  | NotEnoughSamples (file : string)
  | SkipExceedsDuration (file : string) (skip_mins : Z)
  | NoEndPartData (file : string)
  | InvalidEndWindowSize (file : string) (window_size end_length : Z).

Definition scan_result : Type := option skip_message * option float.

(** The spike test of both scans: [spike_avg > baseline + loudness_threshold]. *)
Definition is_spike (spike_avg baseline loudness_threshold : float) : bool :=
  (baseline + loudness_threshold <? spike_avg)%float.

(** The tail of both scans (analysis.py 148-155 and 266-273). *)
Definition finish (file : string) (st : buffer_state) : logged scan_result :=
  _ ← log_buffer file (buffer st) false;
  match trim_time st with
  | None => mret (None, None)
  | Some trim_time =>
      _ ← lift (seconds_to_hms trim_time);
      mret (None, Some trim_time)
  end.

(** The test and the record of a candidate, the same text in both scans
    (analysis.py 97-129 and 219-251); they differ in the baseline and in
    the expression stored as ['pass_val']. *)
Definition detect (rolling_avgs : list float) (loudness_threshold : float)
    (confirm_seconds : list Z) (i : Z) (spike_time : float) (spike_second : Z)
    (spike_avg baseline : float) (pass_val : pass_value)
    : outcome (option (candidate * Z * bool)) :=
  if is_spike spike_avg baseline loudness_threshold then
    c ← confirm_loop rolling_avgs i spike_avg confirm_seconds confirm_start;
    hms ← seconds_to_hms spike_time;
    mret (Some ({| status := cf_status c; hms := hms; time := spike_time;
                   spike_avg := spike_avg; confirm_results := cf_results c;
                   pass_val := pass_val; pass_count := cf_pass_count c |},
                spike_second, cf_confirmed c))
  else mret None.

(** ** The dynamic scan (analysis.py 39-155) *)

Record dynamic_state : Type := {
  sum_before : float;
  count_before : Z;
  logs : buffer_state;
}.

(** analysis.py 94 *)
Definition avg_before_of (sum_before : float) (count_before : Z) : float :=
  if 0 <? count_before then (sum_before / float_of_int count_before)%float
  else neg_infinity.

(** analysis.py 127 *)
Definition dynamic_pass_val (avg_before loudness_threshold : float) : pass_value :=
  if negb (avg_before =? neg_infinity)%float
  then PVFloat (avg_before + loudness_threshold)
  else PVStr "-inf".

(** What one index contributes (analysis.py 89-129): its rolling average
    and, when it is a candidate, the record appended to the buffer with
    its integer second and the [confirmed] flag. *)
Definition dynamic_candidate (rolling_avgs rolling_times : list float)
    (loudness_threshold : float) (confirm_seconds : list Z) (i : Z)
    (sum_before : float) (count_before : Z)
    : outcome (float * option (candidate * Z * bool)) :=
  spike_time ← py_getitem rolling_times i;
  spike_second ← py_int spike_time;
  spike_avg ← py_getitem rolling_avgs i;
  let avg_before := avg_before_of sum_before count_before in
  found ← detect rolling_avgs loudness_threshold confirm_seconds i spike_time
             spike_second spike_avg avg_before
             (dynamic_pass_val avg_before loudness_threshold);
  mret (spike_avg, found).

(** The loop body (analysis.py 88-146). *)
Definition dynamic_step (file : string) (rolling_avgs rolling_times : list float)
    (loudness_threshold : float) (confirm_seconds : list Z)
    (i : Z) (st : dynamic_state) : logged (dynamic_state * bool) :=
  '(spike_avg, found) ← lift (dynamic_candidate rolling_avgs rolling_times
       loudness_threshold confirm_seconds i (sum_before st) (count_before st));
  '(logs, stop) ← record_found file (logs st) found;
  if stop : bool then
    mret ({| sum_before := sum_before st; count_before := count_before st;
             logs := logs |}, true)
  else
    mret ({| sum_before := (sum_before st + spike_avg)%float;
             count_before := count_before st + 1; logs := logs |}, false).

Definition dynamic_start (rolling_avgs : list float) (min_start_sample : Z)
    : dynamic_state :=
  {| sum_before := if 0 <? min_start_sample
                   then py_sum (py_slice_to rolling_avgs min_start_sample)
                   else 0%float;
     count_before := min_start_sample;
     logs := buffer_start |}.

Definition analyze_file_dynamic_scan (file : string) (data : list (float * float))
    (loudness_threshold : float) (window_size : Z) (confirm_seconds : list Z)
    (skip_mins : Z) : logged scan_result :=
  if (window_size <=? 0) || (len data <=? window_size) then
    mret (Some (InvalidWindowSize file window_size (len data)), None)
  else
    let times := fst <$> data in
    let vals := snd <$> data in
    let total_windows := len vals - window_size + 1 in
    if total_windows <=? 0 then mret (Some (NotEnoughSamples file), None)
    else
      rolling_avgs ← lift (rolling vals window_size total_windows);
      let rolling_times := py_slice_to times total_windows in
      let min_start_sample := skip_mins * 60 * samples_per_sec in
      if len rolling_avgs <=? min_start_sample then
        mret (Some (SkipExceedsDuration file skip_mins), None)
      else
        st ← for_each (dynamic_step file rolling_avgs rolling_times
                         loudness_threshold confirm_seconds)
               (py_range min_start_sample (len rolling_avgs))
               (dynamic_start rolling_avgs min_start_sample);
        finish file (logs st).

(** ** The fixed-end scan (analysis.py 159-273) *)

(** analysis.py 168 *)
Definition analysis_start_of (duration : float) (analysis_minutes : Z) : float :=
  py_max0 (duration - float_of_int analysis_minutes * 60)%float.

(** analysis.py 171-179: one pass splits the series and sums the part
    before [analysis_start]. *)
Fixpoint split_lecture (analysis_start : float) (data : list (float * float))
    (sum_lecture : float) (count_lecture : Z) (end_part : list (float * float))
    : float * Z * list (float * float) :=
  match data with
  | [] => (sum_lecture, count_lecture, end_part)
  | (t, m) :: data =>
      if (t <? analysis_start)%float then
        split_lecture analysis_start data (sum_lecture + m)%float (count_lecture + 1)
          end_part
      else
        split_lecture analysis_start data sum_lecture count_lecture
          (end_part ++ [(t, m)])
  end.

(** analysis.py 181 *)
Definition lecture_avg_of (sum_lecture : float) (count_lecture : Z) : float :=
  if 0 <? count_lecture then (sum_lecture / float_of_int count_lecture)%float
  else neg_infinity.

(** analysis.py 215-251 *)
Definition fixed_candidate (rolling_avgs rolling_times : list float)
    (lecture_avg loudness_threshold : float) (confirm_seconds : list Z)
    (i : Z) (spike_avg : float) : outcome (option (candidate * Z * bool)) :=
  spike_time ← py_getitem rolling_times i;
  spike_second ← py_int spike_time;
  detect rolling_avgs loudness_threshold confirm_seconds i spike_time spike_second
    spike_avg lecture_avg (PVFloat (lecture_avg + loudness_threshold)).

(** The loop body (analysis.py 214-264); the baseline is an argument, not
    part of the state the loop threads. *)
Definition fixed_step (file : string) (rolling_avgs rolling_times : list float)
    (lecture_avg loudness_threshold : float) (confirm_seconds : list Z)
    (item : Z * float) (st : buffer_state) : logged (buffer_state * bool) :=
  found ← lift (fixed_candidate rolling_avgs rolling_times lecture_avg
                  loudness_threshold confirm_seconds item.1 item.2);
  record_found file st found.

(** [enumerate(l, a)] and [enumerate(l)] *)
Definition enumerate_from {A} (a : Z) (l : list A) : list (Z * A) :=
  zip (py_range a (a + len l)) l.

Definition py_enumerate {A} (l : list A) : list (Z * A) := enumerate_from 0 l.

Definition analyze_file_fixed_end (file : string) (data : list (float * float))
    (duration : float) (loudness_threshold : float) (window_size : Z)
    (confirm_seconds : list Z) (analysis_minutes : Z) : logged scan_result :=
  let analysis_start := analysis_start_of duration analysis_minutes in
  let '(sum_lecture, count_lecture, end_part) :=
    split_lecture analysis_start data 0%float 0 [] in
  let lecture_avg := lecture_avg_of sum_lecture count_lecture in
  _ ← lift (seconds_to_hms analysis_start);
  match end_part with
  | [] => mret (Some (NoEndPartData file), None)
  | _ =>
      let end_times := fst <$> end_part in
      let end_ms := snd <$> end_part in
      if (window_size <=? 0) || (len end_ms <=? window_size) then
        mret (Some (InvalidEndWindowSize file window_size (len end_ms)), None)
      else
        let total_windows := len end_ms - window_size + 1 in
        rolling_avgs ← lift (rolling end_ms window_size total_windows);
        let rolling_times := py_slice_to end_times total_windows in
        st ← for_each (fixed_step file rolling_avgs rolling_times lecture_avg
                         loudness_threshold confirm_seconds)
               (py_enumerate rolling_avgs) buffer_start;
        finish file st
  end.

(** ** The words of the specification *)

(** The unweighted arithmetic mean. *)
Definition mean (xs : list float) : float :=
  (py_sum xs / float_of_int (len xs))%float.

(** The baseline of the dynamic scan at index [i]: the mean of the rolling
    averages strictly before [i], minus infinity when there is none. *)
Definition baseline_at (rolling_avgs : list float) (i : Z) : float :=
  avg_before_of (py_sum (take (Z.to_nat i) rolling_avgs)) i.

(** Index [i] is a candidate against [baseline] and every offset passes. *)
Definition confirmed_at (rolling_avgs : list float) (loudness_threshold : float)
    (confirm_seconds : list Z) (baseline : float) (i : Z) : bool :=
  match rolling_avgs !! Z.to_nat i with
  | Some spike_avg =>
      is_spike spike_avg baseline loudness_threshold
      && forallb (offset_passes rolling_avgs i spike_avg) confirm_seconds
  | None => false
  end.

(** Walking [items] from [st] without a [break] and without an exception
    writes the lines [t] and arrives at [st']. *)
Inductive reaches {S I : Type} (body : I → S → logged (S * bool))
    : list I → S → list log_line → S → Prop :=
  | reaches_nil (st : S) : reaches body [] st [] st
  | reaches_cons (i : I) (items : list I) (st st1 st2 : S) (t1 t2 : list log_line) :
      body i st = Logged t1 (Ret (st1, false)) →
      reaches body items st1 t2 st2 →
      reaches body (i :: items) st (t1 ++ t2) st2.

(** A candidate whose line can be formatted: a finite time and a float as
    ['pass_val']. *)
Definition loggable (c : candidate) : Prop :=
  is_finite (time c) = true ∧ ∃ x, pass_val c = PVFloat x.

(** The lines one call of [log_buffer] is meant to write: one summary for
    a buffer of failures, the best by pass count; otherwise every item. *)
Definition log_lines (file : string) (buffer : list candidate) (confirmed : bool)
    : list log_line :=
  match buffer with
  | [] => []
  | first :: rest =>
      if forallb (λ item, is_fail (status item)) buffer && negb confirmed
      then [FailSummary file (max_from first rest)]
      else ItemLine file <$> buffer
  end.

(** The buffering of both scans fed with the candidates a walk finds, each
    with its integer second and its [confirmed] flag. *)
Definition feed (file : string) (found : list (candidate * Z * bool))
    (st : buffer_state) : logged buffer_state :=
  for_each (λ item st, record_candidate file st item.1.1 item.1.2 item.2) found st.

(** A second's group of failed candidates, as the walk meets them. *)
Definition failures (second : Z) (group : list candidate)
    : list (candidate * Z * bool) :=
  (λ c, (c, second, false)) <$> group.

(** The two regions of the fixed-end scan in the specification's words:
    time before [analysis_start], and time at or after it. *)
Definition lecture_part (analysis_start : float) (data : list (float * float))
    : list (float * float) :=
  List.filter (λ p, (p.1 <? analysis_start)%float) data.

Definition tail_part (analysis_start : float) (data : list (float * float))
    : list (float * float) :=
  List.filter (λ p, (analysis_start <=? p.1)%float) data.

(** The tail as the code collects it: every sample that is not before
    [analysis_start]. *)
Definition end_part_of (analysis_start : float) (data : list (float * float))
    : list (float * float) :=
  List.filter (λ p, negb (p.1 <? analysis_start)%float) data.

(** The baseline of the fixed-end scan. *)
Definition lecture_avg_at (analysis_start : float) (data : list (float * float))
    : float :=
  lecture_avg_of (py_sum (snd <$> lecture_part analysis_start data))
    (len (lecture_part analysis_start data)).

(** Seconds of candidates that failed, group after group, as a walk meets
    them: the second changes from one group to the next, no group is empty,
    and every candidate can be formatted. *)
Fixpoint well_grouped (previous : option Z) (groups : list (Z * list candidate))
    : Prop :=
  match groups with
  | [] => True
  | (second, group) :: groups =>
      Some second ≠ previous
      ∧ group ≠ []
      ∧ Forall (λ c, loggable c ∧ status c = Fail) group
      ∧ well_grouped (Some second) groups
  end.

(** The one line a group of failures leaves on the trail. *)
Definition summary (file : string) (group : Z * list candidate) : list log_line :=
  match group.2 with
  | [] => []
  | first :: rest => [FailSummary file (max_from first rest)]
  end.

(** ** The inputs of the specification's examples *)

(** [n] samples at 10 per second: times 0.0, 0.1, ... as the nearest
    doubles, loudness given by [level]. *)
Definition series (n : Z) (level : Z → float) : list (float * float) :=
  (λ k, ((float_of_int k / 10)%float, level k)) <$> py_range 0 n.

(** End-to-end example 1: -30 LUFS for samples 0-59, -10 LUFS after. *)
Definition example1 : list (float * float) :=
  series 100 (λ k, if k <? 60 then (-30)%float else (-10)%float).

(** Two bursts after the first minute: -10 LUFS during samples 630-659 and
    again from sample 680 on, -30 LUFS elsewhere; 720 samples. *)
Definition two_spikes : list (float * float) :=
  series 720 (λ k, if ((630 <=? k) && (k <? 660)) || (680 <=? k)
                   then (-10)%float else (-30)%float).

Definition rolling_or_nil (vals : list float) (window_size : Z) : list float :=
  match rolling vals window_size (len vals - window_size + 1) with
  | Ret rolling_avgs => rolling_avgs
  | Raise _ => []
  end.

(** End-to-end example 3: 4000 samples, -35 LUFS before 350 s, -15 LUFS
    from there on. *)
Definition example3 : list (float * float) :=
  series 4000 (λ k, if k <? 3500 then (-35)%float else (-15)%float).

(** 24 samples: a second of -30 LUFS, then -10 at samples 10-12, the
    confirmation of the first two undercut (-12 at samples 20 and 21), that
    of the third sustained (-5 at sample 22). *)
Definition same_second_burst : list (float * float) :=
  series 24 (λ k, if (10 <=? k) && (k <? 13) then (-10)%float
                  else if (20 <=? k) && (k <? 22) then (-12)%float
                  else if k =? 22 then (-5)%float
                  else (-30)%float).

(** A failed candidate at time [t] that passed [n] offsets. *)
Definition failed (t : float) (n : Z) : candidate :=
  {| status := Fail; hms := HMS t; time := t; spike_avg := (-10)%float;
     confirm_results := []; pass_val := PVFloat (-18)%float; pass_count := n |}.

(** ** The trail of a scan that returns

    What the walk of either scan maintains between two steps, and what the
    trail holds when the scan returns. *)

(** A summary line of [file], of a candidate that failed. *)
Definition fail_summary (file : string) (l : log_line) : Prop :=
  ∃ best, l = FailSummary file best ∧ status best = Fail.

(** The trail of a scan that returns [trim_time]: summaries of the seconds
    that failed; then, with a trim time, the failures buffered for the second
    of the confirmed candidate, item by item, and that candidate last. *)
Definition scan_trail (file : string) (trim_time : option float) (t : list log_line)
    : Prop :=
  match trim_time with
  | None => Forall (fail_summary file) t
  | Some x =>
      ∃ t1 fails cand,
        t = t1 ++ (ItemLine file <$> fails) ++ [ItemLine file cand]
        ∧ Forall (fail_summary file) t1
        ∧ Forall (λ c, status c = Fail ∧ py_int (time c) = py_int (time cand)) fails
        ∧ status cand = Pass
        ∧ time cand = x
  end.

(** The buffer between two steps of a walk: no trim time yet, and failed
    candidates of the current second only. *)
Definition walking (st : buffer_state) : Prop :=
  trim_time st = None
  ∧ Forall (λ c, status c = Fail
                 ∧ ∃ second, current_second st = Some second
                             ∧ py_int (time c) = Ret second)
      (buffer st).

(** What a step hands to the buffer: nothing, or a candidate at one of the
    window times, with the integer second of its time, whose status agrees
    with its [confirmed] flag. *)
Definition found_at (times : list float) (found : option (candidate * Z * bool))
    : Prop :=
  match found with
  | Some (cand, second, confirmed) =>
      status cand = (if confirmed then Pass else Fail)
      ∧ py_int (time cand) = Ret second
      ∧ time cand ∈ times
  | None => True
  end.

(** ** The entry point (analysis.py 276-311) *)

Module c_io.
(** What [get_duration] and [get_loudness_data] raise (c_io.py 148-200),
    with the text of the exception. *)
Inductive error : Type :=
  | RuntimeError (text : string)
  | FileNotFoundError (text : string)
  | ValueError (text : string)
  | PermissionError (text : string).
End c_io.

(** The exception a message of [analyze_file] interpolates: one raised by
    the extraction, or one raised while the duration is rendered inside the
    [try]. *)
Inductive caught : Type :=
  | Extraction (e : c_io.error)
  | Rendering (e : exn).

Inductive analysis_message : Type :=
  | ErrorGettingDuration (e : caught)
  | ErrorGettingLoudness (e : c_io.error)
  | NoLoudnessData (file : string)
  | ScanMessage (msg : skip_message).

(** The third component of the result: the int [0], or the float duration. *)
Inductive number : Type :=
  | PyInt (z : Z)
  | PyFloat (x : float).

Definition analysis_result : Type := option analysis_message * option float * number.

(** The fields of [args] that [analyze_file] reads; config.py makes each an
    int, or a list of ints. *)
Record args : Type := {
  short_file_thresh_mins : Z;
  med_file_thresh_mins : Z;
  short_loud_thresh_db : Z;
  med_loud_thresh_db : Z;
  long_loud_thresh_db : Z;
  short_win_size_sec : Z;
  med_win_size_sec : Z;
  long_win_size_sec : Z;
  short_confirm_secs : list Z;
  med_confirm_secs : list Z;
  long_confirm_secs : list Z;
  short_skip_mins : Z;
  med_skip_mins : Z;
  long_analysis_mins : Z;
}.

(** [x < n] for a float [x] and an int [n]: Python compares the two exact
    values; NaN is below nothing. *)
Definition float_lt_int (x : float) (n : Z) : bool :=
  match Prim2SF x with
  | S754_nan => false
  | S754_infinity s => s
  | S754_zero _ => 0 <? n
  | S754_finite s m e =>
      let v := if s then Z.neg m else Z.pos m in
      if 0 <=? e then v * 2 ^ e <? n else v <? n * 2 ^ (- e)
  end.

(** [except (RuntimeError, FileNotFoundError, ValueError, PermissionError)] *)
Definition caught_by_analyze_file (e : exn) : bool :=
  match e with
  | ValueError => true
  | IndexError | OverflowError => false
  end.

(** The scan [analyze_file] runs for a duration (analysis.py 300-309). *)
Definition scan_for (file : string) (a : args) (data : list (float * float))
    (duration : float) : logged scan_result :=
  if float_lt_int duration (short_file_thresh_mins a * 60) then
    analyze_file_dynamic_scan file data (float_of_int (short_loud_thresh_db a))
      (short_win_size_sec a * 10) (short_confirm_secs a) (short_skip_mins a)
  else if float_lt_int duration (med_file_thresh_mins a * 60) then
    analyze_file_dynamic_scan file data (float_of_int (med_loud_thresh_db a))
      (med_win_size_sec a * 10) (med_confirm_secs a) (med_skip_mins a)
  else
    analyze_file_fixed_end file data duration (float_of_int (long_loud_thresh_db a))
      (long_win_size_sec a * 10) (long_confirm_secs a) (long_analysis_mins a).

Section analyze_file.
(** The two extractions of c_io.py, which run ffprobe and ffmpeg. *)
Variable get_duration : string → c_io.error + float.
Variable get_loudness_data : string → c_io.error + list (float * float).

Definition analyze_file (file : string) (a : args) : logged analysis_result :=
  match get_duration file with
  | inl e => mret (Some (ErrorGettingDuration (Extraction e)), None, PyInt 0)
  | inr duration =>
      match seconds_to_hms duration with
      | Raise e =>
          if caught_by_analyze_file e
          then mret (Some (ErrorGettingDuration (Rendering e)), None, PyInt 0)
          else lift (Raise e)
      | Ret _ =>
          match get_loudness_data file with
          | inl e => mret (Some (ErrorGettingLoudness e), None, PyInt 0)
          | inr data =>
              match data with
              | [] => mret (Some (NoLoudnessData file), None, PyFloat duration)
              | _ =>
                  '(error_str, trim_time) ← scan_for file a data duration;
                  mret (ScanMessage <$> (error_str : option skip_message), trim_time,
                        PyFloat duration)
              end
          end
      end
  end.
End analyze_file.

(** ** The validator of the confirm offsets (config.py 63-84) *)

(** The [argparse.ArgumentTypeError]s of [validate_confirm_sec], each with
    the value its message quotes. *)
Inductive confirm_sec_error : Type :=
  | InvalidFormat (value : string)
  | InvalidNumber (value : string)
  | NotPositive (value : string)
  | NotIncreasing (value : string)
  | DuplicateNumbers (value : string).

(** [len(set(numbers))] *)
Definition distinct (numbers : list Z) : nat := length (remove_dups numbers).

Section validate_confirm_sec.
(** [value.split(',')], [v.strip()] and [int(v)], the latter with [None]
    for [ValueError]. *)
Variable split_commas : string → list string.
Variable strip : string → string.
Variable int_of_str : string → option Z.

Definition validate_confirm_sec (value : string) : confirm_sec_error + list Z :=
  let parts := strip <$> split_commas value in
  if bool_decide (parts = []) || existsb (λ v, bool_decide (v = EmptyString)) parts
  then inl (InvalidFormat value)
  else
    match mapM int_of_str parts with
    | None => inl (InvalidNumber value)
    | Some numbers =>
        if existsb (λ n, n <? 1) numbers then inl (NotPositive value)
        else if negb (bool_decide (sorting.merge_sort Z.le numbers = numbers))
        then inl (NotIncreasing value)
        else if negb (length numbers =? distinct numbers)%nat
        then inl (DuplicateNumbers value)
        else inr numbers
    end.
End validate_confirm_sec.

(** ** Ellipses in the segments of a path (utils.py 22-41)

    A [str] is read here as the list of its characters. *)

Definition ELLIP : list ascii := ["."; "."; "."]%char.

(** [l[k:]] *)
Definition py_slice_from {A} (l : list A) (k : Z) : list A :=
  drop (Z.to_nat (if k <? 0 then k + len l else k)) l.

Definition _ellipsize_segment (seg : list ascii) (left right : Z)
    : outcome (list ascii) :=
  if (left <? 0) || (right <? 0) then Raise ValueError
  else if len seg <=? left + right + len ELLIP then Ret seg
  else Ret (py_slice_to seg left ++ ELLIP
            ++ (if 0 <? right then py_slice_from seg (- right) else [])).

Definition _ellipsize_ext (ext : list ascii) (ext_left ext_right : Z) : list ascii :=
  if len ext <=? ext_left + ext_right + len ELLIP + 1 then ext
  else match ext with
       | "."%char :: base_ext =>
           ["."%char] ++ py_slice_to base_ext ext_left ++ ELLIP
           ++ py_slice_from base_ext (- ext_right)
       | _ => ext
       end.

(** ** An output path that exists already (c_io.py 74-93)

    [output_path] is built from the clock and the naming scheme by the
    lines before; the file system is read through [os.path.exists]. *)

Section resolve_output_path.
Variable path_exists : string → bool.
Variable splitext : string → string * string.
(** [f"{i}"] *)
Variable str_of_int : Z → string.

(** [f"{base}_{i}{ext}"] *)
Definition numbered_path (base ext : string) (i : Z) : string :=
  base +:+ "_" +:+ str_of_int i +:+ ext.

(** The [while] loop of the rename strategy, entered with [new_path] number
    [i]; [None] when [fuel] tests have not found a free path. *)
Fixpoint rename_loop (fuel : nat) (base ext : string) (i : Z) : option string :=
  match fuel with
  | O => None
  | S fuel =>
      let new_path := numbered_path base ext i in
      if path_exists new_path then rename_loop fuel base ext (i + 1)
      else Some new_path
  end.

Definition resolve_output_path (fuel : nat) (output_path resolution_strategy : string)
    : option (outcome (option string)) :=
  if negb (path_exists output_path) then Some (Ret (Some output_path))
  else if bool_decide (resolution_strategy = "overwrite")
  then Some (Ret (Some output_path))
  else if bool_decide (resolution_strategy = "fail") then Some (Ret None)
  else if bool_decide (resolution_strategy = "rename") then
    let '(base, ext) := splitext output_path in
    new_path ← rename_loop fuel base ext 1;
    Some (Ret (Some new_path))
  else Some (Raise ValueError).
End resolve_output_path.

(** ** The trim point handed to ffmpeg (main.py 68 and 86) *)

(** [max(0, min(duration, detect_time + trim_offset))]: [min] returns its
    second argument only when it is smaller, [max] only when it is greater;
    the int [trim_offset] is converted for the addition. *)
Definition adjusted_trim_time (duration detect_time : float) (trim_offset : Z)
    : number :=
  let wanted := (detect_time + float_of_int trim_offset)%float in
  let capped := if (wanted <? duration)%float then wanted else duration in
  if (0 <? capped)%float then PyFloat capped else PyInt 0.

(** ** Further inputs *)

(** [n] samples of a quiet room. *)
Definition quiet (n : Z) : list (float * float) := series n (λ _, (-30)%float).

(** 40 samples: -30 LUFS for two seconds, -10 LUFS after. *)
Definition late_burst : list (float * float) :=
  series 40 (λ k, if k <? 20 then (-30)%float else (-10)%float).

(** Tiers below 1 and 2 minutes, and for every tier a threshold of 12 dB,
    a window of one second and the confirm offset 1; [skip_mins] minutes
    skipped in the dynamic tiers, two minutes analysed in the long one. *)
Definition demo_args (skip_mins : Z) : args :=
  {| short_file_thresh_mins := 1; med_file_thresh_mins := 2;
     short_loud_thresh_db := 12; med_loud_thresh_db := 12; long_loud_thresh_db := 12;
     short_win_size_sec := 1; med_win_size_sec := 1; long_win_size_sec := 1;
     short_confirm_secs := [1]; med_confirm_secs := [1]; long_confirm_secs := [1];
     short_skip_mins := skip_mins; med_skip_mins := skip_mins;
     long_analysis_mins := 2 |}.

(** A directory in which the output path and its first renaming exist. *)
Definition taken (p : string) : bool :=
  bool_decide (p ∈ ["trimmed/talk.m4a"; "trimmed/talk_1.m4a"]).

(** * Properties *)

(** ** The monads compute *)

Lemma bind_Ret {A B} (a : A) (f : A → outcome B) : Ret a ≫= f = f a.
Proof. reflexivity. Qed.

Lemma bind_Raise {A B} (e : exn) (f : A → outcome B) : Raise e ≫= f = Raise e.
Proof. reflexivity. Qed.

Lemma bind_lift_Ret {A B} (a : A) (f : A → logged B) : lift (Ret a) ≫= f = f a.
Proof. unfold mbind, logged_bind, lift. simpl. by destruct (f a). Qed.

Lemma bind_lift_Raise {A B} (e : exn) (f : A → logged B) :
  lift (Raise e) ≫= f = Logged [] (Raise e).
Proof. reflexivity. Qed.

Lemma bind_mret {A B} (a : A) (f : A → logged B) : mret a ≫= f = f a.
Proof. apply (bind_lift_Ret a f). Qed.

Lemma bind_Logged_Ret {A B} (t : list log_line) (a : A) (f : A → logged B) :
  Logged t (Ret a) ≫= f = prepend t (f a).
Proof. reflexivity. Qed.

Lemma bind_Logged_Raise {A B} (t : list log_line) (e : exn) (f : A → logged B) :
  Logged t (Raise e) ≫= f = Logged t (Raise e).
Proof. reflexivity. Qed.

Lemma prepend_nil {A} (m : logged A) : prepend [] m = m.
Proof. by destruct m. Qed.

Lemma prepend_Logged {A} (t t' : list log_line) (r : outcome A) :
  prepend t (Logged t' r) = Logged (t ++ t') r.
Proof. reflexivity. Qed.

Lemma prepend_mret {A} (t : list log_line) (a : A) :
  prepend t (mret a) = Logged t (Ret a).
Proof. unfold prepend. simpl. by rewrite app_nil_r. Qed.

Lemma prepend_prepend {A} (t t' : list log_line) (m : logged A) :
  prepend t (prepend t' m) = prepend (t ++ t') m.
Proof. unfold prepend. simpl. by rewrite app_assoc. Qed.

Lemma prepend_bind {A B} (t : list log_line) (m : logged A) (f : A → logged B) :
  prepend t m ≫= f = prepend t (m ≫= f).
Proof.
  destruct m as [t' [a|e]]; unfold prepend, mbind, logged_bind; simpl.
  - by rewrite app_assoc.
  - done.
Qed.

(** ** Python lists *)

Lemma len_nonneg {A} (l : list A) : 0 ≤ len l.
Proof. unfold len. lia. Qed.

Lemma py_getitem_lookup {A} (l : list A) (i : nat) (x : A) :
  l !! i = Some x → py_getitem l (Z.of_nat i) = Ret x.
Proof.
  intros Hx. unfold py_getitem.
  destruct (Z.ltb_spec (Z.of_nat i) 0) as [?|_]; [lia|].
  destruct (Z.ltb_spec (Z.of_nat i) 0) as [?|_]; [lia|].
  by rewrite Nat2Z.id, Hx.
Qed.

Lemma py_getitem_in_range {A} (l : list A) (i : Z) :
  0 ≤ i < len l → ∃ x, l !! Z.to_nat i = Some x ∧ py_getitem l i = Ret x.
Proof.
  intros Hi. destruct (lookup_lt_is_Some_2 l (Z.to_nat i)) as [x Hx].
  { unfold len in Hi. lia. }
  exists x. split; [done|].
  rewrite <- (Z2Nat.id i) by lia. by apply py_getitem_lookup.
Qed.

Lemma py_setitem_in_range {A} (l : list A) (i : nat) (x : A) :
  (i < length l)%nat → py_setitem l (Z.of_nat i) x = Ret (<[i := x]> l).
Proof.
  intros Hi. unfold py_setitem, len.
  destruct (Z.ltb_spec (Z.of_nat i) 0) as [?|_]; [lia|].
  destruct (Z.ltb_spec (Z.of_nat i) 0) as [?|_]; [lia|].
  destruct (Z.leb_spec (Z.of_nat (length l)) (Z.of_nat i)) as [?|_]; [lia|].
  simpl. by rewrite Nat2Z.id.
Qed.

Lemma py_slice_to_take {A} (l : list A) (k : Z) :
  0 ≤ k → py_slice_to l k = take (Z.to_nat k) l.
Proof.
  intros Hk. unfold py_slice_to.
  by destruct (Z.ltb_spec k 0) as [?|_]; [lia|].
Qed.

Lemma py_range_cons (a b : Z) : a < b → py_range a b = a :: py_range (a + 1) b.
Proof.
  intros Hab. unfold py_range.
  replace (b - a) with (Z.succ (b - (a + 1))) by lia.
  rewrite seqZ_cons by lia.
  f_equal. f_equal; lia.
Qed.

Lemma py_range_nil (a b : Z) : b ≤ a → py_range a b = [].
Proof. intros Hab. unfold py_range. by rewrite seqZ_nil by lia. Qed.

(** ** Rolling averages *)

Section rolling.
Context {F : Type} `{Arith F}.
Variable vals : list F.
Variable w : nat.
Hypothesis w_pos : (0 < w)%nat.

Lemma rolling_loop_spec (n k : nat) (avgs : list F) :
  (1 ≤ k)%nat →
  (k + n + w = S (length vals))%nat →
  length avgs = (k + n)%nat →
  ∃ avgs',
    rolling_loop vals (Z.of_nat w) (py_range (Z.of_nat k) (Z.of_nat (k + n)))
      (slide_sum vals w (k - 1)) avgs = Ret avgs'
    ∧ length avgs' = (k + n)%nat
    ∧ (∀ j, (j < k)%nat → avgs' !! j = avgs !! j)
    ∧ (∀ j, (k ≤ j < k + n)%nat →
         avgs' !! j = Some (fdiv (slide_sum vals w j) (of_int (Z.of_nat w)))).
Proof using w_pos.
  revert k avgs. induction n as [|n IH]; intros k avgs Hk Hlen Havgs.
  - rewrite py_range_nil by lia. exists avgs.
    split_and!; [done|done|done|]. intros j Hj. lia.
  - rewrite py_range_cons by lia. cbn [rolling_loop].
    replace (Z.of_nat k + Z.of_nat w - 1) with (Z.of_nat (k - 1 + w)) by lia.
    replace (Z.of_nat k - 1) with (Z.of_nat (k - 1)) by lia.
    destruct (lookup_lt_is_Some_2 vals (k - 1 + w)) as [a Ha]; [lia|].
    destruct (lookup_lt_is_Some_2 vals (k - 1)) as [b Hb]; [lia|].
    rewrite (py_getitem_lookup _ _ _ Ha), bind_Ret.
    rewrite (py_getitem_lookup _ _ _ Hb), bind_Ret.
    rewrite py_setitem_in_range by lia. rewrite bind_Ret.
    assert (Hs : fadd (slide_sum vals w (k - 1)) (fsub a b) = slide_sum vals w (S k - 1)).
    { replace (S k - 1)%nat with (S (k - 1)) by lia. cbn [slide_sum].
      by rewrite Ha, Hb. }
    rewrite Hs.
    replace (Z.of_nat k + 1) with (Z.of_nat (S k)) by lia.
    replace (k + S n)%nat with (S k + n)%nat by lia.
    destruct (IH (S k) (<[k:=fdiv (slide_sum vals w (S k - 1)) (of_int (Z.of_nat w))]> avgs))
      as (avgs' & Hrun & Hlen' & Hlow & Hhigh).
    { lia. } { lia. } { rewrite length_insert. lia. }
    exists avgs'. split_and!; [done|done| |].
    + intros j Hj. rewrite Hlow by lia. apply list_lookup_insert_ne. lia.
    + intros j Hj. destruct (decide (j = k)) as [->|Hne].
      * rewrite Hlow by lia. rewrite list_lookup_insert_eq by lia.
        by replace (S k - 1)%nat with k by lia.
      * apply Hhigh. lia.
Qed.

(** The loop returns, with one average per window. *)
Lemma rolling_slide :
  (w < length vals)%nat →
  ∃ avgs,
    rolling vals (Z.of_nat w) (len vals - Z.of_nat w + 1) = Ret avgs
    ∧ length avgs = (length vals - w + 1)%nat
    ∧ ∀ j, (j < length vals - w + 1)%nat →
        avgs !! j = Some (fdiv (slide_sum vals w j) (of_int (Z.of_nat w))).
Proof using w_pos.
  intros Hw. unfold rolling, len.
  replace (Z.of_nat (length vals) - Z.of_nat w + 1)
    with (Z.of_nat (1 + (length vals - w))) by lia.
  rewrite Nat2Z.id.
  rewrite (py_setitem_in_range _ 0) by (rewrite length_replicate; lia).
  rewrite bind_Ret, py_slice_to_take, Nat2Z.id by lia.
  destruct (rolling_loop_spec (length vals - w) 1
              (<[0%nat:=fdiv (py_sum (take w vals)) (of_int (Z.of_nat w))]>
                 (replicate (1 + (length vals - w)) fzero)))
    as (avgs & Hrun & Hlen & Hlow & Hhigh).
  { lia. } { lia. } { by rewrite length_insert, length_replicate. }
  exists avgs. split_and!.
  - exact Hrun.
  - lia.
  - intros j Hj. destruct j as [|j].
    + rewrite Hlow by lia. rewrite list_lookup_insert_eq; [done|].
      rewrite length_replicate. lia.
    + apply Hhigh. lia.
Qed.

(** With exact addition the maintained sum is the sum of the window. *)
Context (exact : ExactAdd F).

Lemma foldl_fadd_start (x : F) (l : list F) :
  foldl fadd x l = fadd x (py_sum l).
Proof using exact.
  unfold py_sum. revert x. induction l as [|a l IH]; intros x; simpl.
  - by rewrite (fadd_comm F exact), (fadd_zero_l F exact).
  - rewrite (IH (fadd x a)), (IH (fadd fzero a)).
    by rewrite (fadd_zero_l F exact), (fadd_assoc F exact).
Qed.

Lemma py_sum_cons (a : F) (l : list F) : py_sum (a :: l) = fadd a (py_sum l).
Proof using exact.
  unfold py_sum at 1. simpl.
  by rewrite (fadd_zero_l F exact), foldl_fadd_start.
Qed.

Lemma py_sum_snoc (l : list F) (b : F) : py_sum (l ++ [b]) = fadd (py_sum l) b.
Proof. unfold py_sum. by rewrite foldl_app. Qed.

Lemma slide_sum_window (i : nat) :
  (i + w ≤ length vals)%nat → slide_sum vals w i = py_sum (take w (drop i vals)).
Proof using exact w_pos.
  induction i as [|i IH]; intros Hi; [by rewrite drop_0|].
  cbn [slide_sum]. rewrite IH by lia.
  destruct (lookup_lt_is_Some_2 vals i) as [a Ha]; [lia|].
  destruct (lookup_lt_is_Some_2 vals (i + w)) as [b Hb]; [lia|].
  rewrite Ha, Hb. simpl.
  rewrite (drop_S _ _ _ Ha).
  destruct w as [|w']; [lia|]. cbn [take].
  assert (Hlast : take (S w') (drop (S i) vals) = take w' (drop (S i) vals) ++ [b]).
  { apply take_S_r. rewrite lookup_drop. rewrite <- Hb. f_equal. lia. }
  rewrite Hlast, py_sum_cons, py_sum_snoc.
  set (s := py_sum (take w' (drop (S i) vals))).
  rewrite (fadd_comm F exact a s), <- (fadd_assoc F exact).
  f_equal. rewrite (fadd_comm F exact). apply (fsub_add F exact).
Qed.
End rolling.

(** The rationals add exactly. *)
Lemma Qc_exact : ExactAdd Qc.
Proof.
  split; simpl; intros.
  - apply Qcplus_assoc.
  - apply Qcplus_comm.
  - apply Qcplus_0_l.
  - ring.
Qed.

Lemma naive_rolling_lookup {F} `{Arith F} (vals : list F) (w : Z) (i : nat) :
  Z.of_nat i < len vals - w + 1 →
  naive_rolling vals w !! i = Some (window_mean vals w i).
Proof.
  intros Hi. unfold naive_rolling.
  rewrite list_lookup_fmap, lookup_seq_lt by lia. done.
Qed.

Lemma naive_rolling_length {F} `{Arith F} (vals : list F) (w : Z) :
  length (naive_rolling vals w) = Z.to_nat (len vals - w + 1).
Proof. unfold naive_rolling. by rewrite length_fmap, length_seq. Qed.

(** C1, as amended.  For a series of N samples and a window [0 < w < N]
    the rolling-average code of both scans returns exactly [N - w + 1]
    averages, window [i] carries the timestamp of sample [i], and, in any
    arithmetic whose addition and subtraction are exact, the averages are
    those of the naive reference: the mean of the [w] values from [i] on. *)
Theorem rolling_averages_exact {T F} `{Arith F} (data : list (T * F)) (window_size : Z) :
  0 < window_size < len data →
  let times := fst <$> data in
  let vals := snd <$> data in
  let total_windows := len vals - window_size + 1 in
  ∃ rolling_avgs,
    rolling vals window_size total_windows = Ret rolling_avgs
    ∧ len rolling_avgs = len data - window_size + 1
    ∧ len (py_slice_to times total_windows) = len data - window_size + 1
    ∧ (∀ i, Z.of_nat i < len data - window_size + 1 →
         py_slice_to times total_windows !! i = times !! i)
    ∧ (ExactAdd F → rolling_avgs = naive_rolling vals window_size).
Proof.
  intros Hw times vals total_windows.
  assert (Hlen : length vals = length data) by apply length_fmap.
  assert (Htimes : length times = length data) by apply length_fmap.
  unfold len in Hw.
  destruct (rolling_slide vals (Z.to_nat window_size)) as (avgs & Hrun & Hn & Havgs);
    [lia|lia|].
  rewrite Z2Nat.id in Hrun by lia.
  exists avgs. subst total_windows. unfold len in *. rewrite Hlen in *.
  split_and!.
  - exact Hrun.
  - lia.
  - rewrite py_slice_to_take, length_take by lia. lia.
  - intros i Hi. rewrite py_slice_to_take by lia. apply lookup_take_lt. lia.
  - intros exact. apply list_eq. intros i.
    destruct (decide (i < length data - Z.to_nat window_size + 1)%nat) as [Hi|Hi].
    + rewrite Havgs by lia.
      rewrite naive_rolling_lookup by (unfold len; lia).
      unfold window_mean. rewrite Z2Nat.id by lia.
      rewrite slide_sum_window by (done || lia). done.
    + rewrite !lookup_ge_None_2; [done| |lia].
      rewrite naive_rolling_length. unfold len. lia.
Qed.

(** The theorem at three rational samples 1, 2, 4 with window 2. *)
Lemma rolling_averages_exact_witness :
  ∃ rolling_avgs,
    rolling [Q2Qc 1; Q2Qc 2; Q2Qc 4] 2 2 = Ret rolling_avgs
    ∧ rolling_avgs = naive_rolling [Q2Qc 1; Q2Qc 2; Q2Qc 4] 2.
Proof.
  destruct (rolling_averages_exact [(0%Z, Q2Qc 1); (1%Z, Q2Qc 2); (2%Z, Q2Qc 4)] 2)
    as (avgs & Hrun & _ & _ & _ & Hexact).
  - unfold len. simpl. lia.
  - exists avgs. split; [exact Hrun | exact (Hexact Qc_exact)].
Defined.

(** C1 as stated fails in binary64: on the loudness values -30.1, -23.4,
    -18.7, -12.2 with window 2, the third sliding average is
    -15.449999999999998 while the mean of (-18.7, -12.2) is
    -15.449999999999999. *)
Lemma rolling_averages_round :
  ∃ rolling_avgs,
    rolling lufs_sample 2 (len lufs_sample - 2 + 1) = Ret rolling_avgs
    ∧ rolling_avgs !! 2%nat ≠ Some (window_mean lufs_sample 2 2).
Proof.
  eexists. split; [vm_compute; reflexivity|].
  intros Heq.
  apply (f_equal (λ o, match o with
                       | Some v => PrimFloat.Leibniz.eqb v (window_mean lufs_sample 2 2)
                       | None => false
                       end)) in Heq.
  vm_compute in Heq. discriminate Heq.
Qed.

(** ** Confirmation *)

Lemma forallb_Forall_true {A} (f : A → bool) (l : list A) :
  forallb f l = true ↔ Forall (λ x, f x = true) l.
Proof.
  induction l as [|x l IH]; simpl.
  - split; [by constructor|done].
  - rewrite andb_true_iff, IH. split.
    + intros [Hx Hl]. by constructor.
    + intros Hxl. split; [exact (Forall_inv Hxl)|exact (Forall_inv_tail Hxl)].
Qed.

Section confirm.
Variable rolling_avgs : list float.
Variable i : Z.
Variable spike_avg : float.
Hypothesis i_nonneg : 0 ≤ i.

Lemma confirm_index_nonneg (offset : Z) : 0 ≤ offset → 0 ≤ confirm_index i offset.
Proof using i_nonneg. unfold confirm_index, samples_per_sec. lia. Qed.

(** One offset that passes lets the loop go on. *)
Lemma confirm_loop_pass (offset : Z) (rest : list Z) (c : confirmation) :
  0 ≤ offset →
  offset_passes rolling_avgs i spike_avg offset = true →
  confirm_loop rolling_avgs i spike_avg (offset :: rest) c =
  confirm_loop rolling_avgs i spike_avg rest
    {| cf_results := cf_results c ++ [offset_verdict rolling_avgs i spike_avg offset];
       cf_confirmed := cf_confirmed c; cf_status := cf_status c;
       cf_pass_count := cf_pass_count c + 1 |}.
Proof using i_nonneg.
  intros Ho. pose proof (confirm_index_nonneg offset Ho) as Hci.
  unfold offset_passes, offset_verdict. cbn [confirm_loop].
  destruct (Z.ltb_spec (confirm_index i offset) 0) as [?|_]; [lia|]. simpl orb.
  destruct (Z.leb_spec (len rolling_avgs) (confirm_index i offset)) as [|Hin];
    [discriminate|].
  destruct (py_getitem_in_range rolling_avgs (confirm_index i offset))
    as (a & Ha & Hget); [lia|].
  rewrite Ha, Hget, bind_Ret.
  by destruct (a <? spike_avg)%float.
Qed.

(** One offset that fails ends the loop, whatever follows it. *)
Lemma confirm_loop_stop (offset : Z) (rest : list Z) (c : confirmation) :
  0 ≤ offset →
  offset_passes rolling_avgs i spike_avg offset = false →
  confirm_loop rolling_avgs i spike_avg (offset :: rest) c =
  Ret {| cf_results := cf_results c ++ [offset_verdict rolling_avgs i spike_avg offset];
         cf_confirmed := false; cf_status := Fail;
         cf_pass_count := cf_pass_count c |}.
Proof using i_nonneg.
  intros Ho. pose proof (confirm_index_nonneg offset Ho) as Hci.
  unfold offset_passes, offset_verdict. cbn [confirm_loop].
  destruct (Z.ltb_spec (confirm_index i offset) 0) as [?|_]; [lia|]. simpl orb.
  destruct (Z.leb_spec (len rolling_avgs) (confirm_index i offset)) as [|Hin]; [done|].
  destruct (py_getitem_in_range rolling_avgs (confirm_index i offset))
    as (a & Ha & Hget); [lia|].
  rewrite Ha, Hget, bind_Ret.
  by destruct (a <? spike_avg)%float.
Qed.

Lemma confirm_loop_all (offsets : list Z) (c : confirmation) :
  Forall (λ o, 0 ≤ o) offsets →
  forallb (offset_passes rolling_avgs i spike_avg) offsets = true →
  confirm_loop rolling_avgs i spike_avg offsets c =
  Ret {| cf_results := cf_results c ++ (offset_verdict rolling_avgs i spike_avg <$> offsets);
         cf_confirmed := cf_confirmed c; cf_status := cf_status c;
         cf_pass_count := cf_pass_count c + len offsets |}.
Proof using i_nonneg.
  intros Hpos. revert c. induction Hpos as [|o offsets Ho _ IH]; intros c Hall.
  - simpl. rewrite app_nil_r. unfold len. simpl. rewrite Z.add_0_r. by destruct c.
  - simpl in Hall. apply andb_prop in Hall as [Hp Hall].
    rewrite confirm_loop_pass, IH by done. simpl.
    rewrite <- app_assoc. simpl. do 2 f_equal. unfold len. simpl length. lia.
Qed.

Lemma confirm_loop_first_failure (pre : list Z) (offset : Z) (post : list Z)
    (c : confirmation) :
  Forall (λ o, 0 ≤ o) pre → 0 ≤ offset →
  forallb (offset_passes rolling_avgs i spike_avg) pre = true →
  offset_passes rolling_avgs i spike_avg offset = false →
  confirm_loop rolling_avgs i spike_avg (pre ++ offset :: post) c =
  Ret {| cf_results :=
           cf_results c ++ (offset_verdict rolling_avgs i spike_avg <$> pre ++ [offset]);
         cf_confirmed := false; cf_status := Fail;
         cf_pass_count := cf_pass_count c + len pre |}.
Proof using i_nonneg.
  intros Hpos Ho. revert c. induction Hpos as [|o pre Hp _ IH]; intros c Hall Hfail.
  - simpl app. rewrite confirm_loop_stop by done. unfold len. simpl.
    by rewrite Z.add_0_r.
  - simpl in Hall. apply andb_prop in Hall as [Hpass Hall].
    simpl app. rewrite confirm_loop_pass, IH by done. simpl.
    rewrite <- app_assoc. simpl. do 2 f_equal. unfold len. simpl length. lia.
Qed.

(** The offsets split at the first one that fails. *)
Lemma first_failure (offsets : list Z) :
  forallb (offset_passes rolling_avgs i spike_avg) offsets = false →
  ∃ pre offset post,
    offsets = pre ++ offset :: post
    ∧ forallb (offset_passes rolling_avgs i spike_avg) pre = true
    ∧ offset_passes rolling_avgs i spike_avg offset = false.
Proof.
  induction offsets as [|o offsets IH]; [done|]. simpl.
  destruct (offset_passes rolling_avgs i spike_avg o) eqn:Ho; simpl.
  - intros Hrest. destruct (IH Hrest) as (pre & offset & post & -> & Hpre & Hoff).
    exists (o :: pre), offset, post. simpl. by rewrite Ho.
  - intros _. by exists [], o, offsets.
Qed.

(** The loop always returns on offsets that are not negative. *)
Lemma confirm_loop_returns (offsets : list Z) :
  Forall (λ o, 0 ≤ o) offsets →
  ∃ c, confirm_loop rolling_avgs i spike_avg offsets confirm_start = Ret c
       ∧ cf_confirmed c = forallb (offset_passes rolling_avgs i spike_avg) offsets
       ∧ cf_status c = (if cf_confirmed c then Pass else Fail).
Proof using i_nonneg.
  intros Hpos.
  destruct (forallb (offset_passes rolling_avgs i spike_avg) offsets) eqn:Hall.
  - eexists. split; [by apply confirm_loop_all|]. done.
  - destruct (first_failure offsets Hall) as (pre & offset & post & -> & Hpre & Hoff).
    apply Forall_app in Hpos as [Hpre_pos Hpost]. pose proof (Forall_inv Hpost) as Ho.
    eexists. split; [by apply confirm_loop_first_failure|]. done.
Qed.
End confirm.



(** ** Floats *)

Lemma Prim2SF_neg_infinity : Prim2SF neg_infinity = S754_infinity true.
Proof. reflexivity. Qed.

Lemma Prim2SF_infinity : Prim2SF infinity = S754_infinity false.
Proof. reflexivity. Qed.

Lemma SFcompare_refl_finite (s : bool) (m : positive) (e : Z) :
  SFcompare (S754_finite s m e) (S754_finite s m e) = Some Eq.
Proof.
  simpl. rewrite Z.compare_refl.
  change (Pos.compare_cont Eq m m) with (Pos.compare m m).
  rewrite Pos.compare_refl. by destruct s.
Qed.

(** [is_finite] reads the class of the float off its specification. *)
Lemma is_finite_spec (x : float) :
  is_finite x =
  match Prim2SF x with
  | S754_zero _ | S754_finite _ _ _ => true
  | S754_infinity _ | S754_nan => false
  end.
Proof.
  unfold is_finite, is_nan, is_infinity.
  rewrite !FloatAxioms.eqb_spec, abs_spec, Prim2SF_infinity.
  destruct (Prim2SF x) as [s|s| |s m e]; try reflexivity.
  - by destruct s.
  - unfold SFeqb. rewrite SFcompare_refl_finite. reflexivity.
Qed.

(** [int(x)] returns exactly on the finite floats. *)
Lemma py_int_finite (x : float) : is_finite x = true ↔ ∃ z, py_int x = Ret z.
Proof.
  rewrite is_finite_spec. unfold py_int.
  destruct (Prim2SF x); split; try done; try (intros [z Hz]; done); eauto.
Qed.

Lemma seconds_to_hms_finite (x : float) :
  is_finite x = true → seconds_to_hms x = Ret (HMS x).
Proof. intros Hx. unfold seconds_to_hms. by rewrite Hx. Qed.

(** Adding a finite value to minus infinity leaves minus infinity. *)
Lemma neg_infinity_add (t : float) :
  is_finite t = true → (neg_infinity + t)%float = neg_infinity.
Proof.
  rewrite is_finite_spec. intros Ht.
  rewrite <- (SF2Prim_Prim2SF (neg_infinity + t)), FloatAxioms.add_spec, Prim2SF_neg_infinity.
  by destruct (Prim2SF t).
Qed.

(** Every finite value is above minus infinity. *)
Lemma neg_infinity_below (x : float) :
  is_finite x = true → (neg_infinity <? x)%float = true.
Proof.
  rewrite is_finite_spec. intros Hx.
  rewrite FloatAxioms.ltb_spec, Prim2SF_neg_infinity.
  by destruct (Prim2SF x).
Qed.

(** Without a baseline the spike test succeeds on every finite average. *)
Lemma is_spike_no_baseline (spike_avg loudness_threshold : float) :
  is_finite spike_avg = true → is_finite loudness_threshold = true →
  is_spike spike_avg neg_infinity loudness_threshold = true.
Proof.
  intros Hs Ht. unfold is_spike.
  rewrite neg_infinity_add by done. by apply neg_infinity_below.
Qed.

(** ** The dynamic scan without a baseline *)




(** C3 as stated fails: on example 1 the dynamic scan does not return a
    trim time near 6.0; it raises [ValueError]. *)
Lemma example1_scan_raises :
  analyze_file_dynamic_scan "lecture.m4a" example1 12 5 [1; 2] 0
  = Logged [] (Raise ValueError).
Proof. vm_compute. reflexivity. Qed.

(** C3, as amended.  On example 1 with skip 0 the first index of the walk,
    time 0.0, has no baseline: it is a candidate and both confirm offsets
    pass on the flat -30 level, so the first confirmed candidate is at time
    0.0 and the jump at 6.0 s is never reached.  The same walk started at
    index 1, with index 0 as its baseline, confirms at index 59, time 5.9,
    and logs that candidate alone. *)
Theorem example1_first_confirmed :
  ∃ rolling_avgs cand0 cand59,
    rolling (snd <$> example1) 5 96 = Ret rolling_avgs
    ∧ dynamic_candidate rolling_avgs (py_slice_to (fst <$> example1) 96) 12 [1; 2] 0
        (sum_before (dynamic_start rolling_avgs 0))
        (count_before (dynamic_start rolling_avgs 0))
      = Ret ((-30)%float, Some (cand0, 0, true))
    ∧ status cand0 = Pass
    ∧ time cand0 = 0%float
    ∧ for_each (dynamic_step "lecture.m4a" rolling_avgs
                  (py_slice_to (fst <$> example1) 96) 12 [1; 2])
        (py_range 1 96)
        {| sum_before := (-30)%float; count_before := 1; logs := buffer_start |}
      = Logged [ItemLine "lecture.m4a" cand59]
          (Ret {| sum_before := (-1746)%float; count_before := 59;
                  logs := {| buffer := []; current_second := Some 5;
                             trim_time := Some (decimal 59) |} |})
    ∧ status cand59 = Pass
    ∧ time cand59 = decimal 59.
Proof.
  do 3 eexists. split; [vm_compute; reflexivity|].
  split; [vm_compute; reflexivity|].
  split; [reflexivity|]. split; [reflexivity|].
  split; [vm_compute; reflexivity|].
  split; reflexivity.
Qed.

(** C10 at example 1: the candidate of index 0 records the string ['-inf']
    as [pass_val]; logging it raises [ValueError] with nothing written, and
    the scan ends in that exception instead of a result. *)
Theorem no_baseline_logging_raises :
  ∃ rolling_avgs cand,
    rolling (snd <$> example1) 5 96 = Ret rolling_avgs
    ∧ dynamic_candidate rolling_avgs (py_slice_to (fst <$> example1) 96) 12 [1; 2] 0
        0%float 0
      = Ret ((-30)%float, Some (cand, 0, true))
    ∧ pass_val cand = PVStr "-inf"
    ∧ log_buffer "lecture.m4a" [cand] true = Logged [] (Raise ValueError)
    ∧ log_buffer "lecture.m4a" [cand] false = Logged [] (Raise ValueError)
    ∧ analyze_file_dynamic_scan "lecture.m4a" example1 12 5 [1; 2] 0
      = Logged [] (Raise ValueError).
Proof.
  do 2 eexists. split; [vm_compute; reflexivity|].
  split; [vm_compute; reflexivity|].
  split; [reflexivity|].
  split; [vm_compute; reflexivity|].
  split; vm_compute; reflexivity.
Qed.

(** ** Reading a result back through the monads *)

Lemma outcome_bind_inv {A B} (m : outcome A) (f : A → outcome B) (b : B) :
  m ≫= f = Ret b → ∃ a, m = Ret a ∧ f a = Ret b.
Proof. destruct m as [a|e]; [by exists a|done]. Qed.

Lemma logged_bind_inv {A B} (m : logged A) (f : A → logged B)
    (t : list log_line) (b : B) :
  m ≫= f = Logged t (Ret b) →
  ∃ t1 a t2, m = Logged t1 (Ret a) ∧ f a = Logged t2 (Ret b) ∧ t = t1 ++ t2.
Proof.
  destruct m as [t1 [a|e]]; [|done].
  rewrite bind_Logged_Ret. destruct (f a) as [t2 r] eqn:Hfa.
  rewrite prepend_Logged. intros [= <- ->]. by exists t1, a, t2.
Qed.

Lemma lift_inv {A} (o : outcome A) (t : list log_line) (a : A) :
  lift o = Logged t (Ret a) → o = Ret a ∧ t = [].
Proof. unfold lift. by intros [= <- ->]. Qed.

Lemma mret_logged_inv {A} (a b : A) (t : list log_line) :
  mret a = Logged t (Ret b) → a = b ∧ t = [].
Proof. unfold mret, logged_ret. by intros [= <- ->]. Qed.

Lemma reaches_nil_inv {S I} (body : I → S → logged (S * bool)) (st st' : S)
    (t : list log_line) :
  reaches body [] st t st' → t = [] ∧ st' = st.
Proof. by inversion 1. Qed.

Lemma reaches_cons_inv {S I} (body : I → S → logged (S * bool)) (i : I)
    (items : list I) (st st' : S) (t : list log_line) :
  reaches body (i :: items) st t st' →
  ∃ st1 t1 t2,
    body i st = Logged t1 (Ret (st1, false))
    ∧ reaches body items st1 t2 st'
    ∧ t = t1 ++ t2.
Proof. inversion 1; subst. by eexists _, _, _. Qed.

(** ** The running baseline of the dynamic scan *)

Section dynamic_baseline.
Variable file : string.
Variables rolling_avgs rolling_times : list float.
Variable loudness_threshold : float.
Variable confirm_seconds : list Z.

Abbreviation step :=
  (dynamic_step file rolling_avgs rolling_times loudness_threshold confirm_seconds).

(** A step that does not stop folds the rolling average of its index into
    the running sum, candidate or not. *)
Lemma dynamic_step_folds (i : Z) (st st' : dynamic_state) (t : list log_line) :
  step i st = Logged t (Ret (st', false)) →
  ∃ spike_avg,
    py_getitem rolling_avgs i = Ret spike_avg
    ∧ sum_before st' = (sum_before st + spike_avg)%float
    ∧ count_before st' = count_before st + 1.
Proof.
  unfold dynamic_step. intros Hstep.
  apply logged_bind_inv in Hstep as (t1 & [spike_avg found] & t2 & Hcand & Hrest & _).
  apply lift_inv in Hcand as [Hcand _].
  apply logged_bind_inv in Hrest as (t3 & [logs stop] & t4 & _ & Hend & _).
  exists spike_avg. split.
  - unfold dynamic_candidate in Hcand.
    apply outcome_bind_inv in Hcand as (spike_time & _ & Hcand).
    apply outcome_bind_inv in Hcand as (spike_second & _ & Hcand).
    apply outcome_bind_inv in Hcand as (a & Ha & Hcand).
    apply outcome_bind_inv in Hcand as (found' & _ & Hcand).
    injection Hcand as -> _. exact Ha.
  - destruct stop; apply mret_logged_inv in Hend as [Hend _];
      injection Hend as <-; [done|]. done.
Qed.

(** Walking from index [a] to index [a + n] adds the averages in between. *)
Lemma dynamic_walk_sum (n : nat) (a : Z) (st st' : dynamic_state) (t : list log_line) :
  0 ≤ a →
  reaches step (py_range a (a + Z.of_nat n)) st t st' →
  sum_before st = py_sum (take (Z.to_nat a) rolling_avgs) →
  count_before st = a →
  sum_before st' = py_sum (take (Z.to_nat (a + Z.of_nat n)) rolling_avgs)
  ∧ count_before st' = a + Z.of_nat n.
Proof.
  revert a st t. induction n as [|n IH]; intros a st t Ha Hwalk Hsum Hcount.
  - rewrite Z.add_0_r in *. rewrite py_range_nil in Hwalk by lia.
    apply reaches_nil_inv in Hwalk as [_ ->]. done.
  - rewrite py_range_cons in Hwalk by lia.
    apply reaches_cons_inv in Hwalk as (st1 & t1 & t2 & Hstep & Hrest & _).
    apply dynamic_step_folds in Hstep as (spike_avg & Hget & Hsum1 & Hcount1).
    replace (a + Z.of_nat (S n)) with (a + 1 + Z.of_nat n) in * by lia.
    apply (IH (a + 1) st1 t2); [lia|done| |lia].
    rewrite Hsum1, Hsum.
    unfold py_getitem in Hget.
    destruct (Z.ltb_spec a 0) as [?|_]; [lia|].
    destruct (Z.ltb_spec a 0) as [?|_]; [lia|].
    destruct (rolling_avgs !! Z.to_nat a) as [x|] eqn:Hx; [|done].
    injection Hget as ->.
    replace (Z.to_nat (a + 1)) with (S (Z.to_nat a)) by lia.
    rewrite (take_S_r _ _ _ Hx). unfold py_sum. by rewrite foldl_app.
Qed.
End dynamic_baseline.


(** ** Writing the buffer *)

Lemma max_from_elem (best : candidate) (rest : list candidate) :
  max_from best rest ∈ best :: rest.
Proof.
  revert best. induction rest as [|x rest IH]; intros best; simpl.
  - apply list_elem_of_here.
  - destruct (pass_count best <? pass_count x).
    + apply list_elem_of_further, IH.
    + pose proof (IH best) as Hin. rewrite !elem_of_cons in *.
      destruct Hin as [Heq|Hin]; [by left|by right; right].
Qed.

(** The item chosen for the summary has the greatest pass count. *)
Lemma max_from_greatest (best : candidate) (rest : list candidate) :
  ∀ c, c ∈ best :: rest → pass_count c ≤ pass_count (max_from best rest).
Proof.
  revert best. induction rest as [|x rest IH]; intros best c Hc; simpl.
  - apply list_elem_of_singleton in Hc as ->. lia.
  - destruct (Z.ltb_spec (pass_count best) (pass_count x)) as [Hlt|Hge].
    + apply elem_of_cons in Hc as [->|Hc].
      * specialize (IH x x (list_elem_of_here _ _)). lia.
      * by apply IH.
    + apply elem_of_cons in Hc as [->|Hc].
      * apply IH, list_elem_of_here.
      * apply elem_of_cons in Hc as [->|Hc].
        -- specialize (IH best best (list_elem_of_here _ _)). lia.
        -- by apply IH, list_elem_of_further.
Qed.

Lemma log_items_loggable (file : string) (buffer : list candidate) :
  Forall loggable buffer →
  log_items file buffer = Logged (ItemLine file <$> buffer) (Ret tt).
Proof.
  induction 1 as [|c buffer [_ [x Hx]] _ IH]; [done|].
  cbn [log_items]. rewrite Hx. cbn [format_2f].
  rewrite bind_lift_Ret. unfold verbose. rewrite bind_Logged_Ret.
  rewrite IH. done.
Qed.

(** On loggable candidates [log_buffer] returns, having written what
    [log_lines] says. *)
Lemma log_buffer_loggable (file : string) (buffer : list candidate) (confirmed : bool) :
  Forall loggable buffer →
  log_buffer file buffer confirmed = Logged (log_lines file buffer confirmed) (Ret tt).
Proof.
  intros Hgood. unfold log_buffer, log_lines.
  destruct buffer as [|first rest]; [done|].
  destruct (forallb _ _ && negb confirmed).
  - pose proof (max_from_elem first rest) as Hin.
    apply list_elem_of_In in Hin.
    rewrite Forall_forall in Hgood. destruct (Hgood _ Hin) as [Htime [x Hx]].
    rewrite seconds_to_hms_finite, bind_lift_Ret by done.
    apply py_int_finite in Htime as [z ->]. rewrite bind_lift_Ret.
    rewrite Hx. cbn [format_2f]. rewrite bind_lift_Ret. done.
  - by apply log_items_loggable.
Qed.

(** A string as ['pass_val'] of the item to write raises [ValueError]. *)
Lemma log_buffer_str (file : string) (c : candidate) (s : string) (confirmed : bool) :
  is_finite (time c) = true → pass_val c = PVStr s →
  log_buffer file [c] confirmed = Logged [] (Raise ValueError).
Proof.
  intros Htime Hs. unfold log_buffer. cbn [forallb max_from].
  destruct (is_fail (status c) && true && negb confirmed).
  - rewrite seconds_to_hms_finite, bind_lift_Ret by done.
    apply py_int_finite in Htime as [z ->]. rewrite bind_lift_Ret.
    by rewrite Hs.
  - cbn [log_items]. by rewrite Hs.
Qed.

Lemma py_init_snoc {A} (l : list A) (x : A) : py_init (l ++ [x]) = l.
Proof.
  unfold py_init, py_slice_to, len. simpl.
  rewrite length_app. simpl.
  replace (Z.to_nat (-1 + Z.of_nat (length l + 1))) with (length l) by lia.
  by rewrite take_app_length.
Qed.

(** What [record_candidate] does with a loggable candidate in a loggable
    buffer. *)
Lemma record_candidate_loggable (file : string) (st : buffer_state) (cand : candidate)
    (spike_second : Z) (confirmed : bool) :
  Forall loggable (buffer st) → loggable cand →
  let same := bool_decide (Some spike_second = current_second st) in
  let flushed := if same then [] else log_lines file (buffer st) false in
  let kept := if same then buffer st ++ [cand] else [cand] in
  let second := if same then current_second st else Some spike_second in
  record_candidate file st cand spike_second confirmed =
  Logged (flushed ++ if confirmed then log_lines file kept true else [])
    (Ret (if confirmed
          then {| buffer := []; current_second := second;
                  trim_time := Some (time cand) |}
          else {| buffer := kept; current_second := second;
                  trim_time := trim_time st |},
          confirmed)).
Proof.
  intros Hbuf Hcand. cbv zeta. unfold record_candidate.
  destruct (decide (Some spike_second = current_second st)) as [Heq|Hne].
  - rewrite bool_decide_eq_true_2 by done. rewrite bind_mret.
    destruct confirmed; [|done].
    rewrite log_buffer_loggable by (apply Forall_app; split; [done|by constructor]).
    by rewrite bind_Logged_Ret, prepend_mret.
  - rewrite bool_decide_eq_false_2 by done.
    rewrite py_init_snoc, log_buffer_loggable by done.
    rewrite !bind_Logged_Ret, prepend_bind, bind_mret.
    destruct confirmed.
    + rewrite log_buffer_loggable by by constructor.
      by rewrite bind_Logged_Ret, prepend_prepend, prepend_mret.
    + by rewrite prepend_mret, app_nil_r.
Qed.

(** ** Loops that stop *)

Lemma for_each_reaches {S I} (body : I → S → logged (S * bool)) (l1 l2 : list I)
    (st st1 : S) (t : list log_line) :
  reaches body l1 st t st1 →
  for_each body (l1 ++ l2) st = prepend t (for_each body l2 st1).
Proof.
  induction 1 as [st|i items st st1 st2 t1 t2 Hstep _ IH]; simpl.
  - by rewrite prepend_nil.
  - rewrite Hstep, bind_Logged_Ret. simpl. by rewrite IH, prepend_prepend.
Qed.

Lemma for_each_stop {S I} (body : I → S → logged (S * bool)) (i : I) (l : list I)
    (st st' : S) (t : list log_line) :
  body i st = Logged t (Ret (st', true)) →
  for_each body (i :: l) st = Logged t (Ret st').
Proof. intros Hstep. simpl. by rewrite Hstep, bind_Logged_Ret, prepend_mret. Qed.

Lemma for_each_all {S I} (body : I → S → logged (S * bool)) (l : list I)
    (st st' : S) (t : list log_line) :
  reaches body l st t st' → for_each body l st = Logged t (Ret st').
Proof.
  intros Hwalk. rewrite <- (app_nil_r l), (for_each_reaches _ _ _ _ _ _ Hwalk).
  simpl. by rewrite prepend_mret.
Qed.

Lemma reaches_snoc {S I} (body : I → S → logged (S * bool)) (l : list I) (i : I)
    (st st1 st2 : S) (t1 t2 : list log_line) :
  reaches body l st t1 st1 →
  body i st1 = Logged t2 (Ret (st2, false)) →
  reaches body (l ++ [i]) st (t1 ++ t2) st2.
Proof.
  induction 1 as [st|j items st sta stb ta tb Hstep _ IH]; intros Hlast; simpl.
  - rewrite <- (app_nil_r t2). econstructor; [done|constructor].
  - rewrite <- app_assoc. econstructor; [done|by apply IH].
Qed.

(** ** A candidate found and recorded *)

Section found.
Variable file : string.
Variable rolling_avgs : list float.
Variable loudness_threshold : float.
Variable confirm_seconds : list Z.
Hypothesis offsets_nonneg : Forall (λ offset, 0 ≤ offset) confirm_seconds.

(** With a finite time and a float as ['pass_val'], detection and the
    buffer return; the step stops exactly on a confirmed candidate, whose
    time becomes the trim time. *)
Lemma detect_record (i : Z) (spike_time : float) (spike_second : Z)
    (spike_avg baseline x : float) (st : buffer_state) :
  0 ≤ i →
  rolling_avgs !! Z.to_nat i = Some spike_avg →
  is_finite spike_time = true →
  Forall loggable (buffer st) →
  ∃ found t st',
    detect rolling_avgs loudness_threshold confirm_seconds i spike_time spike_second
      spike_avg baseline (PVFloat x) = Ret found
    ∧ record_found file st found
      = Logged t (Ret (st', confirmed_at rolling_avgs loudness_threshold
                              confirm_seconds baseline i))
    ∧ Forall loggable (buffer st')
    ∧ (if confirmed_at rolling_avgs loudness_threshold confirm_seconds baseline i
       then trim_time st' = Some spike_time ∧ buffer st' = []
       else trim_time st' = trim_time st).
Proof using offsets_nonneg.
  intros Hi Havg Htime Hbuf. unfold detect, confirmed_at. rewrite Havg.
  destruct (is_spike spike_avg baseline loudness_threshold); simpl andb.
  - destruct (confirm_loop_returns rolling_avgs i spike_avg Hi confirm_seconds
                offsets_nonneg) as (c & Hrun & Hconf & _).
    rewrite Hrun, bind_Ret, seconds_to_hms_finite, bind_Ret by done.
    eexists _, _, _. split; [reflexivity|]. unfold record_found.
    match goal with |- context [record_candidate _ _ ?cand _ _] =>
      assert (Hcand : loggable cand) by (split; [done|by eexists]) end.
    rewrite record_candidate_loggable by done.
    rewrite Hconf. split; [reflexivity|].
    destruct (forallb _ confirm_seconds); simpl.
    + split; [constructor|done].
    + split; [|done]. destruct (bool_decide _).
      * apply Forall_app. split; [done|]. constructor; [exact Hcand|constructor].
      * constructor; [exact Hcand|constructor].
  - eexists _, _, _. split; [reflexivity|]. split; [reflexivity|]. done.
Qed.
End found.

(** ** The walk of the dynamic scan *)

Section dynamic_walk.
Variable file : string.
Variables rolling_avgs rolling_times : list float.
Variable loudness_threshold : float.
Variable confirm_seconds : list Z.
Hypothesis offsets_nonneg : Forall (λ offset, 0 ≤ offset) confirm_seconds.
Hypothesis times_finite : Forall (λ t, is_finite t = true) rolling_times.
Hypothesis times_length : length rolling_times = length rolling_avgs.

Abbreviation dstep :=
  (dynamic_step file rolling_avgs rolling_times loudness_threshold confirm_seconds).

Abbreviation dconfirmed :=
  (confirmed_at rolling_avgs loudness_threshold confirm_seconds).

(** One step with an established baseline: it returns, and stops exactly
    on a confirmed candidate. *)
Lemma dynamic_step_total (i : Z) (st : dynamic_state) :
  0 ≤ i < len rolling_avgs →
  Forall loggable (buffer (logs st)) →
  (avg_before_of (sum_before st) (count_before st) =? neg_infinity)%float = false →
  ∃ t st' spike_time spike_avg,
    rolling_times !! Z.to_nat i = Some spike_time
    ∧ rolling_avgs !! Z.to_nat i = Some spike_avg
    ∧ dstep i st
      = Logged t (Ret (st', dconfirmed (avg_before_of (sum_before st) (count_before st)) i))
    ∧ Forall loggable (buffer (logs st'))
    ∧ (if dconfirmed (avg_before_of (sum_before st) (count_before st)) i
       then trim_time (logs st') = Some spike_time ∧ buffer (logs st') = []
       else trim_time (logs st') = trim_time (logs st)
            ∧ sum_before st' = (sum_before st + spike_avg)%float
            ∧ count_before st' = count_before st + 1).
Proof using offsets_nonneg times_finite times_length.
  intros Hi Hbuf Hbase. unfold len in Hi.
  destruct (py_getitem_in_range rolling_times i) as (spike_time & Htime & Hget_time).
  { unfold len. lia. }
  destruct (py_getitem_in_range rolling_avgs i) as (spike_avg & Havg & Hget_avg).
  { unfold len. lia. }
  assert (Hfinite : is_finite spike_time = true).
  { rewrite Forall_forall in times_finite. apply times_finite.
    apply list_elem_of_In. by eapply list_elem_of_lookup_2. }
  apply py_int_finite in Hfinite as Hint. destruct Hint as [spike_second Hint].
  destruct (detect_record file rolling_avgs loudness_threshold confirm_seconds
              offsets_nonneg i spike_time spike_second spike_avg
              (avg_before_of (sum_before st) (count_before st))
              (avg_before_of (sum_before st) (count_before st) + loudness_threshold)
              (logs st))
    as (found & t & logs' & Hdetect & Hrecord & Hloggable & Hstop); [lia|done..|].
  unfold dynamic_step, dynamic_candidate, dynamic_pass_val.
  rewrite Hget_time, bind_Ret, Hint, bind_Ret, Hget_avg, bind_Ret.
  rewrite Hbase. simpl negb. cbv iota.
  rewrite Hdetect, bind_Ret, bind_lift_Ret, Hrecord, bind_Logged_Ret.
  destruct (dconfirmed _ i); rewrite prepend_mret;
    eexists _, _, spike_time, spike_avg; (split_and!; [done|done|reflexivity|..]).
  all: simpl; tauto.
Qed.

(** Indices without a confirmed candidate are walked through. *)
Lemma dynamic_walk_total (n : nat) (a : Z) (st : dynamic_state) :
  0 ≤ a → a + Z.of_nat n ≤ len rolling_avgs →
  sum_before st = py_sum (take (Z.to_nat a) rolling_avgs) →
  count_before st = a →
  Forall loggable (buffer (logs st)) →
  (∀ j, a ≤ j < a + Z.of_nat n →
        (baseline_at rolling_avgs j =? neg_infinity)%float = false
        ∧ dconfirmed (baseline_at rolling_avgs j) j = false) →
  ∃ t st',
    reaches dstep (py_range a (a + Z.of_nat n)) st t st'
    ∧ Forall loggable (buffer (logs st'))
    ∧ trim_time (logs st') = trim_time (logs st)
    ∧ sum_before st' = py_sum (take (Z.to_nat (a + Z.of_nat n)) rolling_avgs)
    ∧ count_before st' = a + Z.of_nat n.
Proof using offsets_nonneg times_finite times_length.
  revert a st. induction n as [|n IH]; intros a st Ha Hb Hsum Hcount Hbuf Hnone.
  - rewrite Z.add_0_r, py_range_nil by lia.
    exists [], st. split_and!; [constructor|done..].
  - rewrite py_range_cons by lia.
    destruct (Hnone a) as [Hbase Hno]; [lia|].
    assert (Hmean : baseline_at rolling_avgs a
                    = avg_before_of (sum_before st) (count_before st)).
    { unfold baseline_at. by rewrite Hsum, Hcount. }
    rewrite Hmean in Hbase, Hno.
    destruct (dynamic_step_total a st) as
      (t1 & st1 & spike_time & spike_avg & _ & Havg & Hstep & Hbuf1 & Hnext);
      [lia|done|done|].
    rewrite Hno in Hstep, Hnext. destruct Hnext as (Htrim & Hsum1 & Hcount1).
    replace (a + Z.of_nat (S n)) with (a + 1 + Z.of_nat n) in * by lia.
    destruct (IH (a + 1) st1) as (t2 & st2 & Hwalk & Hbuf2 & Htrim2 & Hsum2 & Hcount2).
    + lia.
    + lia.
    + rewrite Hsum1, Hsum.
      replace (Z.to_nat (a + 1)) with (S (Z.to_nat a)) by lia.
      rewrite (take_S_r _ _ _ Havg). unfold py_sum. by rewrite foldl_app.
    + lia.
    + done.
    + intros j Hj. apply Hnone. lia.
    + exists (t1 ++ t2), st2. split_and!; [|done|congruence|done|done].
      econstructor; done.
Qed.
End dynamic_walk.

(** ** The walk of the fixed-end scan *)

Lemma enumerate_from_cons {A} (a : Z) (x : A) (l : list A) :
  enumerate_from a (x :: l) = (a, x) :: enumerate_from (a + 1) l.
Proof.
  unfold enumerate_from, len. simpl length.
  rewrite py_range_cons by lia. simpl. do 3 f_equal. lia.
Qed.

Lemma enumerate_from_app {A} (a : Z) (l1 l2 : list A) :
  enumerate_from a (l1 ++ l2) = enumerate_from a l1 ++ enumerate_from (a + len l1) l2.
Proof.
  revert a. induction l1 as [|x l1 IH]; intros a.
  - assert (Hnil : enumerate_from a ([] : list A) = []).
    { unfold enumerate_from. by rewrite py_range_nil by (unfold len; simpl; lia). }
    rewrite Hnil. simpl. f_equal. unfold len. simpl. lia.
  - simpl app. rewrite !enumerate_from_cons, IH. simpl. do 3 f_equal.
    unfold len. simpl length. lia.
Qed.

Section fixed_walk.
Variable file : string.
Variables rolling_avgs rolling_times : list float.
Variables lecture_avg loudness_threshold : float.
Variable confirm_seconds : list Z.
Hypothesis offsets_nonneg : Forall (λ offset, 0 ≤ offset) confirm_seconds.
Hypothesis times_finite : Forall (λ t, is_finite t = true) rolling_times.
Hypothesis times_length : length rolling_times = length rolling_avgs.

Abbreviation fstep :=
  (fixed_step file rolling_avgs rolling_times lecture_avg loudness_threshold
     confirm_seconds).

Abbreviation fconfirmed :=
  (confirmed_at rolling_avgs loudness_threshold confirm_seconds lecture_avg).

Lemma fixed_step_total (i : nat) (spike_avg : float) (st : buffer_state) :
  rolling_avgs !! i = Some spike_avg →
  Forall loggable (buffer st) →
  ∃ t st' spike_time,
    rolling_times !! i = Some spike_time
    ∧ fstep (Z.of_nat i, spike_avg) st = Logged t (Ret (st', fconfirmed (Z.of_nat i)))
    ∧ Forall loggable (buffer st')
    ∧ (if fconfirmed (Z.of_nat i)
       then trim_time st' = Some spike_time ∧ buffer st' = []
       else trim_time st' = trim_time st).
Proof using offsets_nonneg times_finite times_length.
  intros Havg Hbuf.
  destruct (lookup_lt_is_Some_2 rolling_times i) as [spike_time Htime].
  { rewrite times_length. by eapply lookup_lt_Some. }
  assert (Hfinite : is_finite spike_time = true).
  { rewrite Forall_forall in times_finite. apply times_finite.
    apply list_elem_of_In. by eapply list_elem_of_lookup_2. }
  apply py_int_finite in Hfinite as Hint. destruct Hint as [spike_second Hint].
  destruct (detect_record file rolling_avgs loudness_threshold confirm_seconds
              offsets_nonneg (Z.of_nat i) spike_time spike_second spike_avg
              lecture_avg (lecture_avg + loudness_threshold) st)
    as (found & t & st' & Hdetect & Hrecord & Hloggable & Hstop);
    [lia|by rewrite Nat2Z.id|done|done|].
  unfold fixed_step, fixed_candidate. simpl fst. simpl snd.
  rewrite (py_getitem_lookup _ _ _ Htime), bind_Ret, Hint, bind_Ret.
  rewrite Hdetect, bind_lift_Ret, Hrecord.
  by exists t, st', spike_time.
Qed.

Lemma fixed_walk_total (l1 : list float) (pre l2 : list float) (st : buffer_state) :
  rolling_avgs = pre ++ l1 ++ l2 →
  Forall loggable (buffer st) →
  (∀ j, len pre ≤ j < len pre + len l1 → fconfirmed j = false) →
  ∃ t st',
    reaches fstep (enumerate_from (len pre) l1) st t st'
    ∧ Forall loggable (buffer st')
    ∧ trim_time st' = trim_time st.
Proof using offsets_nonneg times_finite times_length.
  revert pre st. induction l1 as [|x l1 IH]; intros pre st Hsplit Hbuf Hnone.
  - exists [], st. split_and!; [|done|done].
    unfold enumerate_from. rewrite py_range_nil by (unfold len; simpl; lia).
    constructor.
  - rewrite enumerate_from_cons.
    destruct (fixed_step_total (length pre) x st)
      as (t1 & st1 & spike_time & _ & Hstep & Hbuf1 & Hnext).
    { rewrite Hsplit. simpl. by apply list_lookup_middle. }
    { done. }
    fold (len pre) in Hstep, Hnext.
    rewrite Hnone in Hstep, Hnext by (unfold len; simpl length; lia).
    destruct (IH (pre ++ [x]) st1) as (t2 & st2 & Hwalk & Hbuf2 & Htrim2).
    + by rewrite <- app_assoc.
    + done.
    + intros j Hj. apply Hnone. unfold len in *. rewrite length_app in Hj.
      simpl length in *. lia.
    + exists (t1 ++ t2), st2. split_and!; [|done|congruence].
      econstructor; [exact Hstep|].
      replace (len pre + 1) with (len (pre ++ [x])); [done|].
      unfold len. rewrite length_app. simpl. lia.
Qed.
End fixed_walk.

(** ** The scans stop at the first confirmed candidate *)

Lemma len_fmap {A B} (f : A → B) (l : list A) : len (f <$> l) = len l.
Proof. unfold len. by rewrite length_fmap. Qed.

Lemma py_range_split (a b c : Z) :
  a ≤ b ≤ c → py_range a c = py_range a b ++ py_range b c.
Proof.
  intros Habc. unfold py_range.
  replace (c - a) with ((b - a) + (c - b)) by lia.
  rewrite seqZ_app by lia. do 2 f_equal. lia.
Qed.

Lemma finish_confirmed (file : string) (st : buffer_state) (t1 : float) :
  buffer st = [] → trim_time st = Some t1 → is_finite t1 = true →
  finish file st = Logged [] (Ret (None, Some t1)).
Proof.
  intros Hbuf Htrim Hfinite. unfold finish. rewrite Hbuf, Htrim. simpl log_buffer.
  rewrite bind_mret, seconds_to_hms_finite, bind_lift_Ret by done. done.
Qed.

Lemma finish_none (file : string) (st : buffer_state) :
  Forall loggable (buffer st) → trim_time st = None →
  finish file st = Logged (log_lines file (buffer st) false) (Ret (None, None)).
Proof.
  intros Hbuf Htrim. unfold finish. rewrite Htrim, log_buffer_loggable by done.
  by rewrite bind_Logged_Ret, prepend_mret.
Qed.

(** The rolling averages both scans compute have one entry per window. *)
Lemma rolling_len (vals : list float) (w : Z) (r : list float) :
  0 < w < len vals → rolling vals w (len vals - w + 1) = Ret r →
  len r = len vals - w + 1.
Proof.
  intros Hw Hroll. unfold len in Hw.
  destruct (rolling_slide vals (Z.to_nat w)) as (avgs & Hrun & Hn & _); [lia|lia|].
  rewrite Z2Nat.id in Hrun by lia. rewrite Hroll in Hrun. injection Hrun as ->.
  unfold len. lia.
Qed.

Lemma dynamic_scan_first_confirmed (file : string) (data : list (float * float))
    (loudness_threshold : float) (window_size : Z) (confirm_seconds : list Z)
    (skip_mins : Z) (r : list float) (i1 : Z) (t1 : float) :
  0 < window_size < len data →
  rolling (snd <$> data) window_size (len data - window_size + 1) = Ret r →
  Forall (λ t, is_finite t = true) (fst <$> data) →
  Forall (λ offset, 0 ≤ offset) confirm_seconds →
  0 ≤ skip_mins * 60 * samples_per_sec ≤ i1 → i1 < len r →
  (∀ j, skip_mins * 60 * samples_per_sec ≤ j ≤ i1 →
        (baseline_at r j =? neg_infinity)%float = false) →
  (∀ j, skip_mins * 60 * samples_per_sec ≤ j < i1 →
        confirmed_at r loudness_threshold confirm_seconds (baseline_at r j) j = false) →
  confirmed_at r loudness_threshold confirm_seconds (baseline_at r i1) i1 = true →
  (fst <$> data) !! Z.to_nat i1 = Some t1 →
  let step := dynamic_step file r (py_slice_to (fst <$> data) (len r))
                loudness_threshold confirm_seconds in
  let start := dynamic_start r (skip_mins * 60 * samples_per_sec) in
  (∃ t, analyze_file_dynamic_scan file data loudness_threshold window_size
          confirm_seconds skip_mins = Logged t (Ret (None, Some t1)))
  ∧ for_each step (py_range (skip_mins * 60 * samples_per_sec) (len r)) start
    = for_each step (py_range (skip_mins * 60 * samples_per_sec) (i1 + 1)) start.
Proof.
  intros Hw Hroll Hfinite Hpos Hm Hi1 Hbase Hnone Hconf Ht1 step start.
  set (m := skip_mins * 60 * samples_per_sec) in *.
  rewrite <- (len_fmap snd data) in Hroll.
  assert (Hlen : len r = len data - window_size + 1).
  { rewrite <- (len_fmap snd data).
    apply rolling_len; [by rewrite len_fmap|exact Hroll]. }
  set (times := py_slice_to (fst <$> data) (len r)) in *.
  assert (Htimes : times = take (Z.to_nat (len r)) (fst <$> data)).
  { subst times. apply py_slice_to_take. lia. }
  assert (Htlen : length times = length r).
  { rewrite Htimes, length_take, length_fmap. unfold len in *. lia. }
  assert (Htfin : Forall (λ t, is_finite t = true) times).
  { rewrite Htimes. by apply Forall_take. }
  (* the walk up to the first confirmed candidate *)
  destruct (dynamic_walk_total file r times loudness_threshold confirm_seconds
              Hpos Htfin Htlen (Z.to_nat (i1 - m)) m start)
    as (t & st1 & Hwalk & Hbuf1 & Htrim1 & Hsum1 & Hcount1).
  { lia. } { lia. }
  { subst start. unfold dynamic_start. simpl.
    destruct (Z.ltb_spec 0 m) as [Hmpos|Hmzero].
    - by rewrite py_slice_to_take by lia.
    - by replace m with 0 by lia. }
  { done. } { constructor. }
  { intros j Hj. split; [apply Hbase|apply Hnone]; lia. }
  replace (m + Z.of_nat (Z.to_nat (i1 - m))) with i1 in * by lia.
  (* the step at the first confirmed candidate *)
  assert (Hmean : baseline_at r i1
                  = avg_before_of (sum_before st1) (count_before st1)).
  { unfold baseline_at. by rewrite Hsum1, Hcount1. }
  destruct (dynamic_step_total file r times loudness_threshold confirm_seconds
              Hpos Htfin Htlen i1 st1)
    as (t' & st' & spike_time & spike_avg & Htime & _ & Hstep & _ & Hstop).
  { lia. } { done. } { rewrite <- Hmean. apply Hbase. lia. }
  rewrite <- Hmean, Hconf in Hstep, Hstop. destruct Hstop as [Htrim Hempty].
  assert (spike_time = t1) as ->.
  { rewrite Htimes, lookup_take_lt in Htime by lia. congruence. }
  assert (Hrun : ∀ n, i1 < n →
            for_each step (py_range m n) start = prepend t (Logged t' (Ret st'))).
  { intros n Hn. rewrite (py_range_split m i1 n) by lia.
    rewrite (for_each_reaches _ _ _ _ _ _ Hwalk).
    rewrite py_range_cons by lia. by rewrite (for_each_stop _ _ _ _ _ _ Hstep). }
  split; [|by rewrite !Hrun by lia].
  unfold analyze_file_dynamic_scan.
  destruct (Z.leb_spec window_size 0) as [?|_]; [lia|].
  destruct (Z.leb_spec (len data) window_size) as [?|_]; [lia|]. simpl orb. cbv iota.
  rewrite len_fmap.
  destruct (Z.leb_spec (len data - window_size + 1) 0) as [?|_]; [lia|].
  rewrite len_fmap in Hroll. rewrite Hroll, bind_lift_Ret.
  fold m. destruct (Z.leb_spec (len r) m) as [?|_]; [lia|].
  rewrite <- Hlen. fold times. fold step. fold start.
  rewrite Hrun, prepend_Logged, bind_Logged_Ret by lia.
  rewrite (finish_confirmed file (logs st') t1); [by eexists|done|done|].
  rewrite Forall_forall in Hfinite. apply Hfinite, list_elem_of_In.
  by eapply list_elem_of_lookup_2.
Qed.

(** ** The partition of the fixed-end scan *)

Lemma SFcompare_antisym (x y : spec_float) (c : comparison) :
  SFcompare x y = Some c → SFcompare y x = Some (CompOpp c).
Proof.
  destruct x as [sx|sx| |sx mx ex], y as [sy|sy| |sy my ey]; simpl;
    try discriminate; try (intros [= <-]; by repeat case_match).
  intros [= <-]. f_equal.
  change (Pos.compare_cont Eq my mx) with (Pos.compare my mx).
  change (Pos.compare_cont Eq mx my) with (Pos.compare mx my).
  rewrite (Z.compare_antisym ex ey), (Pos.compare_antisym mx my).
  destruct sx, sy; try done;
    destruct (ex ?= ey); simpl; try done; by destruct (mx ?= my)%positive.
Qed.

Lemma is_nan_spec (x : float) :
  is_nan x = match Prim2SF x with S754_nan => true | _ => false end.
Proof.
  unfold is_nan. rewrite FloatAxioms.eqb_spec. unfold SFeqb.
  destruct (Prim2SF x) as [s|s| |s m e]; try done.
  - by destruct s.
  - by rewrite SFcompare_refl_finite.
Qed.

(** Between two numbers, "not less" is "greater or equal". *)
Lemma not_ltb_leb (t a : float) :
  is_nan t = false → is_nan a = false → negb (t <? a)%float = (a <=? t)%float.
Proof.
  rewrite !is_nan_spec, FloatAxioms.ltb_spec, FloatAxioms.leb_spec.
  unfold SFltb, SFleb. intros Ht Ha.
  destruct (SFcompare (Prim2SF t) (Prim2SF a)) as [c|] eqn:Hc.
  - rewrite (SFcompare_antisym _ _ _ Hc). by destruct c.
  - destruct (Prim2SF t), (Prim2SF a); simpl in Hc; try done; by repeat case_match.
Qed.

(** The analysis start is never NaN. *)
Lemma py_max0_not_nan (x : float) : is_nan (py_max0 x) = false.
Proof.
  unfold py_max0. destruct (0 <? x)%float eqn:Hx; [|reflexivity].
  rewrite is_nan_spec. rewrite FloatAxioms.ltb_spec in Hx.
  by destruct (Prim2SF x).
Qed.

Lemma split_lecture_spec (a : float) (data : list (float * float))
    (sum_lecture : float) (count_lecture : Z) (end_part : list (float * float)) :
  split_lecture a data sum_lecture count_lecture end_part =
  (foldl fadd sum_lecture (snd <$> List.filter (λ p, (p.1 <? a)%float) data),
   count_lecture + len (List.filter (λ p, (p.1 <? a)%float) data),
   end_part ++ List.filter (λ p, negb (p.1 <? a)%float) data).
Proof.
  revert sum_lecture count_lecture end_part.
  induction data as [|[t m] data IH]; intros s c e; simpl.
  - unfold len. simpl. by rewrite Z.add_0_r, app_nil_r.
  - destruct (t <? a)%float; simpl; rewrite IH.
    + do 2 f_equal. unfold len. simpl length. lia.
    + by rewrite <- app_assoc.
Qed.

Lemma split_lecture_start (a : float) (data : list (float * float)) :
  split_lecture a data 0%float 0 [] =
  (py_sum (snd <$> lecture_part a data), len (lecture_part a data), end_part_of a data).
Proof. by rewrite split_lecture_spec. Qed.

(** With a tail longer than the window the fixed-end scan is its walk. *)
Lemma fixed_scan_walk (file : string) (data : list (float * float)) (duration : float)
    (loudness_threshold : float) (window_size : Z) (confirm_seconds : list Z)
    (analysis_minutes : Z) (r : list float) :
  let a := analysis_start_of duration analysis_minutes in
  is_finite a = true →
  0 < window_size < len (end_part_of a data) →
  rolling (snd <$> end_part_of a data) window_size
    (len (end_part_of a data) - window_size + 1) = Ret r →
  analyze_file_fixed_end file data duration loudness_threshold window_size
    confirm_seconds analysis_minutes =
  for_each (fixed_step file r (py_slice_to (fst <$> end_part_of a data) (len r))
              (lecture_avg_at a data) loudness_threshold confirm_seconds)
    (py_enumerate r) buffer_start
  ≫= finish file.
Proof.
  intros a Hfinite Hw Hroll.
  assert (Hlen : len r = len (end_part_of a data) - window_size + 1).
  { rewrite <- (len_fmap snd). apply rolling_len; rewrite len_fmap; done. }
  unfold analyze_file_fixed_end. fold a. rewrite split_lecture_start.
  rewrite seconds_to_hms_finite, bind_lift_Ret by done.
  destruct (end_part_of a data) as [|p tail] eqn:Htail.
  { unfold len in Hw. simpl in Hw. lia. }
  rewrite <- Htail in *. rewrite len_fmap.
  destruct (Z.leb_spec window_size 0) as [?|_]; [lia|].
  destruct (Z.leb_spec (len (end_part_of a data)) window_size) as [?|_]; [lia|].
  simpl orb. cbv iota.
  rewrite Hroll, bind_lift_Ret. rewrite <- Hlen. done.
Qed.

Lemma fixed_scan_first_confirmed (file : string) (data : list (float * float))
    (duration : float) (loudness_threshold : float) (window_size : Z)
    (confirm_seconds : list Z) (analysis_minutes : Z)
    (r : list float) (i1 : nat) (t1 : float) :
  let a := analysis_start_of duration analysis_minutes in
  let lecture_avg := lecture_avg_at a data in
  is_finite a = true →
  0 < window_size < len (end_part_of a data) →
  rolling (snd <$> end_part_of a data) window_size
    (len (end_part_of a data) - window_size + 1) = Ret r →
  Forall (λ t, is_finite t = true) (fst <$> end_part_of a data) →
  Forall (λ offset, 0 ≤ offset) confirm_seconds →
  (i1 < length r)%nat →
  (∀ j, 0 ≤ j < Z.of_nat i1 →
        confirmed_at r loudness_threshold confirm_seconds lecture_avg j = false) →
  confirmed_at r loudness_threshold confirm_seconds lecture_avg (Z.of_nat i1) = true →
  (fst <$> end_part_of a data) !! i1 = Some t1 →
  let step := fixed_step file r (py_slice_to (fst <$> end_part_of a data) (len r))
                lecture_avg loudness_threshold confirm_seconds in
  (∃ t, analyze_file_fixed_end file data duration loudness_threshold window_size
          confirm_seconds analysis_minutes = Logged t (Ret (None, Some t1)))
  ∧ for_each step (py_enumerate r) buffer_start
    = for_each step (py_enumerate (take (S i1) r)) buffer_start.
Proof.
  intros a lecture_avg Hfinite Hw Hroll Htimes Hpos Hi1 Hnone Hconf Ht1 step.
  assert (Hlen : len r = len (end_part_of a data) - window_size + 1).
  { rewrite <- (len_fmap snd). apply rolling_len; rewrite len_fmap; done. }
  set (times := py_slice_to (fst <$> end_part_of a data) (len r)) in *.
  assert (Htimes_take : times = take (Z.to_nat (len r)) (fst <$> end_part_of a data)).
  { subst times. apply py_slice_to_take. apply len_nonneg. }
  assert (Htlen : length times = length r).
  { rewrite Htimes_take, length_take, length_fmap. unfold len in *. lia. }
  assert (Htfin : Forall (λ t, is_finite t = true) times).
  { rewrite Htimes_take. by apply Forall_take. }
  destruct (lookup_lt_is_Some_2 r i1 Hi1) as [x Hx].
  pose proof (take_drop_middle r i1 x Hx) as Hsplit.
  assert (Hpre : length (take i1 r) = i1) by (rewrite length_take; lia).
  destruct (fixed_walk_total file r times lecture_avg loudness_threshold
              confirm_seconds Hpos Htfin Htlen (take i1 r) [] (x :: drop (S i1) r)
              buffer_start)
    as (t & st1 & Hwalk & Hbuf1 & Htrim1).
  { done. } { constructor. }
  { intros j Hj. apply Hnone. unfold len in Hj. simpl in Hj. lia. }
  change (len []) with 0 in Hwalk.
  destruct (fixed_step_total file r times lecture_avg loudness_threshold
              confirm_seconds Hpos Htfin Htlen i1 x st1 Hx Hbuf1)
    as (t' & st' & spike_time & Htime & Hstep & _ & Hstop).
  rewrite Hconf in Hstep, Hstop. destruct Hstop as [Htrim Hempty].
  assert (spike_time = t1) as ->.
  { rewrite Htimes_take, lookup_take_lt in Htime by (unfold len; lia). congruence. }
  assert (Hrun : ∀ post,
            for_each step (enumerate_from 0 (take i1 r ++ x :: post)) buffer_start
            = prepend t (Logged t' (Ret st'))).
  { intros post. rewrite enumerate_from_app, enumerate_from_cons.
    rewrite (for_each_reaches _ _ _ _ _ _ Hwalk).
    replace (0 + len (take i1 r)) with (Z.of_nat i1) by (unfold len; lia).
    by rewrite (for_each_stop _ _ _ _ _ _ Hstep). }
  assert (Hfull : for_each step (py_enumerate r) buffer_start
                  = prepend t (Logged t' (Ret st'))).
  { unfold py_enumerate. rewrite <- Hsplit at 1. apply Hrun. }
  split.
  - subst a lecture_avg. rewrite (fixed_scan_walk _ _ _ _ _ _ _ r) by done.
    fold times. fold step. rewrite Hfull, prepend_Logged, bind_Logged_Ret.
    rewrite (finish_confirmed file st' t1); [by eexists|done|done|].
    rewrite Forall_forall in Htimes. apply Htimes, list_elem_of_In.
    by eapply list_elem_of_lookup_2.
  - rewrite Hfull. unfold py_enumerate.
    rewrite (take_S_r _ _ _ Hx). by rewrite (Hrun []).
Qed.


(** A property checked on every index of a range holds on the range. *)
Lemma forallb_range (P : Z → bool) (a b : Z) :
  forallb P (py_range a b) = true → ∀ j, a ≤ j < b → P j = true.
Proof.
  intros Hall j Hj. rewrite forallb_forall in Hall. apply Hall.
  apply list_elem_of_In. unfold py_range. apply elem_of_seqZ. lia.
Qed.

Lemma range_all_false (P : Z → bool) (a b : Z) :
  forallb (λ j, negb (P j)) (py_range a b) = true → ∀ j, a ≤ j < b → P j = false.
Proof.
  intros Hall j Hj. apply negb_true_iff.
  by apply (forallb_range (λ j, negb (P j)) a b).
Qed.

Lemma Forall_finite_check (ts : list float) :
  forallb is_finite ts = true → Forall (λ t, is_finite t = true) ts.
Proof. apply forallb_Forall_true. Qed.

(** The hypotheses of the theorem on [two_spikes] and on example 3, checked
    index by index. *)
Lemma two_spikes_baseline (j : Z) :
  1 * 60 * samples_per_sec ≤ j ≤ 629 →
  (baseline_at (rolling_or_nil (snd <$> two_spikes) 5) j =? neg_infinity)%float = false.
Proof.
  intros Hj.
  pose (P := λ j, (baseline_at (rolling_or_nil (snd <$> two_spikes) 5) j
                   =? neg_infinity)%float).
  assert (H : forallb (λ j, negb (P j)) (py_range 600 630) = true)
    by (vm_compute; reflexivity).
  apply (range_all_false P 600 630 H j). unfold samples_per_sec in Hj. lia.
Qed.

Lemma two_spikes_unconfirmed (j : Z) :
  1 * 60 * samples_per_sec ≤ j < 629 →
  confirmed_at (rolling_or_nil (snd <$> two_spikes) 5) 12 [1; 2]
    (baseline_at (rolling_or_nil (snd <$> two_spikes) 5) j) j = false.
Proof.
  intros Hj.
  pose (P := λ j, confirmed_at (rolling_or_nil (snd <$> two_spikes) 5) 12 [1; 2]
                    (baseline_at (rolling_or_nil (snd <$> two_spikes) 5) j) j).
  assert (H : forallb (λ j, negb (P j)) (py_range 600 629) = true)
    by (vm_compute; reflexivity).
  apply (range_all_false P 600 629 H j). unfold samples_per_sec in Hj. lia.
Qed.

Lemma example3_unconfirmed (j : Z) :
  0 ≤ j < Z.of_nat 98 →
  confirmed_at
    (rolling_or_nil (snd <$> end_part_of (analysis_start_of 400 1) example3) 5)
    10 [1; 2] (lecture_avg_at (analysis_start_of 400 1) example3) j = false.
Proof.
  intros Hj.
  pose (P := λ j, confirmed_at
                    (rolling_or_nil
                       (snd <$> end_part_of (analysis_start_of 400 1) example3) 5)
                    10 [1; 2] (lecture_avg_at (analysis_start_of 400 1) example3) j).
  assert (H : forallb (λ j, negb (P j)) (py_range 0 98) = true)
    by (vm_compute; reflexivity).
  apply (range_all_false P 0 98 H j). lia.
Qed.



(** ** The fixed baseline *)

Lemma lecture_avg_at_mean (a : float) (data : list (float * float)) :
  lecture_avg_at a data =
  if 0 <? len (lecture_part a data) then mean (snd <$> lecture_part a data)
  else neg_infinity.
Proof. unfold lecture_avg_at, lecture_avg_of, mean. by rewrite len_fmap. Qed.

Lemma end_part_is_tail (a : float) (data : list (float * float)) :
  is_nan a = false → Forall (λ p, is_nan p.1 = false) data →
  end_part_of a data = tail_part a data.
Proof.
  intros Ha. unfold end_part_of, tail_part.
  induction 1 as [|p data Hp _ IH]; [done|]. simpl.
  rewrite (not_ltb_leb _ _ Hp Ha), IH. done.
Qed.

(** The candidate test of the fixed-end walk reads the baseline it is
    given, and stores it, plus the threshold, as ['pass_val']. *)
Lemma fixed_candidate_baseline (rolling_avgs rolling_times : list float)
    (lecture_avg loudness_threshold : float) (confirm_seconds : list Z)
    (i : Z) (spike_avg : float) (found : option (candidate * Z * bool)) :
  fixed_candidate rolling_avgs rolling_times lecture_avg loudness_threshold
    confirm_seconds i spike_avg = Ret found →
  match found with
  | Some (cand, _, _) =>
      is_spike spike_avg lecture_avg loudness_threshold = true
      ∧ pass_val cand = PVFloat (lecture_avg + loudness_threshold)
  | None => is_spike spike_avg lecture_avg loudness_threshold = false
  end.
Proof.
  unfold fixed_candidate. intros Hrun.
  apply outcome_bind_inv in Hrun as (spike_time & _ & Hrun).
  apply outcome_bind_inv in Hrun as (spike_second & _ & Hrun).
  unfold detect in Hrun.
  destruct (is_spike spike_avg lecture_avg loudness_threshold).
  - apply outcome_bind_inv in Hrun as (c & _ & Hrun).
    apply outcome_bind_inv in Hrun as (h & _ & Hrun).
    injection Hrun as <-. done.
  - by injection Hrun as <-.
Qed.

Lemma fixed_scan_no_tail (file : string) (data : list (float * float)) (duration : float)
    (loudness_threshold : float) (window_size : Z) (confirm_seconds : list Z)
    (analysis_minutes : Z) :
  let a := analysis_start_of duration analysis_minutes in
  is_finite a = true → end_part_of a data = [] →
  analyze_file_fixed_end file data duration loudness_threshold window_size
    confirm_seconds analysis_minutes
  = Logged [] (Ret (Some (NoEndPartData file), None)).
Proof.
  intros a Hfinite Hempty. unfold analyze_file_fixed_end. fold a.
  rewrite split_lecture_start, Hempty.
  by rewrite seconds_to_hms_finite, bind_lift_Ret by done.
Qed.



(** ** Invalid configurations *)

Lemma dynamic_scan_invalid_window (file : string) (data : list (float * float))
    (loudness_threshold : float) (window_size : Z) (confirm_seconds : list Z)
    (skip_mins : Z) :
  window_size ≤ 0 ∨ len data ≤ window_size →
  analyze_file_dynamic_scan file data loudness_threshold window_size confirm_seconds
    skip_mins
  = Logged [] (Ret (Some (InvalidWindowSize file window_size (len data)), None)).
Proof.
  intros Hw. unfold analyze_file_dynamic_scan.
  destruct (Z.leb_spec window_size 0) as [?|?]; [done|].
  destruct (Z.leb_spec (len data) window_size) as [?|?]; [done|lia].
Qed.

Lemma dynamic_scan_skip_exceeds (file : string) (data : list (float * float))
    (loudness_threshold : float) (window_size : Z) (confirm_seconds : list Z)
    (skip_mins : Z) :
  0 < window_size < len data →
  len data - window_size + 1 ≤ skip_mins * 60 * samples_per_sec →
  analyze_file_dynamic_scan file data loudness_threshold window_size confirm_seconds
    skip_mins
  = Logged [] (Ret (Some (SkipExceedsDuration file skip_mins), None)).
Proof.
  intros Hw Hskip. unfold analyze_file_dynamic_scan.
  destruct (Z.leb_spec window_size 0) as [?|_]; [lia|].
  destruct (Z.leb_spec (len data) window_size) as [?|_]; [lia|]. simpl orb. cbv iota.
  rewrite len_fmap.
  destruct (Z.leb_spec (len data - window_size + 1) 0) as [?|_]; [lia|].
  destruct (rolling_slide (snd <$> data) (Z.to_nat window_size))
    as (r & Hroll & Hlen & _).
  { lia. }
  { rewrite length_fmap. unfold len in Hw. lia. }
  rewrite Z2Nat.id, len_fmap in Hroll by lia. rewrite Hroll, bind_lift_Ret.
  rewrite length_fmap in Hlen.
  destruct (Z.leb_spec (len r) (skip_mins * 60 * samples_per_sec)) as [_|?]; [done|].
  unfold len in *. lia.
Qed.

Lemma fixed_scan_invalid_window (file : string) (data : list (float * float))
    (duration : float) (loudness_threshold : float) (window_size : Z)
    (confirm_seconds : list Z) (analysis_minutes : Z) :
  let a := analysis_start_of duration analysis_minutes in
  is_finite a = true →
  window_size ≤ 0 ∨ len (end_part_of a data) ≤ window_size →
  analyze_file_fixed_end file data duration loudness_threshold window_size
    confirm_seconds analysis_minutes
  = Logged [] (Ret (Some (match end_part_of a data with
                          | [] => NoEndPartData file
                          | _ => InvalidEndWindowSize file window_size
                                   (len (end_part_of a data))
                          end), None)).
Proof.
  intros a Hfinite Hw.
  destruct (end_part_of a data) as [|p tail] eqn:Htail.
  { by apply fixed_scan_no_tail. }
  unfold analyze_file_fixed_end. fold a. rewrite split_lecture_start, Htail.
  rewrite seconds_to_hms_finite, bind_lift_Ret by done.
  rewrite len_fmap.
  destruct (Z.leb_spec window_size 0) as [?|?]; [done|].
  destruct (Z.leb_spec (len (p :: tail)) window_size) as [?|?]; [done|lia].
Qed.



(** ** One line per second of failures *)

Lemma log_lines_confirmed (file : string) (buffer : list candidate) :
  log_lines file buffer true = ItemLine file <$> buffer.
Proof.
  destruct buffer as [|first rest]; [done|].
  unfold log_lines. by rewrite andb_false_r.
Qed.

Lemma log_lines_failures (file : string) (first : candidate) (rest : list candidate) :
  Forall (λ c, loggable c ∧ status c = Fail) (first :: rest) →
  log_lines file (first :: rest) false = [FailSummary file (max_from first rest)].
Proof.
  intros Hfail. unfold log_lines.
  assert (Hall : forallb (λ item, is_fail (status item)) (first :: rest) = true).
  { apply forallb_Forall_true. eapply Forall_impl; [|exact Hfail].
    intros c [_ Hc]. simpl in Hc. by rewrite Hc. }
  by rewrite Hall.
Qed.

Lemma feed_cons (file : string) (item : candidate * Z * bool)
    (found : list (candidate * Z * bool)) (st : buffer_state) :
  feed file (item :: found) st =
  record_candidate file st item.1.1 item.1.2 item.2
  ≫= λ '(st', stop), if stop : bool then mret st' else feed file found st'.
Proof. reflexivity. Qed.

Section dedup.
Variable file : string.

(** Failures of the buffer's own second are appended, nothing is written. *)
Lemma feed_same_second (second : Z) (group : list candidate)
    (rest : list (candidate * Z * bool)) (st : buffer_state) :
  Some second = current_second st →
  Forall loggable (buffer st) →
  Forall (λ c, loggable c ∧ status c = Fail) group →
  feed file (failures second group ++ rest) st =
  feed file rest {| buffer := buffer st ++ group;
                    current_second := current_second st;
                    trim_time := trim_time st |}.
Proof.
  intros Hsame Hbuf Hgroup. revert st Hsame Hbuf.
  induction Hgroup as [|c group [Hc _] _ IH]; intros st Hsame Hbuf.
  - simpl. rewrite app_nil_r. by destruct st.
  - simpl app. rewrite feed_cons. simpl fst. simpl snd.
    rewrite record_candidate_loggable by done.
    rewrite bool_decide_eq_true_2 by done. rewrite bind_Logged_Ret. simpl.
    rewrite prepend_nil, IH; simpl; [|done|].
    + by rewrite <- app_assoc.
    + apply Forall_app. split; [done|by constructor].
Qed.

(** The first failure of a new second flushes the previous one. *)
Lemma feed_new_second (second : Z) (c : candidate) (group : list candidate)
    (rest : list (candidate * Z * bool)) (st : buffer_state) :
  Some second ≠ current_second st →
  Forall loggable (buffer st) →
  Forall (λ c, loggable c ∧ status c = Fail) (c :: group) →
  feed file (failures second (c :: group) ++ rest) st =
  prepend (log_lines file (buffer st) false)
    (feed file rest {| buffer := c :: group; current_second := Some second;
                       trim_time := trim_time st |}).
Proof.
  intros Hnew Hbuf Hgroup.
  pose proof (Forall_inv Hgroup) as [Hc _].
  pose proof (Forall_inv_tail Hgroup) as Htail.
  simpl app. rewrite feed_cons. simpl fst. simpl snd.
  rewrite record_candidate_loggable by done.
  rewrite bool_decide_eq_false_2 by done. rewrite bind_Logged_Ret. simpl.
  rewrite app_nil_r. f_equal.
  rewrite feed_same_second; simpl; [done|done| |done].
  by constructor.
Qed.

Lemma feed_groups (groups : list (Z * list candidate)) (st : buffer_state) :
  well_grouped (current_second st) groups →
  Forall loggable (buffer st) →
  trim_time st = None →
  feed file (concat ((λ g, failures g.1 g.2) <$> groups)) st ≫= finish file =
  Logged (log_lines file (buffer st) false ++ concat (summary file <$> groups))
    (Ret (None, None)).
Proof.
  revert st. induction groups as [|[second group] groups IH]; intros st Hgroups Hbuf Htrim.
  - change (feed file (concat ((λ g, failures g.1 g.2) <$> [])) st)
      with (mret st : logged buffer_state).
    rewrite bind_mret. simpl concat. rewrite app_nil_r. by apply finish_none.
  - destruct Hgroups as (Hnew & Hne & Hfail & Hrest).
    destruct group as [|c group]; [done|].
    change (concat ((λ g, failures g.1 g.2) <$> (second, c :: group) :: groups))
      with (failures second (c :: group)
            ++ concat ((λ g, failures g.1 g.2) <$> groups)).
    change (concat (summary file <$> (second, c :: group) :: groups))
      with ([FailSummary file (max_from c group)] ++ concat (summary file <$> groups)).
    rewrite feed_new_second by done.
    rewrite prepend_bind, IH; cbn [buffer current_second trim_time];
      [| done | | done].
    + rewrite prepend_Logged.
      by rewrite (log_lines_failures file c group Hfail).
    + eapply Forall_impl; [|exact Hfail]. by intros x [Hx _].
Qed.

(** A confirmed candidate writes the whole buffer with itself, item by
    item, after the summary of an earlier second; the buffer is then empty
    and nothing that follows is fed. *)
Lemma feed_confirmed (cand : candidate) (second : Z)
    (rest : list (candidate * Z * bool)) (st : buffer_state) :
  Forall loggable (buffer st) → loggable cand →
  feed file ((cand, second, true) :: rest) st ≫= finish file =
  Logged (if bool_decide (Some second = current_second st)
          then ItemLine file <$> buffer st ++ [cand]
          else log_lines file (buffer st) false ++ [ItemLine file cand])
    (Ret (None, Some (time cand))).
Proof.
  intros Hbuf Hcand. rewrite feed_cons. simpl fst. simpl snd.
  rewrite record_candidate_loggable by done.
  rewrite bind_Logged_Ret. cbv beta iota. rewrite prepend_mret, bind_Logged_Ret.
  rewrite (finish_confirmed file _ (time cand)); [|done|done|by destruct Hcand].
  rewrite prepend_Logged, app_nil_r, log_lines_confirmed.
  by destruct (bool_decide _).
Qed.
End dedup.

(** C9 as stated fails: in the fixed-end scan of [same_second_burst]
    (duration 61 s, one analysed minute, threshold 12, window 1, offset 1)
    two candidates of second 1 fail and a third is confirmed, and the trail
    keeps both failures beside the confirmed one. *)
Lemma same_second_failures_all_logged :
  ∃ c0 c1 c2,
    analyze_file_fixed_end "lecture.m4a" same_second_burst 61 12 1 [1] 1
    = Logged [ItemLine "lecture.m4a" c0; ItemLine "lecture.m4a" c1;
              ItemLine "lecture.m4a" c2]
        (Ret (None, Some (decimal 12)))
    ∧ (status c0 = Fail ∧ status c1 = Fail ∧ status c2 = Pass)
    ∧ (py_int (time c0) = Ret 1 ∧ py_int (time c1) = Ret 1 ∧ py_int (time c2) = Ret 1).
Proof.
  do 3 eexists. split; [vm_compute; reflexivity|].
  split; [by split_and!|]. split_and!; vm_compute; reflexivity.
Qed.

(** C9, as amended.  A buffer of failed candidates written without a
    confirmation leaves one summary line, that of a candidate with the
    greatest pass count; fed group after group, the failures of each second
    leave exactly that one line, in order, and the scan ends without a trim
    time.  A confirmed candidate writes the buffer item by item, the failures
    of its own second included, after the summary of an earlier second; the
    buffer is cleared and the scan ends with the candidate's time. *)
Theorem failures_leave_one_line_per_second (file : string) :
  (∀ group, group ≠ [] →
     Forall (λ c, loggable c ∧ status c = Fail) group →
     ∃ best,
       log_buffer file group false = Logged [FailSummary file best] (Ret tt)
       ∧ best ∈ group
       ∧ ∀ c, c ∈ group → pass_count c ≤ pass_count best)
  ∧ (∀ groups,
       well_grouped None groups →
       feed file (concat ((λ g, failures g.1 g.2) <$> groups)) buffer_start
       ≫= finish file
       = Logged (concat (summary file <$> groups)) (Ret (None, None)))
  ∧ (∀ cand second rest st,
       Forall loggable (buffer st) → loggable cand →
       feed file ((cand, second, true) :: rest) st ≫= finish file
       = Logged (if bool_decide (Some second = current_second st)
                 then ItemLine file <$> buffer st ++ [cand]
                 else log_lines file (buffer st) false ++ [ItemLine file cand])
           (Ret (None, Some (time cand)))).
Proof.
  split_and!.
  - intros [|first rest] Hne Hfail; [done|].
    exists (max_from first rest). split_and!.
    + rewrite log_buffer_loggable.
      * by rewrite log_lines_failures.
      * eapply Forall_impl; [|exact Hfail]. by intros c [Hc _].
    + apply max_from_elem.
    + apply max_from_greatest.
  - intros groups Hgroups.
    by rewrite (feed_groups file groups buffer_start Hgroups) by (done || constructor).
  - intros cand second rest st Hbuf Hcand. by apply feed_confirmed.
Qed.

(** The theorem on three failures of second 1 with pass counts 0, 2, 1:
    the line written is that of the candidate with pass count 2. *)
Lemma failures_leave_one_line_per_second_witness :
  ∃ best,
    log_buffer "lecture.m4a"
      [failed (decimal 10) 0; failed (decimal 11) 2; failed (decimal 12) 1] false
    = Logged [FailSummary "lecture.m4a" best] (Ret tt)
    ∧ pass_count best = 2.
Proof.
  destruct (proj1 (failures_leave_one_line_per_second "lecture.m4a")
              [failed (decimal 10) 0; failed (decimal 11) 2; failed (decimal 12) 1])
    as (best & Hlog & Hin & Hmax).
  - discriminate.
  - repeat constructor; try (vm_compute; reflexivity); by eexists.
  - exists best. split; [exact Hlog|].
    apply Z.le_antisymm.
    + rewrite !elem_of_cons in Hin.
      destruct Hin as [->|[->|[->|Hin]]]; simpl; try lia.
      by apply elem_of_nil in Hin.
    + apply (Hmax (failed (decimal 11) 2)). apply list_elem_of_further, list_elem_of_here.
Defined.

(** * The rest of the code

    Properties of the scans beyond the specification's claims, of the entry
    point [analyze_file], and of the helpers of config.py, main.py, c_io.py
    and utils.py around them. *)

(** ** What a scan that returns has done *)

Lemma log_items_ret (file : string) (buffer : list candidate) (t : list log_line) :
  log_items file buffer = Logged t (Ret tt) → t = ItemLine file <$> buffer.
Proof.
  revert t. induction buffer as [|c buffer IH]; intros t Hrun.
  - by apply mret_logged_inv in Hrun as [_ ->].
  - cbn [log_items] in Hrun.
    apply logged_bind_inv in Hrun as (t1 & [] & t2 & Hfmt & Hrun & ->).
    apply lift_inv in Hfmt as [_ ->].
    apply logged_bind_inv in Hrun as (t3 & [] & t4 & Hline & Hrun & ->).
    unfold verbose in Hline. injection Hline as <-.
    by rewrite (IH _ Hrun).
Qed.

(** When [log_buffer] returns it has written what [log_lines] says. *)
Lemma log_buffer_ret (file : string) (buffer : list candidate) (confirmed : bool)
    (t : list log_line) :
  log_buffer file buffer confirmed = Logged t (Ret tt) →
  t = log_lines file buffer confirmed.
Proof.
  unfold log_buffer, log_lines. destruct buffer as [|first rest].
  - intros Hrun. by apply mret_logged_inv in Hrun as [_ ->].
  - destruct (forallb _ _ && negb confirmed).
    + intros Hrun.
      apply logged_bind_inv in Hrun as (t1 & ? & t2 & H1 & Hrun & ->).
      apply lift_inv in H1 as [_ ->].
      apply logged_bind_inv in Hrun as (t3 & ? & t4 & H3 & Hrun & ->).
      apply lift_inv in H3 as [_ ->].
      apply logged_bind_inv in Hrun as (t5 & ? & t6 & H5 & Hrun & ->).
      apply lift_inv in H5 as [_ ->].
      unfold verbose in Hrun. by injection Hrun as <-.
    + apply log_items_ret.
Qed.

(** What [record_candidate] has done when it returns. *)
Lemma record_candidate_ret (file : string) (st st' : buffer_state) (cand : candidate)
    (spike_second : Z) (confirmed stop : bool) (t : list log_line) :
  record_candidate file st cand spike_second confirmed = Logged t (Ret (st', stop)) →
  let same := bool_decide (Some spike_second = current_second st) in
  let flushed := if same then [] else log_lines file (buffer st) false in
  let kept := if same then buffer st ++ [cand] else [cand] in
  let second := if same then current_second st else Some spike_second in
  stop = confirmed
  ∧ t = flushed ++ (if confirmed then ItemLine file <$> kept else [])
  ∧ st' = (if confirmed
           then {| buffer := []; current_second := second;
                   trim_time := Some (time cand) |}
           else {| buffer := kept; current_second := second;
                   trim_time := trim_time st |}).
Proof.
  cbv zeta. unfold record_candidate. intros Hrun.
  apply logged_bind_inv in Hrun as (t1 & [buf sec] & t2 & Hflush & Hrun & ->).
  assert (Hfirst : t1 = (if bool_decide (Some spike_second = current_second st)
                         then [] else log_lines file (buffer st) false)
                   ∧ buf = (if bool_decide (Some spike_second = current_second st)
                            then buffer st ++ [cand] else [cand])
                   ∧ sec = (if bool_decide (Some spike_second = current_second st)
                            then current_second st else Some spike_second)).
  { destruct (decide (Some spike_second = current_second st)) as [Heq|Hne].
    - rewrite bool_decide_eq_true_2 by done.
      apply mret_logged_inv in Hflush as [[= <- <-] ->]. done.
    - rewrite bool_decide_eq_false_2 by done.
      apply logged_bind_inv in Hflush as (t3 & [] & t4 & Hlog & Hret & ->).
      apply mret_logged_inv in Hret as [[= <- <-] ->].
      rewrite py_init_snoc in Hlog. apply log_buffer_ret in Hlog as ->.
      by rewrite app_nil_r. }
  destruct Hfirst as (-> & -> & ->).
  destruct confirmed.
  - apply logged_bind_inv in Hrun as (t3 & [] & t4 & Hlog & Hret & ->).
    apply mret_logged_inv in Hret as [[= <- <-] ->].
    apply log_buffer_ret in Hlog as ->.
    by rewrite log_lines_confirmed, app_nil_r.
  - by apply mret_logged_inv in Hrun as [[= <- <-] ->].
Qed.

(** The status the confirmation loop leaves agrees with its flag. *)
Lemma confirm_loop_status (rolling_avgs : list float) (i : Z) (spike_avg : float)
    (confirm_seconds : list Z) (c0 c : confirmation) :
  confirm_loop rolling_avgs i spike_avg confirm_seconds c0 = Ret c →
  cf_status c0 = (if cf_confirmed c0 then Pass else Fail) →
  cf_status c = (if cf_confirmed c then Pass else Fail).
Proof.
  revert c0. induction confirm_seconds as [|offset offsets IH]; intros c0 Hrun Hc0.
  - by injection Hrun as <-.
  - cbn [confirm_loop] in Hrun.
    destruct (len rolling_avgs <=? confirm_index i offset); [by injection Hrun as <-|].
    apply outcome_bind_inv in Hrun as (confirm_avg & _ & Hrun).
    destruct (confirm_avg <? spike_avg)%float; [by injection Hrun as <-|].
    by apply IH in Hrun.
Qed.

(** What [detect] has found when it returns a candidate. *)
Lemma detect_ret (rolling_avgs : list float) (loudness_threshold : float)
    (confirm_seconds : list Z) (i : Z) (spike_time : float) (spike_second : Z)
    (spike_avg baseline : float) (pv : pass_value)
    (cand : candidate) (second : Z) (confirmed : bool) :
  detect rolling_avgs loudness_threshold confirm_seconds i spike_time spike_second
    spike_avg baseline pv = Ret (Some (cand, second, confirmed)) →
  time cand = spike_time
  ∧ spike_second = second
  ∧ is_finite spike_time = true
  ∧ status cand = (if confirmed then Pass else Fail)
  ∧ is_spike spike_avg baseline loudness_threshold = true.
Proof.
  unfold detect. destruct (is_spike spike_avg baseline loudness_threshold); [|done].
  intros Hrun.
  apply outcome_bind_inv in Hrun as (c & Hloop & Hrun).
  apply outcome_bind_inv in Hrun as (h & Hhms & Hrun).
  injection Hrun as <- <- <-. simpl.
  split_and!; [done|done| |by eapply confirm_loop_status|done].
  unfold seconds_to_hms in Hhms. by destruct (is_finite spike_time).
Qed.

Lemma py_getitem_elem_of {A} (l : list A) (i : Z) (x : A) :
  py_getitem l i = Ret x → x ∈ l.
Proof.
  unfold py_getitem. destruct (_ <? 0); [done|].
  destruct (l !! _) as [y|] eqn:Hy; [|done].
  intros [= <-]. by eapply list_elem_of_lookup_2.
Qed.

(** A loop that returns has walked all its items, or walked some of them
    and stopped at the next. *)
Lemma for_each_ret {S I} (body : I → S → logged (S * bool)) (items : list I)
    (st st' : S) (t : list log_line) :
  for_each body items st = Logged t (Ret st') →
  reaches body items st t st'
  ∨ ∃ l1 i l2 st1 t1 t2,
      items = l1 ++ i :: l2
      ∧ reaches body l1 st t1 st1
      ∧ body i st1 = Logged t2 (Ret (st', true))
      ∧ t = t1 ++ t2.
Proof.
  revert st t. induction items as [|i items IH]; intros st t Hrun.
  - apply mret_logged_inv in Hrun as [-> ->]. left. constructor.
  - cbn [for_each] in Hrun.
    apply logged_bind_inv in Hrun as (t1 & [st1 stop] & t2 & Hstep & Hrun & ->).
    destruct stop.
    + apply mret_logged_inv in Hrun as [-> ->]. right.
      exists [], i, items, st, [], t1. rewrite app_nil_r.
      split_and!; [done|constructor|done|done].
    + apply IH in Hrun as [Hwalk|(l1 & j & l2 & st2 & t3 & t4 & -> & Hwalk & Hstop & ->)].
      * left. by econstructor.
      * right. exists (i :: l1), j, l2, st2, (t1 ++ t3), t4.
        split_and!; [done|by econstructor|done|by rewrite app_assoc].
Qed.

(** An invariant of the steps that go on is an invariant of the walk. *)
Lemma reaches_invariant {S I} (body : I → S → logged (S * bool)) (P : S → Prop)
    (T : log_line → Prop) (items : list I) (st st' : S) (t : list log_line) :
  (∀ i st st' t, i ∈ items → P st → body i st = Logged t (Ret (st', false)) →
                 P st' ∧ Forall T t) →
  reaches body items st t st' → P st → P st' ∧ Forall T t.
Proof.
  intros Hstep Hwalk. induction Hwalk as [st|i items st st1 st2 t1 t2 Hi _ IH]; intros Hst.
  - split; [done|constructor].
  - destruct (Hstep i st st1 t1) as [Hst1 Ht1]; [apply list_elem_of_here|done|done|].
    destruct IH as [Hst2 Ht2]; [|done|].
    + intros j sa sb tj Hj. apply Hstep. by apply list_elem_of_further.
    + split; [done|]. by apply Forall_app.
Qed.

Lemma log_lines_walking (file : string) (buffer : list candidate) :
  Forall (λ c, status c = Fail) buffer →
  Forall (fail_summary file) (log_lines file buffer false).
Proof.
  intros Hfail. unfold log_lines. destruct buffer as [|first rest]; [constructor|].
  destruct (forallb _ _ && negb false) eqn:Htest.
  - constructor; [|constructor]. eexists. split; [done|].
    pose proof (max_from_elem first rest) as Hin.
    rewrite Forall_forall in Hfail. by apply Hfail, list_elem_of_In.
  - rewrite andb_true_r in Htest. apply not_true_iff_false in Htest.
    destruct Htest. apply forallb_Forall_true.
    eapply Forall_impl; [|exact Hfail]. simpl. by intros c ->.
Qed.

(** One use of the buffer, from a walking state: it goes on walking and
    has written summaries only, or it stops on a confirmed candidate. *)
Lemma record_found_ret (file : string) (st st' : buffer_state)
    (found : option (candidate * Z * bool)) (stop : bool) (t : list log_line) :
  record_found file st found = Logged t (Ret (st', stop)) →
  walking st →
  match found with
  | Some (cand, second, confirmed) =>
      status cand = (if confirmed then Pass else Fail)
      ∧ py_int (time cand) = Ret second
  | None => True
  end →
  if stop
  then ∃ cand second, found = Some (cand, second, true)
                      ∧ buffer st' = []
                      ∧ trim_time st' = Some (time cand)
                      ∧ scan_trail file (Some (time cand)) t
  else walking st' ∧ Forall (fail_summary file) t.
Proof.
  intros Hrun [Htrim Hbuf] Hfound. destruct found as [[[cand second] confirmed]|].
  - destruct Hfound as [Hstatus Hsecond].
    apply record_candidate_ret in Hrun as (-> & -> & ->).
    assert (Hfail : Forall (λ c, status c = Fail) (buffer st)).
    { eapply list.Forall_impl; [exact Hbuf|]. simpl. by intros c [? _]. }
    pose proof (log_lines_walking file _ Hfail) as Hsum.
    destruct confirmed.
    + exists cand, second. split_and!; [done..|].
      destruct (bool_decide_reflect (Some second = current_second st)) as [Hsame|_].
      * exists [], (buffer st), cand. rewrite fmap_app. simpl.
        split_and!; [done|constructor| |done..].
        eapply list.Forall_impl; [exact Hbuf|]. simpl.
        intros c (Hc & s & Hs & Hint). split; [done|]. congruence.
      * exists (log_lines file (buffer st) false), [], cand.
        split_and!; [done|done|constructor|done..].
    + destruct (bool_decide_reflect (Some second = current_second st)) as [Hsame|_];
        (split; [split; [done|]|]); simpl.
      * apply Forall_app. split; [done|]. constructor; [|constructor].
        split; [done|]. by exists second.
      * constructor.
      * constructor; [|constructor]. split; [done|]. by exists second.
      * by rewrite app_nil_r.
  - apply mret_logged_inv in Hrun as [[= <- <-] ->]. split; [done|constructor].
Qed.

Lemma finish_ret (file : string) (st : buffer_state) (t : list log_line)
    (m : option skip_message) (trim : option float) :
  finish file st = Logged t (Ret (m, trim)) →
  m = None ∧ trim = trim_time st ∧ t = log_lines file (buffer st) false
  ∧ ∀ x, trim = Some x → is_finite x = true.
Proof.
  unfold finish. intros Hrun.
  apply logged_bind_inv in Hrun as (t1 & [] & t2 & Hlog & Hrun & ->).
  apply log_buffer_ret in Hlog as ->.
  destruct (trim_time st) as [x|].
  - apply logged_bind_inv in Hrun as (t3 & h & t4 & Hhms & Hrun & ->).
    apply lift_inv in Hhms as [Hhms ->].
    apply mret_logged_inv in Hrun as [[= <- <-] ->].
    rewrite app_nil_r. split_and!; [done..|].
    intros y [= <-]. unfold seconds_to_hms in Hhms. by destruct (is_finite x).
  - apply mret_logged_inv in Hrun as [[= <- <-] ->].
    rewrite app_nil_r. by split_and!.
Qed.

Section walk_result.
Context {S I : Type}.
Variable file : string.
Variable times : list float.
Variable body : I → S → logged (S * bool).
Variable logs_of : S → buffer_state.
Hypothesis body_records :
  ∀ i st st' stop t,
    body i st = Logged t (Ret (st', stop)) →
    ∃ found, found_at times found
             ∧ record_found file (logs_of st) found = Logged t (Ret (logs_of st', stop)).

Lemma walk_goes_on (items : list I) (st st' : S) (t : list log_line) :
  reaches body items st t st' → walking (logs_of st) →
  walking (logs_of st') ∧ Forall (fail_summary file) t.
Proof using body_records.
  apply (reaches_invariant body (λ st, walking (logs_of st)) (fail_summary file)).
  intros i sa sb ti _ Hsa Hstep.
  apply body_records in Hstep as (found & Hfound & Hrec).
  apply (record_found_ret _ _ _ _ _ _ Hrec Hsa).
  destruct found as [[[cand second] confirmed]|]; [|done].
  by destruct Hfound as (? & ? & _).
Qed.

(** A walk from a walking buffer, then the tail of the scan: no message,
    the trail of [scan_trail], and a trim time that is a finite window time. *)
Lemma walk_result (items : list I) (st : S) (t : list log_line)
    (m : option skip_message) (trim : option float) :
  for_each body items st ≫= (λ st, finish file (logs_of st)) = Logged t (Ret (m, trim)) →
  walking (logs_of st) →
  m = None ∧ scan_trail file trim t
  ∧ ∀ x, trim = Some x → is_finite x = true ∧ x ∈ times.
Proof using body_records.
  intros Hrun Hst.
  apply logged_bind_inv in Hrun as (t1 & st1 & t2 & Hloop & Hfin & ->).
  apply finish_ret in Hfin as (-> & -> & -> & Hfinite).
  split; [done|].
  apply for_each_ret in Hloop
    as [Hwalk|(l1 & i & l2 & st2 & t3 & t4 & -> & Hwalk & Hstop & ->)].
  - apply walk_goes_on in Hwalk as [[Htrim Hfail] Hsum]; [|done].
    rewrite Htrim. split; [|done]. simpl.
    apply Forall_app. split; [done|]. apply log_lines_walking.
    eapply list.Forall_impl; [exact Hfail|]. simpl. by intros c [? _].
  - apply walk_goes_on in Hwalk as [Hst2 Hsum]; [|done].
    apply body_records in Hstop as (found & Hfound & Hrec).
    apply (record_found_ret _ _ _ _ _ _ Hrec) in Hst2 as Hstopped.
    + destruct Hstopped as (cand & second & -> & Hbuf & Htrim & Htrail).
      rewrite Htrim, Hbuf. simpl. rewrite app_nil_r. split.
      * destruct Htrail as (ta & fails & c & -> & Hta & Hfails & Hpass & Htime).
        exists (t3 ++ ta), fails, c. rewrite <- app_assoc.
        split_and!; [done|by apply Forall_app|done..].
      * intros x [= <-]. split; [apply Hfinite; by rewrite Htrim|].
        by destruct Hfound as (_ & _ & ?).
    + destruct found as [[[cand second] confirmed]|]; [|done].
      by destruct Hfound as (? & ? & _).
Qed.
End walk_result.

Lemma dynamic_step_records (file : string) (rolling_avgs rolling_times : list float)
    (loudness_threshold : float) (confirm_seconds : list Z)
    (i : Z) (st st' : dynamic_state) (stop : bool) (t : list log_line) :
  dynamic_step file rolling_avgs rolling_times loudness_threshold confirm_seconds i st
  = Logged t (Ret (st', stop)) →
  ∃ found, found_at rolling_times found
           ∧ record_found file (logs st) found = Logged t (Ret (logs st', stop)).
Proof.
  unfold dynamic_step. intros Hrun.
  apply logged_bind_inv in Hrun as (t1 & [spike_avg found] & t2 & Hcand & Hrun & ->).
  apply lift_inv in Hcand as [Hcand ->].
  apply logged_bind_inv in Hrun as (t3 & [logs' stop'] & t4 & Hrec & Hrun & ->).
  exists found. split.
  - unfold dynamic_candidate in Hcand.
    apply outcome_bind_inv in Hcand as (spike_time & Htime & Hcand).
    apply outcome_bind_inv in Hcand as (spike_second & Hint & Hcand).
    apply outcome_bind_inv in Hcand as (a & _ & Hcand).
    apply outcome_bind_inv in Hcand as (found' & Hdetect & Hcand).
    injection Hcand as _ ->.
    destruct found as [[[cand second] confirmed]|]; [|done].
    apply detect_ret in Hdetect as (Hcand & <- & _ & Hstatus & _).
    unfold found_at. rewrite Hcand. split_and!; [done..|]. by eapply py_getitem_elem_of.
  - simpl. rewrite Hrec.
    destruct stop'; apply mret_logged_inv in Hrun as [[= <- <-] ->];
      by rewrite app_nil_r.
Qed.

Lemma fixed_step_records (file : string) (rolling_avgs rolling_times : list float)
    (lecture_avg loudness_threshold : float) (confirm_seconds : list Z)
    (item : Z * float) (st st' : buffer_state) (stop : bool) (t : list log_line) :
  fixed_step file rolling_avgs rolling_times lecture_avg loudness_threshold
    confirm_seconds item st = Logged t (Ret (st', stop)) →
  ∃ found, found_at rolling_times found
           ∧ record_found file st found = Logged t (Ret (st', stop)).
Proof.
  unfold fixed_step. intros Hrun.
  apply logged_bind_inv in Hrun as (t1 & found & t2 & Hcand & Hrun & ->).
  apply lift_inv in Hcand as [Hcand ->].
  exists found. split; [|done].
  unfold fixed_candidate in Hcand.
  apply outcome_bind_inv in Hcand as (spike_time & Htime & Hcand).
  apply outcome_bind_inv in Hcand as (spike_second & Hint & Hdetect).
  destruct found as [[[cand second] confirmed]|]; [|done].
  apply detect_ret in Hdetect as (Hcand & <- & _ & Hstatus & _).
  unfold found_at. rewrite Hcand. split_and!; [done..|]. by eapply py_getitem_elem_of.
Qed.

Lemma walking_start : walking buffer_start.
Proof. split; [done|constructor]. Qed.

Lemma py_slice_to_subseteq {A} (l : list A) (k : Z) (x : A) :
  x ∈ py_slice_to l k → x ∈ l.
Proof.
  unfold py_slice_to. intros Hx.
  apply elem_of_take in Hx as (i & Hi & _). by eapply list_elem_of_lookup_2.
Qed.

Lemma dynamic_scan_ret (file : string) (data : list (float * float))
    (loudness_threshold : float) (window_size : Z) (confirm_seconds : list Z)
    (skip_mins : Z) (t : list log_line) (m : option skip_message)
    (trim : option float) :
  analyze_file_dynamic_scan file data loudness_threshold window_size confirm_seconds
    skip_mins = Logged t (Ret (m, trim)) →
  match m with
  | Some _ => trim = None ∧ t = []
  | None => scan_trail file trim t
            ∧ ∀ x, trim = Some x → is_finite x = true ∧ x ∈ fst <$> data
  end.
Proof.
  unfold analyze_file_dynamic_scan. intros Hrun.
  destruct ((window_size <=? 0) || (len data <=? window_size)).
  { by apply mret_logged_inv in Hrun as [[= <- <-] ->]. }
  destruct (len (snd <$> data) - window_size + 1 <=? 0).
  { by apply mret_logged_inv in Hrun as [[= <- <-] ->]. }
  apply logged_bind_inv in Hrun as (t1 & r & t2 & Hroll & Hrun & ->).
  apply lift_inv in Hroll as [_ ->].
  destruct (len r <=? skip_mins * 60 * samples_per_sec).
  { by apply mret_logged_inv in Hrun as [[= <- <-] ->]. }
  eapply (walk_result file (py_slice_to (fst <$> data) _)) in Hrun
    as (-> & Htrail & Htime).
  - split; [done|]. intros x Hx. destruct (Htime x Hx) as [Hfin Hin].
    split; [done|]. by eapply py_slice_to_subseteq.
  - intros i st st' stop ti. apply dynamic_step_records.
  - apply walking_start.
Qed.

Lemma fixed_scan_ret (file : string) (data : list (float * float))
    (duration : float) (loudness_threshold : float) (window_size : Z)
    (confirm_seconds : list Z) (analysis_minutes : Z) (t : list log_line)
    (m : option skip_message) (trim : option float) :
  analyze_file_fixed_end file data duration loudness_threshold window_size
    confirm_seconds analysis_minutes = Logged t (Ret (m, trim)) →
  let a := analysis_start_of duration analysis_minutes in
  match m with
  | Some _ => trim = None ∧ t = []
  | None => scan_trail file trim t
            ∧ ∀ x, trim = Some x →
                   is_finite x = true ∧ x ∈ fst <$> data ∧ (x <? a)%float = false
  end.
Proof.
  intros Hrun a. unfold analyze_file_fixed_end in Hrun. fold a in Hrun.
  rewrite split_lecture_start in Hrun.
  apply logged_bind_inv in Hrun as (t1 & h & t2 & Hhms & Hrun & ->).
  apply lift_inv in Hhms as [_ ->].
  destruct (end_part_of a data) as [|p tail] eqn:Htail.
  { by apply mret_logged_inv in Hrun as [[= <- <-] ->]. }
  destruct ((window_size <=? 0) || (len (snd <$> p :: tail) <=? window_size)).
  { by apply mret_logged_inv in Hrun as [[= <- <-] ->]. }
  apply logged_bind_inv in Hrun as (t3 & r & t4 & Hroll & Hrun & ->).
  apply lift_inv in Hroll as [_ ->].
  eapply (walk_result file (py_slice_to (fst <$> p :: tail) _) _ (λ st, st)) in Hrun
    as (-> & Htrail & Htime).
  - split; [done|]. intros x Hx. destruct (Htime x Hx) as [Hfin Hin].
    split; [done|]. apply py_slice_to_subseteq in Hin. rewrite <- Htail in Hin.
    apply list_elem_of_fmap in Hin as ([t0 m0] & -> & Hin).
    unfold end_part_of in Hin. apply list_elem_of_In, filter_In in Hin as [Hin Hnot].
    split; [|by apply negb_true_iff in Hnot].
    apply list_elem_of_fmap. exists (t0, m0). split; [done|]. by apply list_elem_of_In.
  - intros i st st' stop ti. apply fixed_step_records.
  - apply walking_start.
Qed.

(** X1.  When the dynamic scan returns, it returns a message or a result,
    never both.  With a message there is no trim time and nothing was
    logged.  Without one the trail is a [scan_trail]: one summary for every
    second of failures that was flushed and, with a trim time, the failures
    buffered for the second of the confirmed candidate, item by item, with
    that candidate last; and the trim time is finite and is the timestamp of
    one of the samples. *)
Theorem dynamic_scan_result (file : string) (data : list (float * float))
    (loudness_threshold : float) (window_size : Z) (confirm_seconds : list Z)
    (skip_mins : Z) (t : list log_line) (m : option skip_message)
    (trim : option float) :
  analyze_file_dynamic_scan file data loudness_threshold window_size confirm_seconds
    skip_mins = Logged t (Ret (m, trim)) →
  match m with
  | Some _ => trim = None ∧ t = []
  | None => scan_trail file trim t
            ∧ ∀ x, trim = Some x → is_finite x = true ∧ x ∈ fst <$> data
  end.
Proof. apply dynamic_scan_ret. Qed.

(** The theorem on [two_spikes]: the trim time 62.9 is finite and is a
    timestamp of the series. *)
Lemma dynamic_scan_result_witness :
  is_finite (decimal 629) = true ∧ decimal 629 ∈ fst <$> two_spikes.
Proof.
  assert (Hrun : analyze_file_dynamic_scan "lecture.m4a" two_spikes 12 5 [1; 2] 1
                 = Logged
                     (trail (analyze_file_dynamic_scan "lecture.m4a" two_spikes
                               12 5 [1; 2] 1))
                     (Ret (None, Some (decimal 629))))
    by (vm_compute; reflexivity).
  destruct (dynamic_scan_result _ _ _ _ _ _ _ _ _ Hrun) as [_ Htime].
  exact (Htime _ eq_refl).
Defined.

(** X2.  When the fixed-end scan returns, it returns a message or a
    result, never both, with the trail of [scan_trail]; a trim time is
    finite, is the timestamp of one of the samples, and is not before the
    analysis start. *)
Theorem fixed_scan_result (file : string) (data : list (float * float))
    (duration : float) (loudness_threshold : float) (window_size : Z)
    (confirm_seconds : list Z) (analysis_minutes : Z) (t : list log_line)
    (m : option skip_message) (trim : option float) :
  analyze_file_fixed_end file data duration loudness_threshold window_size
    confirm_seconds analysis_minutes = Logged t (Ret (m, trim)) →
  let a := analysis_start_of duration analysis_minutes in
  match m with
  | Some _ => trim = None ∧ t = []
  | None => scan_trail file trim t
            ∧ ∀ x, trim = Some x →
                   is_finite x = true ∧ x ∈ fst <$> data ∧ (x <? a)%float = false
  end.
Proof. apply fixed_scan_ret. Qed.

(** The theorem on [same_second_burst] (duration 61 s, one analysed
    minute): the trim time 1.2 is a timestamp of the series, at or after the
    analysis start 1.0. *)
Lemma fixed_scan_result_witness :
  is_finite (decimal 12) = true
  ∧ decimal 12 ∈ fst <$> same_second_burst
  ∧ (decimal 12 <? analysis_start_of 61 1)%float = false.
Proof.
  assert (Hrun : analyze_file_fixed_end "lecture.m4a" same_second_burst 61 12 1 [1] 1
                 = Logged
                     (trail (analyze_file_fixed_end "lecture.m4a" same_second_burst
                               61 12 1 [1] 1))
                     (Ret (None, Some (decimal 12))))
    by (vm_compute; reflexivity).
  destruct (fixed_scan_result _ _ _ _ _ _ _ _ _ _ Hrun) as [_ Htime].
  exact (Htime _ eq_refl).
Defined.

(** ** Scans that find nothing *)

Lemma dynamic_scan_none (file : string) (data : list (float * float))
    (loudness_threshold : float) (window_size : Z) (confirm_seconds : list Z)
    (skip_mins : Z) (r : list float) :
  0 < window_size < len data →
  rolling (snd <$> data) window_size (len data - window_size + 1) = Ret r →
  Forall (λ t, is_finite t = true) (fst <$> data) →
  Forall (λ offset, 0 ≤ offset) confirm_seconds →
  0 ≤ skip_mins * 60 * samples_per_sec < len r →
  (∀ j, skip_mins * 60 * samples_per_sec ≤ j < len r →
        (baseline_at r j =? neg_infinity)%float = false) →
  (∀ j, skip_mins * 60 * samples_per_sec ≤ j < len r →
        confirmed_at r loudness_threshold confirm_seconds (baseline_at r j) j = false) →
  ∃ t, analyze_file_dynamic_scan file data loudness_threshold window_size
         confirm_seconds skip_mins = Logged t (Ret (None, None))
       ∧ Forall (fail_summary file) t.
Proof.
  intros Hw Hroll Hfinite Hpos Hm Hbase Hnone.
  set (m := skip_mins * 60 * samples_per_sec) in *.
  rewrite <- (len_fmap snd data) in Hroll.
  assert (Hlen : len r = len data - window_size + 1).
  { rewrite <- (len_fmap snd data).
    apply rolling_len; [by rewrite len_fmap|exact Hroll]. }
  set (times := py_slice_to (fst <$> data) (len r)).
  assert (Htimes : times = take (Z.to_nat (len r)) (fst <$> data)).
  { subst times. apply py_slice_to_take. lia. }
  assert (Htlen : length times = length r).
  { rewrite Htimes, length_take, length_fmap. unfold len in *. lia. }
  assert (Htfin : Forall (λ t, is_finite t = true) times).
  { rewrite Htimes. by apply Forall_take. }
  destruct (dynamic_walk_total file r times loudness_threshold confirm_seconds
              Hpos Htfin Htlen (Z.to_nat (len r - m)) m (dynamic_start r m))
    as (t & st1 & Hwalk & Hbuf1 & Htrim1 & _).
  { lia. } { lia. }
  { unfold dynamic_start. simpl.
    destruct (Z.ltb_spec 0 m) as [Hmpos|Hmzero].
    - by rewrite py_slice_to_take by lia.
    - by replace m with 0 by lia. }
  { done. } { constructor. }
  { intros j Hj. split; [apply Hbase|apply Hnone]; lia. }
  replace (m + Z.of_nat (Z.to_nat (len r - m))) with (len r) in Hwalk by lia.
  assert (Hrun : analyze_file_dynamic_scan file data loudness_threshold window_size
                   confirm_seconds skip_mins
                 = Logged (t ++ log_lines file (buffer (logs st1)) false)
                     (Ret (None, None))).
  { unfold analyze_file_dynamic_scan.
    destruct (Z.leb_spec window_size 0) as [?|_]; [lia|].
    destruct (Z.leb_spec (len data) window_size) as [?|_]; [lia|]. simpl orb. cbv iota.
    rewrite len_fmap.
    destruct (Z.leb_spec (len data - window_size + 1) 0) as [?|_]; [lia|].
    rewrite len_fmap in Hroll. rewrite Hroll, bind_lift_Ret.
    fold m. destruct (Z.leb_spec (len r) m) as [?|_]; [lia|].
    rewrite <- Hlen. fold times.
    rewrite (for_each_all _ _ _ _ _ Hwalk), bind_Logged_Ret.
    rewrite finish_none by done. by rewrite prepend_Logged. }
  eexists. split; [exact Hrun|].
  by destruct (dynamic_scan_ret _ _ _ _ _ _ _ _ _ Hrun) as [Htrail _].
Qed.

Lemma fixed_scan_none (file : string) (data : list (float * float))
    (duration : float) (loudness_threshold : float) (window_size : Z)
    (confirm_seconds : list Z) (analysis_minutes : Z) (r : list float) :
  let a := analysis_start_of duration analysis_minutes in
  is_finite a = true →
  0 < window_size < len (end_part_of a data) →
  rolling (snd <$> end_part_of a data) window_size
    (len (end_part_of a data) - window_size + 1) = Ret r →
  Forall (λ t, is_finite t = true) (fst <$> end_part_of a data) →
  Forall (λ offset, 0 ≤ offset) confirm_seconds →
  (∀ j, 0 ≤ j < len r →
        confirmed_at r loudness_threshold confirm_seconds (lecture_avg_at a data) j
        = false) →
  ∃ t, analyze_file_fixed_end file data duration loudness_threshold window_size
         confirm_seconds analysis_minutes = Logged t (Ret (None, None))
       ∧ Forall (fail_summary file) t.
Proof.
  intros a Ha Hw Hroll Hfinite Hpos Hnone.
  pose proof Hroll as Hroll'. rewrite <- (len_fmap snd) in Hroll'.
  assert (Hlen : len r = len (end_part_of a data) - window_size + 1).
  { rewrite <- (len_fmap snd (end_part_of a data)).
    apply rolling_len; [by rewrite len_fmap|exact Hroll']. }
  set (times := py_slice_to (fst <$> end_part_of a data) (len r)).
  assert (Htimes : times = take (Z.to_nat (len r)) (fst <$> end_part_of a data)).
  { subst times. apply py_slice_to_take. lia. }
  assert (Htlen : length times = length r).
  { rewrite Htimes, length_take, length_fmap. unfold len in *. lia. }
  assert (Htfin : Forall (λ t, is_finite t = true) times).
  { rewrite Htimes. by apply Forall_take. }
  destruct (fixed_walk_total file r times (lecture_avg_at a data) loudness_threshold
              confirm_seconds Hpos Htfin Htlen r [] [] buffer_start)
    as (t & st1 & Hwalk & Hbuf1 & Htrim1).
  { by rewrite app_nil_r. } { constructor. }
  { intros j Hj. apply Hnone. unfold len in *. simpl in Hj. lia. }
  assert (Hrun : analyze_file_fixed_end file data duration loudness_threshold
                   window_size confirm_seconds analysis_minutes
                 = Logged (t ++ log_lines file (buffer st1) false) (Ret (None, None))).
  { rewrite (fixed_scan_walk file data duration loudness_threshold window_size
               confirm_seconds analysis_minutes r Ha Hw Hroll).
    fold a. fold times. unfold py_enumerate.
    change 0 with (len ([] : list float)).
    rewrite (for_each_all _ _ _ _ _ Hwalk), bind_Logged_Ret.
    rewrite finish_none by done. by rewrite prepend_Logged. }
  eexists. split; [exact Hrun|].
  by destruct (fixed_scan_ret _ _ _ _ _ _ _ _ _ _ Hrun) as [Htrail _].
Qed.


Lemma quiet_minute_unconfirmed (j : Z) :
  600 ≤ j < 602 →
  (baseline_at (rolling_or_nil (snd <$> quiet 606) 5) j =? neg_infinity)%float = false
  ∧ confirmed_at (rolling_or_nil (snd <$> quiet 606) 5) 12 [1; 2]
      (baseline_at (rolling_or_nil (snd <$> quiet 606) 5) j) j = false.
Proof.
  intros Hj. assert (j = 600 ∨ j = 601) as [-> | ->] by lia;
    (split; vm_compute; reflexivity).
Qed.

Lemma quiet_minute_windows : len (rolling_or_nil (snd <$> quiet 606) 5) = 602.
Proof. vm_compute. reflexivity. Qed.



Lemma quiet_tail_unconfirmed (j : Z) :
  0 ≤ j < 14 →
  confirmed_at
    (rolling_or_nil (snd <$> end_part_of (analysis_start_of 61 1) (quiet 24)) 1)
    12 [1] (lecture_avg_at (analysis_start_of 61 1) (quiet 24)) j = false.
Proof.
  intros Hj.
  pose (P := λ j, confirmed_at
                    (rolling_or_nil
                       (snd <$> end_part_of (analysis_start_of 61 1) (quiet 24)) 1)
                    12 [1] (lecture_avg_at (analysis_start_of 61 1) (quiet 24)) j).
  assert (H : forallb (λ j, negb (P j)) (py_range 0 14) = true)
    by (vm_compute; reflexivity).
  apply (range_all_false P 0 14 H j). lia.
Qed.


(** ** Scans that return *)

(** A test on the indices of a range fails throughout, or holds at a first
    index. *)
Lemma first_true (P : Z → bool) (a : Z) (n : nat) :
  (∀ j, a ≤ j < a + Z.of_nat n → P j = false)
  ∨ ∃ i1, a ≤ i1 < a + Z.of_nat n ∧ P i1 = true ∧ ∀ j, a ≤ j < i1 → P j = false.
Proof.
  revert a. induction n as [|n IH]; intros a.
  - left. intros j Hj. lia.
  - destruct (P a) eqn:Ha.
    + right. exists a. split; [lia|]. split; [done|]. intros j Hj. lia.
    + destruct (IH (a + 1)) as [Hnone|(i1 & Hi1 & Htrue & Hbefore)].
      * left. intros j Hj. destruct (decide (j = a)) as [->|Hne]; [done|].
        apply Hnone. lia.
      * right. exists i1. split; [lia|]. split; [done|].
        intros j Hj. destruct (decide (j = a)) as [->|Hne]; [done|].
        apply Hbefore. lia.
Qed.

(** The rolling averages are computed without an exception. *)
Lemma rolling_returns (vals : list float) (w : Z) :
  0 < w < len vals → ∃ r, rolling vals w (len vals - w + 1) = Ret r.
Proof.
  intros Hw. unfold len in Hw.
  destruct (rolling_slide vals (Z.to_nat w)) as (avgs & Hrun & _); [lia|lia|].
  rewrite Z2Nat.id in Hrun by lia. by exists avgs.
Qed.

Lemma fixed_scan_total (file : string) (data : list (float * float))
    (duration : float) (loudness_threshold : float) (window_size : Z)
    (confirm_seconds : list Z) (analysis_minutes : Z) :
  is_finite (analysis_start_of duration analysis_minutes) = true →
  Forall (λ t, is_finite t = true) (fst <$> data) →
  Forall (λ offset, 0 ≤ offset) confirm_seconds →
  ∃ t res, analyze_file_fixed_end file data duration loudness_threshold window_size
             confirm_seconds analysis_minutes = Logged t (Ret res).
Proof.
  intros Ha Hfinite Hpos.
  set (a := analysis_start_of duration analysis_minutes) in *.
  assert (Htail : Forall (λ t, is_finite t = true) (fst <$> end_part_of a data)).
  { rewrite list.Forall_fmap in Hfinite |- *. unfold end_part_of.
    rewrite list.Forall_forall in Hfinite |- *. intros p Hp.
    apply Hfinite. apply list_elem_of_In in Hp. apply filter_In in Hp as [Hp _].
    by apply list_elem_of_In. }
  destruct (decide (0 < window_size < len (end_part_of a data))) as [Hw|Hw].
  2: { eexists _, _.
       apply (fixed_scan_invalid_window file data duration loudness_threshold
                window_size confirm_seconds analysis_minutes Ha). fold a. lia. }
  destruct (rolling_returns (snd <$> end_part_of a data) window_size) as [r Hroll].
  { by rewrite len_fmap. }
  rewrite len_fmap in Hroll.
  assert (Hlen : len r = len (end_part_of a data) - window_size + 1).
  { rewrite <- (len_fmap snd (end_part_of a data)).
    apply rolling_len; rewrite len_fmap; done. }
  destruct (first_true (λ j, confirmed_at r loudness_threshold confirm_seconds
                               (lecture_avg_at a data) j) 0 (length r))
    as [Hnone|(i1 & Hi1 & Hconf & Hbefore)].
  - assert (Hnone' : ∀ j, 0 ≤ j < len r →
              confirmed_at r loudness_threshold confirm_seconds
                (lecture_avg_at a data) j = false).
    { intros j Hj. apply Hnone. unfold len in Hj. lia. }
    destruct (fixed_scan_none file data duration loudness_threshold window_size
                confirm_seconds analysis_minutes r Ha Hw Hroll Htail Hpos Hnone')
      as (t & Hrun & _).
    by eexists _, _.
  - destruct (lookup_lt_is_Some_2 (fst <$> end_part_of a data) (Z.to_nat i1))
      as [t1 Ht1].
    { rewrite length_fmap. unfold len in *. lia. }
    assert (Hi1' : (Z.to_nat i1 < length r)%nat) by lia.
    assert (Hbefore' : ∀ j, 0 ≤ j < Z.of_nat (Z.to_nat i1) →
              confirmed_at r loudness_threshold confirm_seconds
                (lecture_avg_at a data) j = false).
    { intros j Hj. apply Hbefore. lia. }
    assert (Hconf' : confirmed_at r loudness_threshold confirm_seconds
                       (lecture_avg_at a data) (Z.of_nat (Z.to_nat i1)) = true).
    { by rewrite Z2Nat.id by lia. }
    destruct (fixed_scan_first_confirmed file data duration loudness_threshold
                window_size confirm_seconds analysis_minutes r (Z.to_nat i1) t1
                Ha Hw Hroll Htail Hpos Hi1' Hbefore' Hconf' Ht1)
      as [(t & Hrun) _].
    by eexists _, _.
Qed.





(** ** The fixed-end scan without a lecture part *)



(** ** Counting the confirm offsets that passed *)

Lemma len_app {A} (l k : list A) : len (l ++ k) = len l + len k.
Proof. unfold len. rewrite length_app. lia. Qed.

Lemma len_filter_app {A} (f : A → bool) (l k : list A) :
  len (List.filter f (l ++ k)) = len (List.filter f l) + len (List.filter f k).
Proof. by rewrite List.filter_app, len_app. Qed.

Lemma confirm_loop_counts_from (rolling_avgs : list float) (i : Z) (spike_avg : float)
    (confirm_seconds : list Z) (c0 c : confirmation) :
  confirm_loop rolling_avgs i spike_avg confirm_seconds c0 = Ret c →
  ∃ new,
    cf_results c = cf_results c0 ++ new
    ∧ cf_pass_count c = cf_pass_count c0 + len (List.filter passes new)
    ∧ ((cf_confirmed c = cf_confirmed c0 ∧ cf_status c = cf_status c0
        ∧ forallb passes new = true ∧ len new = len confirm_seconds)
       ∨ (cf_confirmed c = false ∧ cf_status c = Fail
          ∧ ∃ pre failure, new = pre ++ [failure] ∧ forallb passes pre = true
                           ∧ passes failure = false
                           ∧ len pre < len confirm_seconds)).
Proof.
  revert c0. induction confirm_seconds as [|offset offsets IH]; intros c0 Hrun.
  - injection Hrun as <-. exists []. rewrite app_nil_r. unfold len. simpl.
    split_and!; [done|lia|]. by left.
  - cbn [confirm_loop] in Hrun.
    assert (Hlen : len (offset :: offsets) = len offsets + 1).
    { unfold len. simpl length. lia. }
    destruct (len rolling_avgs <=? confirm_index i offset).
    { injection Hrun as <-. exists [OutOfRange offset]. simpl.
      split_and!; [done|unfold len; simpl; lia|]. right.
      split_and!; [done..|]. exists [], (OutOfRange offset).
      pose proof (len_nonneg offsets). unfold len at 1. simpl. split_and!; [done..|lia]. }
    apply outcome_bind_inv in Hrun as (confirm_avg & _ & Hrun).
    destruct (confirm_avg <? spike_avg)%float.
    { injection Hrun as <-. exists [Below offset confirm_avg spike_avg]. simpl.
      split_and!; [done|unfold len; simpl; lia|]. right.
      split_and!; [done..|]. exists [], (Below offset confirm_avg spike_avg).
      pose proof (len_nonneg offsets). unfold len at 1. simpl. split_and!; [done..|lia]. }
    apply IH in Hrun as (new & Hres & Hcount & Hcases). simpl in Hres, Hcount, Hcases.
    exists (Sustained offset confirm_avg :: new). split_and!.
    + by rewrite Hres, <- app_assoc.
    + rewrite Hcount. simpl. unfold len. simpl length. lia.
    + destruct Hcases as [(Hc & Hs & Hall & Hn)|(Hc & Hs & pre & f & -> & Hpre & Hf & Hn)].
      * left. split_and!; [done..|]. unfold len in *. simpl length. lia.
      * right. split_and!; [done..|].
        exists (Sustained offset confirm_avg :: pre), f.
        split_and!; [done..|]. unfold len in *. simpl length. lia.
Qed.

Lemma filter_all {A} (f : A → bool) (l : list A) :
  forallb f l = true → List.filter f l = l.
Proof.
  induction l as [|x l IH]; [done|]. simpl. intros Hall.
  apply andb_prop in Hall as [-> Hall]. by rewrite IH.
Qed.

(** X8.  When the confirmation loop returns, whatever the offsets,
    [pass_count] is the number of entries of [confirm_results] that passed.
    A confirmed candidate has status [Pass], one passing entry per offset
    and [pass_count = len(confirm_seconds)]; an unconfirmed one has status
    [Fail], fewer passes than offsets, and its entries are passes followed by
    exactly one failure. *)
Theorem confirm_loop_counts (rolling_avgs : list float) (i : Z) (spike_avg : float)
    (confirm_seconds : list Z) (c : confirmation) :
  confirm_loop rolling_avgs i spike_avg confirm_seconds confirm_start = Ret c →
  cf_pass_count c = len (List.filter passes (cf_results c))
  ∧ if cf_confirmed c
    then cf_status c = Pass
         ∧ forallb passes (cf_results c) = true
         ∧ cf_pass_count c = len confirm_seconds
    else cf_status c = Fail
         ∧ cf_pass_count c < len confirm_seconds
         ∧ ∃ pre failure, cf_results c = pre ++ [failure]
                          ∧ forallb passes pre = true
                          ∧ passes failure = false.
Proof.
  intros Hrun. apply confirm_loop_counts_from in Hrun as (new & Hres & Hcount & Hcases).
  simpl in Hres, Hcount, Hcases. subst new. split; [lia|].
  destruct Hcases as [(-> & -> & Hall & Hn)|(-> & -> & pre & f & Hnew & Hpre & Hf & Hn)].
  - split_and!; [done..|]. rewrite Hcount, filter_all by done. lia.
  - split_and!; [done| |by exists pre, f].
    rewrite Hcount, Hnew, len_filter_app, filter_all by done. simpl. rewrite Hf.
    unfold len at 2. simpl. lia.
Qed.

(** The theorem on fifteen equal averages, index 0 and offsets 1 and 2:
    the first offset passes and the second is out of range. *)
Lemma confirm_loop_counts_witness :
  ∃ c, confirm_loop (replicate 15 1%float) 0 1%float [1; 2] confirm_start = Ret c
       ∧ cf_confirmed c = false
       ∧ cf_pass_count c = 1.
Proof.
  assert (Hrun : confirm_loop (replicate 15 1%float) 0 1%float [1; 2] confirm_start
                 = Ret {| cf_results := [Sustained 1 1%float; OutOfRange 2];
                          cf_confirmed := false; cf_status := Fail;
                          cf_pass_count := 1 |})
    by (vm_compute; reflexivity).
  destruct (confirm_loop_counts _ _ _ _ _ Hrun) as [Hcount _].
  eexists. split; [exact Hrun|]. split; [reflexivity|exact Hcount].
Defined.

(** ** The entry point *)

Lemma seconds_to_hms_ret (x : float) (h : hms_text) :
  seconds_to_hms x = Ret h → is_finite x = true.
Proof. unfold seconds_to_hms. by destruct (is_finite x). Qed.

Lemma seconds_to_hms_raise (x : float) (e : exn) :
  seconds_to_hms x = Raise e → is_finite x = false ∧ e = ValueError.
Proof. unfold seconds_to_hms. destruct (is_finite x); [done|]. by intros [= <-]. Qed.

Lemma scan_for_ret (file : string) (a : args) (data : list (float * float))
    (duration : float) (t : list log_line) (m : option skip_message)
    (trim : option float) :
  scan_for file a data duration = Logged t (Ret (m, trim)) →
  match m with
  | Some _ => trim = None ∧ t = []
  | None => scan_trail file trim t
            ∧ ∀ x, trim = Some x → is_finite x = true ∧ x ∈ fst <$> data
  end.
Proof.
  unfold scan_for. intros Hrun.
  destruct (float_lt_int duration (short_file_thresh_mins a * 60));
    [by eapply dynamic_scan_ret|].
  destruct (float_lt_int duration (med_file_thresh_mins a * 60));
    [by eapply dynamic_scan_ret|].
  apply fixed_scan_ret in Hrun. destruct m; [done|].
  destruct Hrun as [Htrail Htime]. split; [done|].
  intros x Hx. destruct (Htime x Hx) as (? & ? & _). done.
Qed.

Section analyze_file_properties.
Variable get_duration : string → c_io.error + float.
Variable get_loudness_data : string → c_io.error + list (float * float).

Abbreviation analyze := (analyze_file get_duration get_loudness_data).

Lemma analyze_file_ret (file : string) (a : args) (t : list log_line)
    (msg : option analysis_message) (trim : option float) (d : number) :
  analyze file a = Logged t (Ret (msg, trim, d)) →
  match d with
  | PyInt z =>
      z = 0 ∧ trim = None ∧ t = []
      ∧ ((∃ e, msg = Some (ErrorGettingDuration e)
               ∧ match e with
                 | Extraction e => get_duration file = inl e
                 | Rendering e =>
                     ∃ duration, get_duration file = inr duration
                                 ∧ is_finite duration = false
                 end)
         ∨ ∃ e, msg = Some (ErrorGettingLoudness e) ∧ get_loudness_data file = inl e)
  | PyFloat duration =>
      get_duration file = inr duration ∧ is_finite duration = true
      ∧ ∃ data, get_loudness_data file = inr data
                ∧ match msg with
                  | Some (NoLoudnessData _) => data = [] ∧ trim = None ∧ t = []
                  | Some (ScanMessage _) => data ≠ [] ∧ trim = None ∧ t = []
                  | Some _ => False
                  | None =>
                      data ≠ [] ∧ scan_trail file trim t
                      ∧ ∀ x, trim = Some x → is_finite x = true ∧ x ∈ fst <$> data
                  end
  end.
Proof.
  unfold analyze_file. intros Hrun.
  destruct (get_duration file) as [e|duration] eqn:Hduration.
  { apply mret_logged_inv in Hrun as [[= <- <- <-] ->].
    split_and!; [done..|]. left. by eexists. }
  destruct (seconds_to_hms duration) as [h|e] eqn:Hhms.
  - apply seconds_to_hms_ret in Hhms.
    destruct (get_loudness_data file) as [e|data] eqn:Hdata.
    { apply mret_logged_inv in Hrun as [[= <- <- <-] ->].
      split_and!; [done..|]. right. by eexists. }
    destruct data as [|p data].
    { apply mret_logged_inv in Hrun as [[= <- <- <-] ->].
      split_and!; [done..|]. by eexists. }
    apply logged_bind_inv in Hrun as (t1 & [m trim'] & t2 & Hscan & Hrun & ->).
    apply mret_logged_inv in Hrun as [[= <- <- <-] ->]. rewrite app_nil_r.
    split_and!; [done..|]. exists (p :: data). split; [done|].
    apply scan_for_ret in Hscan. destruct m as [m|]; simpl.
    + destruct Hscan as [-> ->]. done.
    + destruct Hscan as [Htrail Htime]. done.
  - apply seconds_to_hms_raise in Hhms as [Hnot ->]. simpl in Hrun.
    apply mret_logged_inv in Hrun as [[= <- <- <-] ->].
    split_and!; [done..|]. left. eexists. split; [done|]. by eexists.
Qed.
End analyze_file_properties.

(** X9.  [analyze_file] never returns a message together with a trim
    time (main.py 65 relies on it): with a trim time the message is [None],
    the trim time is finite and is a timestamp of the loudness data, the
    third component is the duration that [get_duration] gave, and the trail
    is a [scan_trail]. *)
Theorem analyze_file_in_sync (get_duration : string → c_io.error + float)
    (get_loudness_data : string → c_io.error + list (float * float))
    (file : string) (a : args) (t : list log_line)
    (msg : option analysis_message) (x : float) (d : number) :
  analyze_file get_duration get_loudness_data file a = Logged t (Ret (msg, Some x, d)) →
  msg = None
  ∧ is_finite x = true
  ∧ scan_trail file (Some x) t
  ∧ ∃ duration data,
      d = PyFloat duration
      ∧ get_duration file = inr duration
      ∧ get_loudness_data file = inr data
      ∧ x ∈ fst <$> data.
Proof.
  intros Hrun. apply analyze_file_ret in Hrun.
  destruct d as [z|duration]; [destruct Hrun as (_ & Hnone & _); discriminate Hnone|].
  destruct Hrun as (Hduration & _ & data & Hdata & Hmsg).
  destruct msg as [[| | |]|]; try done; try by destruct Hmsg as (_ & ? & _).
  destruct Hmsg as (_ & Htrail & Htime). destruct (Htime x eq_refl) as [Hfinite Hin].
  split_and!; [done..|]. by exists duration, data.
Qed.

Lemma late_burst_analysis :
  analyze_file (λ _, inr 121%float) (λ _, inr late_burst) "lecture.m4a" (demo_args 1)
  = Logged
      (trail (analyze_file (λ _, inr 121%float) (λ _, inr late_burst) "lecture.m4a"
                (demo_args 1)))
      (Ret (None, Some (decimal 17), PyFloat 121)).
Proof. vm_compute. reflexivity. Qed.

(** The theorem on [late_burst] read as the last four seconds of a
    file of 121 s: the long tier confirms at 1.7 s. *)
Lemma analyze_file_in_sync_witness :
  is_finite (decimal 17) = true ∧ decimal 17 ∈ fst <$> late_burst.
Proof.
  destruct (analyze_file_in_sync _ _ _ _ _ _ _ _ late_burst_analysis)
    as (_ & Hfinite & _ & duration & data & _ & _ & [= <-] & Hin).
  split; [exact Hfinite|exact Hin].
Defined.

(** X10.  The third component of what [analyze_file] returns is the int
    [0] only after an extraction error, with no trim time and nothing
    logged; otherwise it is the duration that [get_duration] gave, which
    [seconds_to_hms] renders without raising (main.py 57 renders it). *)
Theorem analyze_file_duration (get_duration : string → c_io.error + float)
    (get_loudness_data : string → c_io.error + list (float * float))
    (file : string) (a : args) (t : list log_line)
    (msg : option analysis_message) (trim : option float) (d : number) :
  analyze_file get_duration get_loudness_data file a = Logged t (Ret (msg, trim, d)) →
  match d with
  | PyInt z =>
      z = 0 ∧ trim = None ∧ t = []
      ∧ ((∃ e, msg = Some (ErrorGettingDuration e))
         ∨ (∃ e, msg = Some (ErrorGettingLoudness e)))
  | PyFloat duration =>
      get_duration file = inr duration
      ∧ seconds_to_hms duration = Ret (HMS duration)
  end.
Proof.
  intros Hrun. apply analyze_file_ret in Hrun. destruct d as [z|duration].
  - destruct Hrun as (-> & -> & -> & [(e & -> & _)|(e & -> & _)]);
      (split_and!; [done..|]); [left|right]; by eexists.
  - destruct Hrun as (Hduration & Hfinite & data & _ & Hmsg).
    split; [done|by apply seconds_to_hms_finite].
Qed.

(** The theorem on the same run: the duration 121 is rendered. *)
Lemma analyze_file_duration_witness : seconds_to_hms 121 = Ret (HMS 121).
Proof.
  destruct (analyze_file_duration _ _ _ _ _ _ _ _ late_burst_analysis) as [_ Hhms].
  exact Hhms.
Defined.

(** X11.  An exception of [get_duration] is returned as the message
    [Error getting duration] with no trim time and the int [0]; so is a
    duration that is not finite, since rendering it inside the [try] raises
    the [ValueError] that the [except] clause catches.  The loudness data is
    not consulted and no scan runs. *)
Theorem analyze_file_duration_error (get_duration : string → c_io.error + float)
    (get_loudness_data : string → c_io.error + list (float * float))
    (file : string) (a : args) :
  (∀ e, get_duration file = inl e →
        analyze_file get_duration get_loudness_data file a
        = Logged [] (Ret (Some (ErrorGettingDuration (Extraction e)), None, PyInt 0)))
  ∧ (∀ duration, get_duration file = inr duration → is_finite duration = false →
        analyze_file get_duration get_loudness_data file a
        = Logged [] (Ret (Some (ErrorGettingDuration (Rendering ValueError)), None,
                          PyInt 0))).
Proof.
  unfold analyze_file. split.
  - by intros e ->.
  - intros duration -> Hnot. unfold seconds_to_hms. by rewrite Hnot.
Qed.

(** The theorem on an infinite duration. *)
Lemma analyze_file_duration_error_witness :
  analyze_file (λ _, inr infinity) (λ _, inr late_burst) "lecture.m4a" (demo_args 1)
  = Logged [] (Ret (Some (ErrorGettingDuration (Rendering ValueError)), None, PyInt 0)).
Proof.
  apply (proj2 (analyze_file_duration_error (λ _, inr infinity) (λ _, inr late_burst)
                  "lecture.m4a" (demo_args 1)) infinity); reflexivity.
Defined.

(** X12.  [analyze_file] raises exactly when both extractions succeed
    with a finite duration and loudness data that is not empty, and the scan
    chosen for the duration raises: nothing around the scans catches their
    exceptions, and extraction errors never escape. *)
Theorem analyze_file_raises_from_scan (get_duration : string → c_io.error + float)
    (get_loudness_data : string → c_io.error + list (float * float))
    (file : string) (a : args) (t : list log_line) (e : exn) :
  analyze_file get_duration get_loudness_data file a = Logged t (Raise e) ↔
  ∃ duration data,
    get_duration file = inr duration
    ∧ is_finite duration = true
    ∧ get_loudness_data file = inr data
    ∧ data ≠ []
    ∧ scan_for file a data duration = Logged t (Raise e).
Proof.
  split.
  - unfold analyze_file. intros Hrun.
    destruct (get_duration file) as [e1|duration]; [done|].
    destruct (seconds_to_hms duration) as [h|e1] eqn:Hhms.
    + apply seconds_to_hms_ret in Hhms.
      destruct (get_loudness_data file) as [e1|data]; [done|].
      destruct data as [|p data]; [done|].
      exists duration, (p :: data). split_and!; [done..|].
      destruct (scan_for file a (p :: data) duration) as [t1 [[m trim]|e1]].
      * rewrite bind_Logged_Ret, prepend_mret in Hrun. done.
      * rewrite bind_Logged_Raise in Hrun. by injection Hrun as -> ->.
    + apply seconds_to_hms_raise in Hhms as [_ ->]. done.
  - intros (duration & data & Hduration & Hfinite & Hdata & Hne & Hscan).
    unfold analyze_file. rewrite Hduration, seconds_to_hms_finite, Hdata by done.
    destruct data as [|p data]; [done|]. by rewrite Hscan.
Qed.

(** The theorem on example 1 as a file of 10 s with nothing skipped:
    the [ValueError] of the dynamic scan escapes. *)
Lemma analyze_file_raises_from_scan_witness :
  ∃ duration data,
    is_finite duration = true
    ∧ scan_for "lecture.m4a" (demo_args 0) data duration = Logged [] (Raise ValueError).
Proof.
  destruct (proj1 (analyze_file_raises_from_scan (λ _, inr 10%float) (λ _, inr example1)
                     "lecture.m4a" (demo_args 0) [] ValueError))
    as (duration & data & _ & Hfinite & _ & _ & Hscan).
  - vm_compute. reflexivity.
  - by exists duration, data.
Defined.



(** ** The validator of the confirm offsets *)

Lemma existsb_false_Forall {A} (f : A → bool) (l : list A) :
  existsb f l = false ↔ Forall (λ x, f x = false) l.
Proof.
  induction l as [|x l IH]; simpl.
  - split; [by constructor|done].
  - rewrite orb_false_iff, IH. split.
    + intros [Hx Hl]. by constructor.
    + intros Hxl. split; [exact (Forall_inv Hxl)|exact (Forall_inv_tail Hxl)].
Qed.

Lemma distinct_le (numbers : list Z) : (distinct numbers ≤ length numbers)%nat.
Proof.
  unfold distinct. induction numbers as [|n numbers IH]; simpl; [lia|].
  destruct (decide_rel _ _ _); simpl; lia.
Qed.

(** As many distinct numbers as numbers: none occurs twice. *)
Lemma distinct_NoDup (numbers : list Z) :
  length numbers = distinct numbers ↔ NoDup numbers.
Proof.
  unfold distinct. induction numbers as [|n numbers IH]; simpl.
  - split; [constructor|done].
  - pose proof (distinct_le numbers) as Hle. unfold distinct in Hle.
    destruct (decide_rel _ _ _) as [Hin|Hnot]; simpl.
    + split; [lia|]. intros Hnodup. by apply NoDup_cons_1_1 in Hnodup.
    + rewrite list.NoDup_cons. split.
      * intros [= Hlen]. split; [done|]. by apply IH.
      * intros [_ Hnodup]. f_equal. by apply IH.
Qed.

(** A list is its own sorting exactly when it is sorted. *)
Lemma merge_sort_fixed (numbers : list Z) :
  sorting.merge_sort Z.le numbers = numbers ↔ Sorted Z.le numbers.
Proof.
  split.
  - intros <-. apply sorting.Sorted_merge_sort. apply _.
  - intros Hsorted. apply (sorting.Sorted_unique_strong Z.le).
    + intros x y _ _ Hxy Hyx. lia.
    + apply sorting.Sorted_merge_sort. apply _.
    + done.
    + apply sorting.merge_sort_Permutation.
Qed.

(** Sorted without a repetition is strictly increasing. *)
Lemma sorted_NoDup_increasing (numbers : list Z) :
  Sorted Z.le numbers → NoDup numbers → StronglySorted Z.lt numbers.
Proof.
  intros Hsorted Hnodup. apply sorting.Sorted_StronglySorted in Hsorted; [|apply _].
  induction Hsorted as [|n numbers Hrest IH Hn]; [constructor|].
  apply list.NoDup_cons in Hnodup as [Hnot Hnodup].
  constructor; [by apply IH|].
  rewrite list.Forall_forall in Hn |- *. intros m Hm. specialize (Hn m Hm).
  assert (n ≠ m); [|lia]. by intros ->.
Qed.

Lemma increasing_sorted_NoDup (numbers : list Z) :
  StronglySorted Z.lt numbers → Sorted Z.le numbers ∧ NoDup numbers.
Proof.
  induction 1 as [|n numbers Hrest [IHsorted IHnodup] Hn].
  - split; constructor.
  - split.
    + apply StronglySorted_Sorted. constructor.
      * apply sorting.Sorted_StronglySorted; [apply _|done].
      * eapply list.Forall_impl; [exact Hn|]. simpl. lia.
    + apply list.NoDup_cons. split; [|done]. intros Hin.
      rewrite list.Forall_forall in Hn. apply Hn in Hin. lia.
Qed.

Section validate_confirm_sec_properties.
Variable split_commas : string → list string.
Variable strip : string → string.
Variable int_of_str : string → option Z.

Abbreviation validate := (validate_confirm_sec split_commas strip int_of_str).

Lemma validate_confirm_sec_spec (value : string) (numbers : list Z) :
  validate value = inr numbers ↔
  strip <$> split_commas value ≠ []
  ∧ Forall (λ v, v ≠ EmptyString) (strip <$> split_commas value)
  ∧ mapM int_of_str (strip <$> split_commas value) = Some numbers
  ∧ Forall (λ n, 1 ≤ n) numbers
  ∧ StronglySorted Z.lt numbers.
Proof.
  unfold validate_confirm_sec. cbv zeta.
  set (parts := strip <$> split_commas value).
  destruct (bool_decide (parts = []) || existsb _ parts) eqn:Hformat.
  { split; [done|]. intros (Hne & Hparts & _).
    apply orb_true_iff in Hformat as [Hnil|Hempty].
    - by apply bool_decide_eq_true in Hnil.
    - apply existsb_exists in Hempty as (v & Hv & Hempty).
      apply bool_decide_eq_true in Hempty. rewrite Forall_forall in Hparts.
      by destruct (Hparts v Hv). }
  apply orb_false_iff in Hformat as [Hne Hparts].
  apply bool_decide_eq_false in Hne.
  assert (Hfilled : Forall (λ v, v ≠ EmptyString) parts).
  { apply existsb_false_Forall in Hparts.
    eapply list.Forall_impl; [exact Hparts|]. simpl. intros v Hv.
    by apply bool_decide_eq_false in Hv. }
  destruct (mapM int_of_str parts) as [ns|] eqn:Hints;
    [|split; [done|by intros (_ & _ & ? & _)]].
  destruct (existsb (λ n, n <? 1) ns) eqn:Hpos.
  { split; [done|]. intros (_ & _ & [= <-] & Hge & _).
    apply existsb_exists in Hpos as (n & Hn & Hlt).
    rewrite Forall_forall in Hge. specialize (Hge n Hn). lia. }
  assert (Hge : Forall (λ n, 1 ≤ n) ns).
  { apply existsb_false_Forall in Hpos.
    eapply list.Forall_impl; [exact Hpos|]. simpl. intros n Hn. lia. }
  destruct (bool_decide (sorting.merge_sort Z.le ns = ns)) eqn:Hsorted; simpl.
  - apply bool_decide_eq_true, merge_sort_fixed in Hsorted.
    destruct (length ns =? distinct ns)%nat eqn:Hdistinct; simpl.
    + apply Nat.eqb_eq, distinct_NoDup in Hdistinct. split.
      * intros [= <-]. split_and!; [done..|]. by apply sorted_NoDup_increasing.
      * by intros (_ & _ & [= <-] & _).
    + split; [done|]. intros (_ & _ & [= <-] & _ & Hinc).
      apply increasing_sorted_NoDup in Hinc as [_ Hnodup].
      apply distinct_NoDup, Nat.eqb_eq in Hnodup. congruence.
  - split; [done|]. intros (_ & _ & [= <-] & _ & Hinc).
    apply increasing_sorted_NoDup in Hinc as [Hs _].
    apply merge_sort_fixed in Hs. apply bool_decide_eq_false in Hsorted. done.
Qed.
End validate_confirm_sec_properties.

(** X14.  [validate_confirm_sec] accepts a value exactly when its
    comma-separated parts, stripped, are not empty strings, all read as ints
    that are at least 1, and the ints are strictly increasing; it then
    returns those ints in order. *)
Theorem validate_confirm_sec_accepts (split_commas : string → list string)
    (strip : string → string) (int_of_str : string → option Z)
    (value : string) (numbers : list Z) :
  validate_confirm_sec split_commas strip int_of_str value = inr numbers ↔
  strip <$> split_commas value ≠ []
  ∧ Forall (λ v, v ≠ EmptyString) (strip <$> split_commas value)
  ∧ mapM int_of_str (strip <$> split_commas value) = Some numbers
  ∧ Forall (λ n, 1 ≤ n) numbers
  ∧ StronglySorted Z.lt numbers.
Proof. apply validate_confirm_sec_spec. Qed.



(** ** The trim point handed to ffmpeg *)

Lemma ltb_leb (x y : float) : (x <? y)%float = true → (x <=? y)%float = true.
Proof.
  rewrite FloatAxioms.ltb_spec, FloatAxioms.leb_spec. unfold SFltb, SFleb.
  by destruct (SFcompare (Prim2SF x) (Prim2SF y)) as [[| |]|].
Qed.

Lemma leb_refl_positive (x : float) : (0 <? x)%float = true → (x <=? x)%float = true.
Proof.
  rewrite FloatAxioms.ltb_spec, FloatAxioms.leb_spec. unfold SFltb, SFleb.
  destruct (Prim2SF x) as [s|s| |s m e] eqn:Hx; try done.
  - by destruct s.
  - intros _. by rewrite SFcompare_refl_finite.
Qed.

(** X16.  The adjusted trim time is the int [0], or a float that is
    above 0, at most the duration, and is the duration or the detected time
    plus the offset. *)
Theorem adjusted_trim_time_within (duration detect_time : float) (trim_offset : Z) :
  match adjusted_trim_time duration detect_time trim_offset with
  | PyInt z => z = 0
  | PyFloat x =>
      (0 <? x)%float = true ∧ (x <=? duration)%float = true
      ∧ (x = duration ∨ x = (detect_time + float_of_int trim_offset)%float)
  end.
Proof.
  unfold adjusted_trim_time. cbv zeta.
  destruct (detect_time + float_of_int trim_offset <? duration)%float eqn:Hcap.
  - destruct (0 <? detect_time + float_of_int trim_offset)%float eqn:Hpos; [|done].
    split_and!; [done|by apply ltb_leb|by right].
  - destruct (0 <? duration)%float eqn:Hpos; [|done].
    split_and!; [done|by apply leb_refl_positive|by left].
Qed.

(** ** An output path that exists already *)

Section rename_loop.
Variable path_exists : string → bool.
Variable str_of_int : Z → string.

Abbreviation numbered := (numbered_path str_of_int).
Abbreviation loop := (rename_loop path_exists str_of_int).

(** The loop stops at the first number whose path is free. *)
Lemma rename_loop_first_free (base ext : string) (n : Z) (fuel : nat) (i : Z) :
  i ≤ n → n - i < Z.of_nat fuel →
  (∀ k, i ≤ k < n → path_exists (numbered base ext k) = true) →
  path_exists (numbered base ext n) = false →
  loop fuel base ext i = Some (numbered base ext n).
Proof.
  revert i. induction fuel as [|fuel IH]; intros i Hi Hfuel Htaken Hfree; [lia|].
  cbn [rename_loop]. cbv zeta.
  destruct (decide (i = n)) as [->|Hne]; [by rewrite Hfree|].
  rewrite Htaken by lia. apply IH; [lia|lia| |done].
  intros k Hk. apply Htaken. lia.
Qed.

(** What the loop returns is free, and every number before it is taken. *)
Lemma rename_loop_ret (base ext : string) (fuel : nat) (i : Z) (p : string) :
  loop fuel base ext i = Some p →
  ∃ n, i ≤ n ∧ p = numbered base ext n ∧ path_exists p = false
       ∧ ∀ k, i ≤ k < n → path_exists (numbered base ext k) = true.
Proof.
  revert i. induction fuel as [|fuel IH]; intros i; [done|].
  cbn [rename_loop]. cbv zeta.
  destruct (path_exists (numbered base ext i)) eqn:Hi.
  - intros Hrun. apply IH in Hrun as (n & Hn & -> & Hfree & Htaken).
    exists n. split_and!; [lia|done|done|].
    intros k Hk. destruct (decide (k = i)) as [->|Hne]; [done|]. apply Htaken. lia.
  - intros [= <-]. exists i. split_and!; [lia|done|done|]. intros k Hk. lia.
Qed.
End rename_loop.

(** X17.  When the output path exists and the strategy is [rename], the
    result is the first path [base_n.ext], counting from 1, that does not
    exist: the loop stops there and returns it. *)
Theorem rename_returns_first_free (path_exists : string → bool)
    (splitext : string → string * string) (str_of_int : Z → string)
    (fuel : nat) (output_path base ext : string) (n : Z) :
  path_exists output_path = true →
  splitext output_path = (base, ext) →
  1 ≤ n < 1 + Z.of_nat fuel →
  (∀ k, 1 ≤ k < n → path_exists (numbered_path str_of_int base ext k) = true) →
  path_exists (numbered_path str_of_int base ext n) = false →
  resolve_output_path path_exists splitext str_of_int fuel output_path "rename"
  = Some (Ret (Some (numbered_path str_of_int base ext n))).
Proof.
  intros Hexists Hsplit Hn Htaken Hfree. unfold resolve_output_path.
  rewrite Hexists, Hsplit. simpl.
  by rewrite (rename_loop_first_free path_exists str_of_int base ext n fuel 1)
    by (done || lia).
Qed.

(** The theorem in a directory where [talk.m4a] and [talk_1.m4a] exist:
    the result is [talk_2.m4a]. *)
Lemma rename_returns_first_free_witness :
  resolve_output_path taken (λ _, ("trimmed/talk", ".m4a")) pretty.pretty 5
    "trimmed/talk.m4a" "rename"
  = Some (Ret (Some "trimmed/talk_2.m4a")).
Proof.
  refine (eq_trans
            (rename_returns_first_free taken (λ _, ("trimmed/talk", ".m4a"))
               pretty.pretty 5 "trimmed/talk.m4a" "trimmed/talk" ".m4a" 2 _ _ _ _ _) _).
  - reflexivity.
  - reflexivity.
  - lia.
  - intros k Hk. assert (k = 1) as -> by lia. vm_compute. reflexivity.
  - vm_compute. reflexivity.
  - vm_compute. reflexivity.
Defined.

(** X18.  [resolve_output_path] returns a path that exists only under the
    [overwrite] strategy; the path is the output path itself or one of its
    numbered renamings.  It returns [None] only under [fail], and raises,
    [ValueError], only for an unknown strategy; both only when the output
    path exists: an unknown strategy goes unnoticed without a conflict. *)
Theorem resolved_path_is_free (path_exists : string → bool)
    (splitext : string → string * string) (str_of_int : Z → string)
    (fuel : nat) (output_path resolution_strategy : string)
    (r : outcome (option string)) :
  resolve_output_path path_exists splitext str_of_int fuel output_path
    resolution_strategy = Some r →
  match r with
  | Ret (Some p) =>
      (path_exists p = false ∨ resolution_strategy = "overwrite")
      ∧ (p = output_path
         ∨ ∃ n, 1 ≤ n
                ∧ p = numbered_path str_of_int (splitext output_path).1
                        (splitext output_path).2 n)
  | Ret None => resolution_strategy = "fail" ∧ path_exists output_path = true
  | Raise e =>
      e = ValueError ∧ path_exists output_path = true
      ∧ resolution_strategy ∉ ["overwrite"; "fail"; "rename"]
  end.
Proof.
  unfold resolve_output_path.
  destruct (path_exists output_path) eqn:Hexists; simpl.
  - destruct (bool_decide_reflect (resolution_strategy = "overwrite")) as [->|Hover].
    { intros [= <-]. split; [by right|by left]. }
    destruct (bool_decide_reflect (resolution_strategy = "fail")) as [->|Hfail].
    { by intros [= <-]. }
    destruct (bool_decide_reflect (resolution_strategy = "rename")) as [->|Hrename].
    + destruct (splitext output_path) as [base ext]. simpl.
      destruct (rename_loop path_exists str_of_int fuel base ext 1) as [p|] eqn:Hloop;
        [|done].
      intros [= <-]. apply rename_loop_ret in Hloop as (n & Hn & -> & Hfree & _).
      split; [by left|]. right. by exists n.
    + intros [= <-]. split_and!; [done..|].
      rewrite !elem_of_cons, elem_of_nil. tauto.
  - intros [= <-]. split; [by left|by left].
Qed.

(** The theorem in the same directory: the path returned under [rename]
    does not exist. *)
Lemma resolved_path_is_free_witness : taken "trimmed/talk_2.m4a" = false.
Proof.
  assert (Hrun : resolve_output_path taken (λ _, ("trimmed/talk", ".m4a"))
                   pretty.pretty 5 "trimmed/talk.m4a" "rename"
                 = Some (Ret (Some "trimmed/talk_2.m4a"))) by (vm_compute; reflexivity).
  destruct (resolved_path_is_free _ _ _ _ _ _ _ Hrun) as [[Hfree|Hover] _].
  - exact Hfree.
  - discriminate Hover.
Defined.

(** ** Ellipses in the segments of a path *)

Lemma len_py_slice_to {A} (l : list A) (k : Z) :
  0 ≤ k ≤ len l → len (py_slice_to l k) = k.
Proof.
  intros Hk. rewrite py_slice_to_take by lia. unfold len in *.
  rewrite length_take. lia.
Qed.

(** [l[-k:]] keeps the last [k] items. *)
Lemma py_slice_from_last {A} (l : list A) (k : Z) :
  0 < k ≤ len l → py_slice_from l (- k) = drop (Z.to_nat (len l - k)) l
                  ∧ len (py_slice_from l (- k)) = k.
Proof.
  intros Hk. unfold py_slice_from.
  destruct (Z.ltb_spec (- k) 0) as [_|?]; [|lia].
  replace (- k + len l) with (len l - k) by lia. split; [done|].
  unfold len in *. rewrite length_drop. lia.
Qed.

(** X19.  With [left] and [right] not negative, [_ellipsize_segment]
    returns without raising a segment of [min(len(seg), left + right + 3)]
    characters that begins with the first [left] characters of [seg] and
    ends with its last [right] characters; ellipsizing the result again
    changes nothing. *)
Theorem ellipsize_segment_keeps_ends (seg : list ascii) (left right : Z) :
  0 ≤ left → 0 ≤ right →
  ∃ r, _ellipsize_segment seg left right = Ret r
       ∧ len r = Z.min (len seg) (left + right + 3)
       ∧ take (Z.to_nat left) r = take (Z.to_nat left) seg
       ∧ drop (Z.to_nat (len r - right)) r = drop (Z.to_nat (len seg - right)) seg
       ∧ _ellipsize_segment r left right = Ret r.
Proof.
  intros Hleft Hright. unfold _ellipsize_segment at 1.
  destruct (Z.ltb_spec left 0) as [?|_]; [lia|].
  destruct (Z.ltb_spec right 0) as [?|_]; [lia|]. simpl orb. cbv iota.
  change (len ELLIP) with 3.
  destruct (Z.leb_spec (len seg) (left + right + 3)) as [Hshort|Hlong].
  - exists seg. split_and!; [done|lia|done|done|].
    unfold _ellipsize_segment.
    destruct (Z.ltb_spec left 0) as [?|_]; [lia|].
    destruct (Z.ltb_spec right 0) as [?|_]; [lia|]. simpl orb. cbv iota.
    change (len ELLIP) with 3.
    by destruct (Z.leb_spec (len seg) (left + right + 3)) as [_|?]; [|lia].
  - set (tail := if 0 <? right then py_slice_from seg (- right) else []).
    assert (Htail : tail = drop (Z.to_nat (len seg - right)) seg ∧ len tail = right).
    { subst tail. destruct (Z.ltb_spec 0 right) as [Hpos|Hzero].
      - apply py_slice_from_last. lia.
      - replace right with 0 by lia. rewrite Z.sub_0_r. unfold len.
        rewrite Nat2Z.id, drop_all. done. }
    destruct Htail as [Htail Hlen_tail].
    assert (Hlen : len (py_slice_to seg left ++ ELLIP ++ tail) = left + right + 3).
    { rewrite !len_app, len_py_slice_to, Hlen_tail by lia.
      change (len ELLIP) with 3. lia. }
    eexists. split; [reflexivity|]. rewrite Hlen. split_and!.
    + lia.
    + rewrite py_slice_to_take by lia. rewrite take_app_le.
      * by rewrite take_take, Nat.min_id.
      * rewrite length_take. unfold len in *. lia.
    + replace (left + right + 3 - right) with (left + 3) by lia.
      rewrite app_assoc, drop_app_length'; [done|].
      rewrite length_app, py_slice_to_take, length_take by lia.
      unfold len in *. simpl. lia.
    + unfold _ellipsize_segment.
      destruct (Z.ltb_spec left 0) as [?|_]; [lia|].
      destruct (Z.ltb_spec right 0) as [?|_]; [lia|]. simpl orb. cbv iota.
      rewrite Hlen. change (len ELLIP) with 3.
      by destruct (Z.leb_spec (left + right + 3) (left + right + 3)) as [_|?]; [|lia].
Qed.

(** The theorem on [Recordings-2025] with 6 and 4 characters kept:
    13 characters are left. *)
Lemma ellipsize_segment_keeps_ends_witness :
  ∃ r, _ellipsize_segment (String.list_ascii_of_string "Recordings-2025") 6 4 = Ret r
       ∧ len r = 13.
Proof.
  destruct (ellipsize_segment_keeps_ends
              (String.list_ascii_of_string "Recordings-2025") 6 4)
    as (r & Hrun & Hlen & _); [lia|lia|].
  exists r. split; [exact Hrun|exact Hlen].
Defined.

(** X20.  With [ext_left] not negative and [ext_right] positive, an
    extension that starts with a dot comes out of [_ellipsize_ext] with
    [min(len(ext), ext_left + ext_right + 4)] characters and still starts
    with the dot; any other extension is returned as it is. *)
Theorem ellipsize_ext_bound (ext : list ascii) (ext_left ext_right : Z) :
  0 ≤ ext_left → 0 < ext_right →
  match ext with
  | "."%char :: _ =>
      len (_ellipsize_ext ext ext_left ext_right)
      = Z.min (len ext) (ext_left + ext_right + 4)
      ∧ head (_ellipsize_ext ext ext_left ext_right) = Some "."%char
  | _ => _ellipsize_ext ext ext_left ext_right = ext
  end.
Proof.
  intros Hleft Hright. unfold _ellipsize_ext. change (len ELLIP) with 3.
  destruct (Z.leb_spec (len ext) (ext_left + ext_right + 3 + 1)) as [Hshort|Hlong].
  - destruct ext as [|a ext]; [done|].
    destruct (decide (a = "."%char)) as [->|Hne].
    + split; [lia|done].
    + by repeat case_match.
  - destruct ext as [|a base_ext]; [done|].
    destruct (decide (a = "."%char)) as [->|Hne]; [|by repeat case_match].
    assert (Hbase : len ("."%char :: base_ext) = len base_ext + 1).
    { unfold len. simpl length. lia. }
    split; [|done].
    destruct (py_slice_from_last base_ext ext_right) as [_ Hlast]; [lia|].
    rewrite !len_app, len_py_slice_to, Hlast by lia.
    change (len ELLIP) with 3. unfold len at 1. simpl. lia.
Qed.

(** The theorem on [.backup-copy] with the defaults 2 and 3: nine
    characters are left. *)
Lemma ellipsize_ext_bound_witness :
  len (_ellipsize_ext (String.list_ascii_of_string ".backup-copy") 2 3) = 9.
Proof.
  destruct (ellipsize_ext_bound (String.list_ascii_of_string ".backup-copy") 2 3)
    as [Hlen _]; [lia|lia|exact Hlen].
Defined.
